(** * alx_travel_app: listings, bookings and reviews

    A shallow embedding of [listings/models.py], [listings/views.py] and
    [listings/serializers copy.py], and the properties of the booking
    availability, pricing, cancellation and review logic.

    Conventions.
    - A [datetime.date] is its proleptic Gregorian ordinal (a [Z]);
      subtracting two dates and taking [.days] is subtraction on [Z].
    - A [decimal.Decimal] is a coefficient and an exponent.
    - The database is a record of three tables (lists of rows).  A model
      instance is a record whose [pk] is [None] until it is inserted.
    - [timezone.now().date()] is the explicit parameter [today].
    - Django's [Model.full_clean] is written out for the validators the
      models declare: it collects the errors of the field validators, of
      [clean()] and of the uniqueness check in one dictionary, modelled as an
      association list from field name to message.  The length checks
      Django derives from [max_length] are left out: no stored string is
      near them.  The [CheckConstraint]s of [Booking.Meta] repeat
      conditions that [clean()] and [MinValueValidator(1)] already
      reject. *)

From Stdlib Require Import ZArith List Bool String QArith Lia.
Import ListNotations.
Local Open Scope string_scope.
Local Open Scope list_scope.
Local Open Scope Z_scope.

(** ** Dates *)

Module Date.

(** [datetime.date] ordinals, as CPython's [_ymd2ord] computes them. *)
Definition is_leap (year : Z) : bool :=
  (year mod 4 =? 0) && (negb (year mod 100 =? 0) || (year mod 400 =? 0)).

Definition days_before_year (year : Z) : Z :=
  let y := year - 1 in y * 365 + y / 4 - y / 100 + y / 400.

Definition DAYS_BEFORE_MONTH : list Z :=
  [0; 0; 31; 59; 90; 120; 151; 181; 212; 243; 273; 304; 334].

Definition days_before_month (year month : Z) : Z :=
  nth (Z.to_nat month) DAYS_BEFORE_MONTH 0
  + (if (month >? 2) && is_leap year then 1 else 0).

Definition ymd2ord (year month day : Z) : Z :=
  days_before_year year + days_before_month year month + day.

End Date.

(** ** Decimals *)

Record Decimal := mkDecimal { coef : Z; exp : Z }.

Definition Decimal_eqb (a b : Decimal) : bool :=
  (coef a =? coef b) && (exp a =? exp b).

(** The value of a decimal as a rational. *)
Definition Decimal_to_Q (d : Decimal) : Q :=
  if 0 <=? exp d
  then inject_Z (coef d * 10 ^ exp d)
  else Qmake (coef d) (Z.to_pos (10 ^ (- exp d))).

(** [Decimal * int]: the integer is a decimal of exponent 0, the
    coefficients multiply and the exponents add.  (The 28-digit context
    precision is never reached by a 10-digit price and a number of days.) *)
Definition Decimal_mul_int (d : Decimal) (n : Z) : Decimal :=
  mkDecimal (coef d * n) (exp d).

(** Truthiness of a decimal: zero is falsy. *)
Definition Decimal_truthy (d : Decimal) : bool := negb (coef d =? 0).

Definition truthy_price (p : option Decimal) : bool :=
  match p with Some d => Decimal_truthy d | None => false end.

(** Round half even of [n / 10^k], for [k >= 0]. *)
Definition div_half_even (n k : Z) : Z :=
  let p := 10 ^ k in
  let q := n / p in
  let r := n mod p in
  if 2 * r <? p then q
  else if p <? 2 * r then q + 1
  else if Z.even q then q else q + 1.

(** [Decimal.quantize(Decimal('0.01'))]: the value rounded to two decimal
    places (exponent -2). *)
Definition quantize2 (d : Decimal) : Decimal :=
  if exp d <? -2
  then mkDecimal (div_half_even (coef d) (-2 - exp d)) (-2)
  else mkDecimal (coef d * 10 ^ (exp d + 2)) (-2).

(** The float literal [0.01] of [MinValueValidator(0.01)]: the double
    nearest to one hundredth, as an exact ratio. *)
Definition float_0_01 : Q := Qmake 5764607523034235 576460752303423488.

(** ** Floats *)

(** The integer nearest to [a / b], ties to even, for [b > 0]. *)
Definition round_half_even (a b : Z) : Z :=
  let q := a / b in
  let r := a mod b in
  if 2 * r <? b then q
  else if b <? 2 * r then q + 1
  else if Z.even q then q else q + 1.

(** [52 - e] where [2^e <= a / b < 2^(e+1)], for [a, b > 0]: the power of
    two that scales [a / b] to a 53-bit mantissa. *)
Definition binary64_scale (a b : Z) : Z :=
  let e0 := Z.log2 a - Z.log2 b in
  let e := if a * 2 ^ Z.max 0 (- e0) <? b * 2 ^ Z.max 0 e0 then e0 - 1 else e0 in
  52 - e.

(** The IEEE 754 double nearest to [a / b], for [a >= 0] and [b > 0], as
    the exact ratio it stands for: what a floating-point division of two
    integers returns.  (Mantissa [m], value [m / 2^k]; the quotients met
    here are far from the subnormal and the overflow range.) *)
Definition binary64 (a b : Z) : Q :=
  if a <=? 0 then 0%Q
  else
    let k := binary64_scale a b in
    let m := round_half_even (a * 2 ^ Z.max 0 k) (b * 2 ^ Z.max 0 (- k)) in
    Qmake (m * 2 ^ Z.max 0 (- k)) (Z.to_pos (2 ^ Z.max 0 k)).

Fixpoint count_up (fuel : nat) (p q : Z) : Z :=
  match fuel with
  | O => 0
  | S f => if q * 10 <=? p then 1 + count_up f p (q * 10) else 0
  end.

Fixpoint count_down (fuel : nat) (p q : Z) : Z :=
  match fuel with
  | O => 1
  | S f => if q <=? p * 10 then 1 else 1 + count_down f (p * 10) q
  end.

(** The decimal exponent of the leading digit of [p / q], for [p, q > 0]:
    [Decimal.adjusted()]. *)
Definition adjusted (p q : Z) : Z :=
  if q <=? p then count_up (Z.to_nat (Z.log2 p + 1)) p q
  else - count_down (Z.to_nat (Z.log2 q + 1)) p q.

(** [Context(prec=prec).create_decimal_from_float(x)] for [x >= 0]: the
    exact value of the float rounded half even to [prec] significant
    digits.  (A float with fewer digits is kept as it is; its value is the
    one given here, written with [prec] digits.) *)
Definition create_decimal_from_float (prec : Z) (x : Q) : Decimal :=
  let p := Qnum x in
  let q := Z.pos (Qden x) in
  if p <=? 0 then mkDecimal 0 0
  else
    let adj := adjusted p q in
    let c := round_half_even (p * 10 ^ Z.max 0 (prec - 1 - adj))
                             (q * 10 ^ Z.max 0 (adj - (prec - 1))) in
    if c =? 10 ^ prec then mkDecimal (10 ^ (prec - 1)) (adj - prec + 2)
    else mkDecimal c (adj - prec + 1).

(** [d.quantize(Decimal(1).scaleb(-places), context)] with the context's
    precision [prec], for [d >= 0]: [d] rounded half even to [places]
    decimal places, or [None] for [decimal.InvalidOperation] when the
    result would need more than [prec] digits. *)
Definition quantize (prec places : Z) (d : Decimal) : option Decimal :=
  let c := if 0 <=? exp d + places then coef d * 10 ^ (exp d + places)
           else round_half_even (coef d) (10 ^ (- (exp d + places))) in
  if c <? 10 ^ prec then Some (mkDecimal c (- places)) else None.

(** What a [DecimalField(max_digits, decimal_places)] column stores when it
    is given a float: [to_python] makes it a decimal of [max_digits]
    significant digits and [format_number] quantizes that to
    [decimal_places] places.  [None] is [decimal.InvalidOperation]. *)
Definition DecimalField_of_float (max_digits decimal_places : Z) (x : Q)
  : option Decimal :=
  quantize max_digits decimal_places (create_decimal_from_float max_digits x).

(** ** The data model ([listings/models.py]) *)

Inductive Status := PENDING | CONFIRMED | CANCELLED | COMPLETED | NO_SHOW.

Definition Status_eqb (a b : Status) : bool :=
  match a, b with
  | PENDING, PENDING | CONFIRMED, CONFIRMED | CANCELLED, CANCELLED
  | COMPLETED, COMPLETED | NO_SHOW, NO_SHOW => true
  | _, _ => false
  end.

(** [status__in=['PENDING', 'CONFIRMED']] *)
Definition status_in_PENDING_CONFIRMED (s : Status) : bool :=
  Status_eqb s PENDING || Status_eqb s CONFIRMED.

Record User := mkUser { user_id : Z; is_staff : bool }.

(** The fields of [Listing] that the booking and review logic reads or
    writes; the descriptive fields (title, address, amenities, ...) take no
    part in it. *)
Record Listing := mkListing {
  listing_pk : Z;
  owner : Z;
  price_per_night : Decimal;
  max_guests : Z;
  is_available : bool;
  average_rating : Decimal;
  review_count : Z
}.

Record Booking := mkBooking {
  pk : option Z;
  listing : Z;
  guest : Z;
  check_in : Z;
  check_out : Z;
  guests : Z;
  total_price : option Decimal;
  status : Status;
  cancelled_at : option Z;
  cancellation_reason : option string
}.

Record Review := mkReview {
  review_pk : option Z;
  review_listing : Z;
  review_user : Z;
  rating : Z;
  title : string;
  comment : string;
  stay_date : option Z;
  is_public : bool
}.

Record Store := mkStore {
  listings : list Listing;
  bookings : list Booking;
  reviews : list Review
}.

Definition empty_store : Store := mkStore [] [] [].

Definition with_bookings (st : Store) (bs : list Booking) : Store :=
  mkStore (listings st) bs (reviews st).

Definition with_reviews (st : Store) (rs : list Review) : Store :=
  mkStore (listings st) (bookings st) rs.

Definition with_listings (st : Store) (ls : list Listing) : Store :=
  mkStore ls (bookings st) (reviews st).

Definition set_pk (b : Booking) (p : option Z) : Booking :=
  mkBooking p (listing b) (guest b) (check_in b) (check_out b) (guests b)
            (total_price b) (status b) (cancelled_at b) (cancellation_reason b).

Definition set_status (b : Booking) (s : Status) : Booking :=
  mkBooking (pk b) (listing b) (guest b) (check_in b) (check_out b) (guests b)
            (total_price b) s (cancelled_at b) (cancellation_reason b).

Definition set_total_price (b : Booking) (p : option Decimal) : Booking :=
  mkBooking (pk b) (listing b) (guest b) (check_in b) (check_out b) (guests b)
            p (status b) (cancelled_at b) (cancellation_reason b).

Definition set_review_pk (r : Review) (p : option Z) : Review :=
  mkReview p (review_listing r) (review_user r) (rating r) (title r)
           (comment r) (stay_date r) (is_public r).

Definition set_aggregate (l : Listing) (avg : Decimal) (n : Z) : Listing :=
  mkListing (listing_pk l) (owner l) (price_per_night l) (max_guests l)
            (is_available l) avg n.

(** ** Queries *)

Definition opt_Z_eqb (a b : option Z) : bool :=
  match a, b with
  | Some x, Some y => x =? y
  | None, None => true
  | _, _ => false
  end.

Definition get_listing (st : Store) (id : Z) : option Listing :=
  find (fun l => listing_pk l =? id) (listings st).

Definition get_booking (bs : list Booking) (id : Z) : option Booking :=
  find (fun b => opt_Z_eqb (pk b) (Some id)) bs.

(** [Booking.objects.filter(listing=l, check_out__gt=ci, check_in__lt=co,
    status__in=['PENDING', 'CONFIRMED'])] *)
Definition filter_overlapping (bs : list Booking) (l ci co : Z) : list Booking :=
  filter (fun e => (listing e =? l) && (check_out e >? ci) && (check_in e <? co)
                   && status_in_PENDING_CONFIRMED (status e)) bs.

(** [.exclude(pk=p)]: the rows whose key is not [p]; [pk=None] matches no
    stored row, so it removes nothing. *)
Definition exclude_pk (p : option Z) (bs : list Booking) : list Booking :=
  match p with
  | Some _ => filter (fun e => negb (opt_Z_eqb (pk e) p)) bs
  | None => bs
  end.

(** [.exists()] *)
Definition exists_ {A} (q : list A) : bool :=
  match q with [] => false | _ :: _ => true end.

(** [x if x else None] on a primary key: 0 is falsy. *)
Definition pk_or_None (p : option Z) : option Z :=
  match p with
  | Some x => if x =? 0 then None else Some x
  | None => None
  end.

(** ** Validation messages *)

Inductive ValidationMsg :=
| Date_cannot_be_in_the_past
| Check_out_must_be_after_check_in
| Property_already_booked
| Guests_exceed_maximum (n m : Z)
| Min_value_violated
| Max_value_violated
| Not_a_valid_choice
| Field_cannot_be_null
| Field_cannot_be_blank
| Instance_does_not_exist
| Only_review_properties_stayed_at
| Stay_date_cannot_be_in_the_future
| Already_exists_with_this_listing_and_user
| Max_digits_exceeded
| Max_decimal_places_exceeded
| Max_whole_digits_exceeded.

Definition Errors := list (string * ValidationMsg).

Definition NON_FIELD_ERRORS : string := "__all__".

(** [validate_future_date] (models.py 9-11), as a field validator of
    [field]. *)
Definition validate_future_date (today : Z) (field : string) (value : Z) : Errors :=
  if value <? today then [(field, Date_cannot_be_in_the_past)] else [].

(** ** Booking ([listings/models.py] 107-216) *)

(** [Booking.clean] (165-186): the first error raised, if any. *)
Definition Booking_clean (st : Store) (l : Listing) (self : Booking)
  : option ValidationMsg :=
  if check_out self <=? check_in self
  then Some Check_out_must_be_after_check_in
  else
    let overlapping :=
      exclude_pk (pk_or_None (pk self))
        (filter_overlapping (bookings st) (listing self)
                            (check_in self) (check_out self)) in
    if exists_ overlapping then Some Property_already_booked
    else if guests self >? max_guests l
         then Some (Guests_exceed_maximum (guests self) (max_guests l))
         else None.

Fixpoint digits_aux (fuel : nat) (n : Z) : Z :=
  match fuel with
  | O => 1
  | S f => if n <? 10 then 1 else 1 + digits_aux f (n / 10)
  end.

(** [len(digit_tuple)]: the number of decimal digits of a coefficient. *)
Definition num_digits (c : Z) : Z :=
  digits_aux (Z.to_nat (Z.log2 (Z.abs c) + 1)) (Z.abs c).

(** Django's [DecimalValidator(max_digits, decimal_places)], which a
    [DecimalField] appends to its validators: it counts the digits and the
    decimals of the value as written and raises on the first bound that is
    exceeded. *)
Definition DecimalValidator (max_digits decimal_places : Z) (value : Decimal)
  : option ValidationMsg :=
  let len := num_digits (coef value) in
  let exponent := exp value in
  let '(digits, decimals) :=
    if 0 <=? exponent
    then ((if coef value =? 0 then len else len + exponent), 0)
    else if len <? Z.abs exponent
         then (Z.abs exponent, Z.abs exponent)
         else (len, Z.abs exponent) in
  let whole_digits := digits - decimals in
  if digits >? max_digits then Some Max_digits_exceeded
  else if decimals >? decimal_places then Some Max_decimal_places_exceeded
  else if whole_digits >? max_digits - decimal_places
       then Some Max_whole_digits_exceeded
       else None.

(** The validators of [total_price]: [MinValueValidator(0.01)], then the
    [DecimalValidator] of [max_digits=10, decimal_places=2]; each adds its
    error. *)
Definition validate_total_price (p : Decimal) : Errors :=
  (if Qle_bool float_0_01 (Decimal_to_Q p) then []
   else [("total_price", Min_value_violated)])
  ++ match DecimalValidator 10 2 p with
     | Some m => [("total_price", m)]
     | None => []
     end.

(** The field validators of [Booking]. *)
Definition Booking_clean_fields (today : Z) (self : Booking) : Errors :=
  validate_future_date today "check_in" (check_in self)
  ++ validate_future_date today "check_out" (check_out self)
  ++ (if guests self <? 1 then [("guests", Min_value_violated)] else [])
  ++ match total_price self with
     | None => [("total_price", Field_cannot_be_null)]
     | Some p => validate_total_price p
     end.

(** [Booking.full_clean()]: the errors of the field validators, then the one
    of [clean()].  A booking whose listing row is missing fails on its
    foreign key. *)
Definition Booking_full_clean (today : Z) (st : Store) (self : Booking) : Errors :=
  match get_listing st (listing self) with
  | None => [("listing", Instance_does_not_exist)]
  | Some l =>
      Booking_clean_fields today self
      ++ match Booking_clean st l self with
         | Some m => [(NON_FIELD_ERRORS, m)]
         | None => []
         end
  end.

(** The key the database gives a new row: one more than the largest. *)
Definition max_pk (ps : list (option Z)) : Z :=
  fold_right (fun p m => match p with Some x => Z.max x m | None => m end) 0 ps.

Definition fresh_booking_pk (bs : list Booking) : Z := max_pk (map pk bs) + 1.

(** [super().save()]: update the row of the instance's key when there is
    one, insert otherwise; a new instance gets its key. *)
Definition Booking_write (bs : list Booking) (self : Booking)
  : list Booking * Booking :=
  match pk self with
  | Some p =>
      if exists_ (filter (fun e => opt_Z_eqb (pk e) (Some p)) bs)
      then (map (fun e => if opt_Z_eqb (pk e) (Some p) then self else e) bs, self)
      else (bs ++ [self], self)
  | None =>
      let self' := set_pk self (Some (fresh_booking_pk bs)) in
      (bs ++ [self'], self')
  end.

Inductive Saved (A : Type) :=
| Persisted (st : Store) (self : A)
| ValidationError (errs : Errors).
Arguments Persisted {A} st self.
Arguments ValidationError {A} errs.

(** The outcome of a [save] that goes on after its row is written: it
    returns as [Saved] says, or the work after the write has raised
    [decimal.InvalidOperation] and left the store [st]. *)
Inductive Outcome (A : Type) :=
| Returned (r : Saved A)
| InvalidOperation (st : Store).
Arguments Returned {A} r.
Arguments InvalidOperation {A} st.

(** A result of [Saved] is read as the outcome that returns it. *)
Coercion Returned : Saved >-> Outcome.

(** [Booking.save] (188-194). *)
Definition Booking_save (today : Z) (st : Store) (self : Booking) : Saved Booking :=
  match Booking_full_clean today st self with
  | (_ :: _) as errs => ValidationError errs
  | [] =>
      let self1 :=
        if negb (truthy_price (total_price self))
        then match get_listing st (listing self) with
             | Some l =>
                 let nights := check_out self - check_in self in
                 set_total_price self
                   (Some (Decimal_mul_int (price_per_night l) nights))
             | None => self
             end
        else self in
      let '(bs, self2) := Booking_write (bookings st) self1 in
      Persisted (with_bookings st bs) self2
  end.

(** [Booking.save] (188-194) beside other requests.  The method has two
    moments: [full_clean] queries the tables as they are when it runs
    ([seen]), and [super().save()] writes the row into the table as it is
    when the statement runs ([st]).  The method opens no transaction and
    takes no lock, and the constraints of the table (196-209) speak of one
    row only, so a row that another request writes between the two moments
    is in [st] and not in [seen]. *)
Definition Booking_save_on (today : Z) (seen st : Store) (self : Booking)
  : Saved Booking :=
  match Booking_full_clean today seen self with
  | (_ :: _) as errs => ValidationError errs
  | [] =>
      let self1 :=
        if negb (truthy_price (total_price self))
        then match get_listing seen (listing self) with
             | Some l =>
                 let nights := check_out self - check_in self in
                 set_total_price self
                   (Some (Decimal_mul_int (price_per_night l) nights))
             | None => self
             end
        else self in
      let '(bs, self2) := Booking_write (bookings st) self1 in
      Persisted (with_bookings st bs) self2
  end.

(** ** Views ([listings/views.py]) *)

Inductive AvailableError :=
| Both_parameters_required
| Invalid_date_format
| Check_out_date_must_be_after_check_in_date.

Inductive AvailableResponse :=
| Available_404
| Available_400 (error : AvailableError)
| Available_200 (is_available : bool) (listing_id check_in check_out : Z).

(** Truthiness of a query parameter: absent and empty are falsy. *)
Definition truthy_param (p : option string) : bool :=
  match p with
  | Some s => negb (String.eqb s "")
  | None => false
  end.

Section Available.

(** [timezone.datetime.strptime(s, '%Y-%m-%d').date()], [None] when it
    raises [ValueError]. *)
Variable strptime : string -> option Z.

(** [ListingViewSet.available] (views.py 25-69). *)
Definition available (st : Store) (pk : Z) (check_in check_out : option string)
  : AvailableResponse :=
  match get_listing st pk with
  | None => Available_404
  | Some listing =>
      if negb (truthy_param check_in && truthy_param check_out)
      then Available_400 Both_parameters_required
      else
        match check_in, check_out with
        | Some s_in, Some s_out =>
            match strptime s_in, strptime s_out with
            | Some check_in, Some check_out =>
                if check_in >=? check_out
                then Available_400 Check_out_date_must_be_after_check_in_date
                else
                  let is_available :=
                    negb (exists_ (filter_overlapping (bookings st)
                                     (listing_pk listing) check_in check_out)) in
                  Available_200 is_available (listing_pk listing) check_in check_out
            | _, _ => Available_400 Invalid_date_format
            end
        | _, _ => Available_400 Both_parameters_required
        end
  end.

End Available.

Inductive CancelError :=
| This_booking_is_already_cancelled
| Cannot_cancel_a_completed_booking.

Inductive CancelResponse :=
| Cancel_404
| Cancel_403
| Cancel_400 (error : CancelError)
| Cancel_raised (errs : Errors)
| Cancel_200 (booking_id : option Z) (status : Status).

(** [BookingViewSet.get_queryset] (78-85). *)
Definition get_queryset (st : Store) (user : User) : list Booking :=
  if is_staff user then bookings st
  else filter (fun b => guest b =? user_id user) (bookings st).

(** [BookingViewSet.cancel] (93-126).  [self.get_object()] looks the key up
    in [get_queryset()] and answers 404 when it is not there.  A
    [ValidationError] of [booking.save()] is not caught by the view. *)
Definition cancel (today : Z) (st : Store) (user : User) (pk_ : Z)
  : Store * CancelResponse :=
  match get_booking (get_queryset st user) pk_ with
  | None => (st, Cancel_404)
  | Some booking =>
      if negb (guest booking =? user_id user) && negb (is_staff user)
      then (st, Cancel_403)
      else if Status_eqb (status booking) CANCELLED
      then (st, Cancel_400 This_booking_is_already_cancelled)
      else if Status_eqb (status booking) COMPLETED
      then (st, Cancel_400 Cannot_cancel_a_completed_booking)
      else
        let booking := set_status booking CANCELLED in
        match Booking_save today st booking with
        | ValidationError errs => (st, Cancel_raised errs)
        | Persisted st' booking => (st', Cancel_200 (pk booking) (status booking))
        end
  end.

(** ** Serializers ([listings/serializers copy.py]) *)

(** The [data] dictionary of [BookingSerializer.validate]: a key may be
    absent.  [listing] is the instance [PrimaryKeyRelatedField] has read
    from the table. *)
Record BookingData := mkBookingData {
  data_check_in : option Z;
  data_check_out : option Z;
  data_listing : option Listing;
  data_guests : option Z
}.

Inductive SerializerMsg :=
| Check_in_date_cannot_be_in_the_past
| Check_out_date_must_be_after_check_in
| Minimum_stay_is_1_night
| Maximum_stay_is_30_nights
| Listing_is_not_available_for_booking
| Listing_is_not_available_for_the_selected_dates
| Maximum_guests_allowed (m : Z)
| You_have_already_reviewed_this_listing
| You_can_only_review_listings_you_have_stayed_at.

(** [guests > listing.max_guests], the last check of [validate]. *)
Definition validate_guests (listing : option Listing) (guests : Z)
  : option (string * SerializerMsg) :=
  match listing with
  | Some l => if guests >? max_guests l
              then Some ("guests", Maximum_guests_allowed (max_guests l))
              else None
  | None => None
  end.

(** [BookingSerializer.validate] (187-249): the error raised, or [None]
    when it returns [data]. *)
Definition BookingSerializer_validate (today : Z) (st : Store)
    (instance : option Booking) (data : BookingData)
  : option (string * SerializerMsg) :=
  let listing := data_listing data in
  let guests := match data_guests data with Some g => g | None => 1 end in
  match data_check_in data, data_check_out data with
  | Some check_in, Some check_out =>
      if check_in <? today
      then Some ("check_in", Check_in_date_cannot_be_in_the_past)
      else if check_out <=? check_in
      then Some ("check_out", Check_out_date_must_be_after_check_in)
      else if check_out - check_in <? 1
      then Some ("check_out", Minimum_stay_is_1_night)
      else if check_out - check_in >? 30
      then Some ("check_out", Maximum_stay_is_30_nights)
      else if match listing with Some l => negb (is_available l) | None => false end
      then Some ("listing", Listing_is_not_available_for_booking)
      else
        let overlapping_bookings :=
          match listing with
          | Some l => filter_overlapping (bookings st) (listing_pk l) check_in check_out
          | None => []
          end in
        let overlapping_bookings :=
          match instance with
          | Some i => exclude_pk (pk i) overlapping_bookings
          | None => overlapping_bookings
          end in
        if exists_ overlapping_bookings
        then Some ("check_in", Listing_is_not_available_for_the_selected_dates)
        else validate_guests listing guests
  | _, _ => validate_guests listing guests
  end.

(** [BookingSerializer.create] (251-272), on the validated data of a
    creation request; the four fields are required, so they are present
    ([None] stands for the [KeyError] of an absent key).
    [Booking.objects.create] builds the instance and calls [save]. *)
Definition BookingSerializer_create (today : Z) (st : Store) (user : User)
    (validated_data : BookingData) : option (Saved Booking) :=
  match data_listing validated_data, data_check_in validated_data,
        data_check_out validated_data, data_guests validated_data with
  | Some listing, Some check_in, Some check_out, Some guests =>
      let nights := check_out - check_in in
      let total_price := Decimal_mul_int (price_per_night listing) nights in
      Some (Booking_save today st
              (mkBooking None (listing_pk listing) (user_id user)
                         check_in check_out guests (Some total_price)
                         PENDING None None))
  | _, _, _, _ => None
  end.

(** ** Review ([listings/models.py] 219-357) *)

(** [Booking.objects.filter(listing=l, guest=u, status='COMPLETED',
    check_out__lte=today).exists()] *)
Definition has_completed_booking (today : Z) (st : Store) (l u : Z) : bool :=
  exists_ (filter (fun b => (listing b =? l) && (guest b =? u)
                            && Status_eqb (status b) COMPLETED
                            && (check_out b <=? today)) (bookings st)).

(** [Review.clean] (303-317). *)
Definition Review_clean (today : Z) (st : Store) (self : Review)
  : option ValidationMsg :=
  if negb (has_completed_booking today st (review_listing self) (review_user self))
  then Some Only_review_properties_stayed_at
  else match stay_date self with
       | Some d => if d >? today then Some Stay_date_cannot_be_in_the_future
                   else None
       | None => None
       end.

(** The field checks of [Review]: the rating is one of the five choices,
    title and comment are not blank. *)
Definition Review_clean_fields (self : Review) : Errors :=
  (if (1 <=? rating self) && (rating self <=? 5) then []
   else [("rating", Not_a_valid_choice)])
  ++ (if String.eqb (title self) "" then [("title", Field_cannot_be_blank)] else [])
  ++ (if String.eqb (comment self) "" then [("comment", Field_cannot_be_blank)] else []).

(** [unique_together = ['listing', 'user']]: another row with the same
    pair. *)
Definition Review_validate_unique (st : Store) (self : Review) : Errors :=
  if exists_ (filter (fun r => (review_listing r =? review_listing self)
                               && (review_user r =? review_user self)
                               && negb (match review_pk self with
                                        | Some _ => opt_Z_eqb (review_pk r) (review_pk self)
                                        | None => false
                                        end))
                     (reviews st))
  then [(NON_FIELD_ERRORS, Already_exists_with_this_listing_and_user)]
  else [].

Definition Review_full_clean (today : Z) (st : Store) (self : Review) : Errors :=
  match get_listing st (review_listing self) with
  | None => [("listing", Instance_does_not_exist)]
  | Some _ =>
      Review_clean_fields self
      ++ match Review_clean today st self with
         | Some m => [(NON_FIELD_ERRORS, m)]
         | None => []
         end
      ++ Review_validate_unique st self
  end.

Definition fresh_review_pk (rs : list Review) : Z := max_pk (map review_pk rs) + 1.

Definition Review_write (rs : list Review) (self : Review) : list Review * Review :=
  match review_pk self with
  | Some p =>
      if exists_ (filter (fun e => opt_Z_eqb (review_pk e) (Some p)) rs)
      then (map (fun e => if opt_Z_eqb (review_pk e) (Some p) then self else e) rs, self)
      else (rs ++ [self], self)
  | None =>
      let self' := set_review_pk self (Some (fresh_review_pk rs)) in
      (rs ++ [self'], self')
  end.

Fixpoint Zsum (xs : list Z) : Z :=
  match xs with
  | [] => 0
  | x :: r => x + Zsum r
  end.

(** [Review.objects.filter(listing=l, is_public=True)], as its ratings. *)
Definition public_ratings (st : Store) (l : Z) : list Z :=
  map rating (filter (fun r => (review_listing r =? l) && is_public r) (reviews st)).

(** [Avg('rating')]: [None] over no rows, else the mean as the float the
    database's division of the sum by the count returns.  (The settings
    module is not among the sources.  The aggregate is written for the
    backend of a new Django project, SQLite, where [Avg] over an integer
    column is a float and a decimal is adapted with [format_number].) *)
Definition Avg (xs : list Z) : option Q :=
  match xs with
  | [] => None
  | _ :: _ => Some (binary64 (Zsum xs) (Z.of_nat (List.length xs)))
  end.

(** [Count('id')] *)
Definition Count (xs : list Z) : Z := Z.of_nat (List.length xs).

(** [update_average_rating] (333-354): the aggregate of the public
    reviews, written to the listing's row by [update()].  The column
    [average_rating] is a [DecimalField(max_digits=3, decimal_places=2)]
    (360-366), so the float is stored as [DecimalField_of_float] gives it;
    [None] when that raises [decimal.InvalidOperation].  ([result or 0]
    turns an absent or zero mean into the integer 0, stored as 0.00.  The
    method also sets the two attributes of the instance, which no caller
    reads afterwards.) *)
Definition update_average_rating (st : Store) (self : Listing) : option Store :=
  let result_average_rating := Avg (public_ratings st (listing_pk self)) in
  let result_review_count := Count (public_ratings st (listing_pk self)) in
  let average_rating :=
    match result_average_rating with
    | Some a => if Qeq_bool a 0 then 0%Q else a
    | None => 0%Q
    end in
  match DecimalField_of_float 3 2 average_rating with
  | Some stored =>
      Some (with_listings st
              (map (fun l => if listing_pk l =? listing_pk self
                             then set_aggregate l stored result_review_count
                             else l) (listings st)))
  | None => None
  end.

(** [Review.save] (319-324): [full_clean], the write, then the listing's
    aggregate.  When the last step raises, the review is already
    written. *)
Definition Review_save (today : Z) (st : Store) (self : Review) : Outcome Review :=
  match Review_full_clean today st self with
  | (_ :: _) as errs => ValidationError errs
  | [] =>
      let '(rs, self) := Review_write (reviews st) self in
      let st := with_reviews st rs in
      match get_listing st (review_listing self) with
      | Some l =>
          match update_average_rating st l with
          | Some st' => Persisted st' self
          | None => InvalidOperation st
          end
      | None => Persisted st self
      end
  end.

Inductive Deleted :=
| Deleted_and_updated (st : Store)
| Not_deleted
| Deleted_then_InvalidOperation (st : Store).

(** [Review.delete] (326-330): [Not_deleted] when the instance has no key
    or no listing row, where Django raises before it deletes; when the
    aggregate raises, the row is already deleted. *)
Definition Review_delete (st : Store) (self : Review) : Deleted :=
  match get_listing st (review_listing self), review_pk self with
  | Some listing, Some p =>
      let st :=
        with_reviews st
          (filter (fun r => negb (opt_Z_eqb (review_pk r) (Some p))) (reviews st)) in
      match update_average_rating st listing with
      | Some st' => Deleted_and_updated st'
      | None => Deleted_then_InvalidOperation st
      end
  | _, _ => Not_deleted
  end.

(** [ReviewCreateSerializer.validate] (60-84). *)
Definition ReviewCreateSerializer_validate (today : Z) (st : Store)
    (listing : Listing) (user : User) : option SerializerMsg :=
  if exists_ (filter (fun r => (review_listing r =? listing_pk listing)
                               && (review_user r =? user_id user)) (reviews st))
  then Some You_have_already_reviewed_this_listing
  else
    let has_completed_booking :=
      has_completed_booking today st (listing_pk listing) (user_id user) in
    if negb has_completed_booking
    then Some You_can_only_review_listings_you_have_stayed_at
    else None.

(** ** Field validators of [ReviewSerializer] ([listings/serializers copy.py] 42-52) *)

Inductive ReviewFieldMsg :=
| Rating_must_be_between_1_and_5
| Stay_date_in_the_future.

(** [ReviewSerializer.validate_rating] (42-46). *)
Definition ReviewSerializer_validate_rating (value : Z) : option ReviewFieldMsg :=
  if negb ((1 <=? value) && (value <=? 5))
  then Some Rating_must_be_between_1_and_5
  else None.

(** [ReviewSerializer.validate_stay_date] (48-52); an absent date is
    falsy. *)
Definition ReviewSerializer_validate_stay_date (today : Z) (value : option Z)
  : option ReviewFieldMsg :=
  match value with
  | Some d => if d >? today then Some Stay_date_in_the_future else None
  | None => None
  end.

(** ** The earlier serializer ([alx_travel_app/listings/serializers.py]) *)

Module AlxTravelApp.

Inductive ValidationMsg :=
| Check_out_date_must_be_after_check_in_date
| This_listing_is_already_booked_for_the_selected_dates.

Inductive Validated :=
| KeyError
| Invalid (msg : ValidationMsg)
| Valid.

(** [BookingSerializer.validate] (30-51).  The three keys are read with
    [data[...]], which raises [KeyError] on an absent key: the dates first,
    the listing only once the dates are in order. *)
Definition BookingSerializer_validate (st : Store) (instance : option Booking)
    (data : BookingData) : Validated :=
  match data_check_in data, data_check_out data with
  | Some check_in, Some check_out =>
      if check_in >=? check_out
      then Invalid Check_out_date_must_be_after_check_in_date
      else
        match data_listing data with
        | None => KeyError
        | Some listing =>
            let overlapping_bookings :=
              filter_overlapping (bookings st) (listing_pk listing)
                                 check_in check_out in
            let overlapping_bookings :=
              match instance with
              | Some i => exclude_pk (pk i) overlapping_bookings
              | None => overlapping_bookings
              end in
            if exists_ overlapping_bookings
            then Invalid This_listing_is_already_booked_for_the_selected_dates
            else Valid
        end
  | _, _ => KeyError
  end.

End AlxTravelApp.

(** * Specification vocabulary *)

(** An active booking holds status PENDING or CONFIRMED. *)
Definition active (e : Booking) : Prop :=
  status e = PENDING \/ status e = CONFIRMED.

(** The stay of [e] meets the range from [ci] to [co]. *)
Definition conflicts (e : Booking) (ci co : Z) : Prop :=
  check_out e > ci /\ check_in e < co.

(** The row [e] is the one a query leaves out with [exclude(pk=p)]. *)
Definition excluded_by (p : option Z) (e : Booking) : Prop :=
  p <> None /\ pk e = p.

(** Keys identify rows. *)
Definition primary_key (bs : list Booking) : Prop := NoDup (map pk bs).

(** No two active bookings of one listing overlap. *)
Definition no_double_booking (bs : list Booking) : Prop :=
  forall b1 b2,
    In b1 bs -> In b2 bs -> listing b1 = listing b2 -> active b1 -> active b2 ->
    check_out b1 > check_in b2 /\ check_in b1 < check_out b2 ->
    b1 = b2.

(** One operation on the store, run from its start to its end before the
    next one starts.  Every write of a booking goes through [Booking.save]
    and every write of a review through [Review.save]; rows of the booking
    table and of the review table may be deleted, also in bulk or by a
    cascade, which does not call [Review.delete] ([seed.py] 80-85); the
    listing table may change in any way. *)
Inductive step : Store -> Store -> Prop :=
| step_Booking_save today st self st' self' :
    Booking_save today st self = Persisted st' self' -> step st st'
| step_cancel today st user key st' r :
    cancel today st user key = (st', r) -> step st st'
| step_BookingSerializer_create today st user data st' self' :
    BookingSerializer_create today st user data = Some (Persisted st' self') ->
    step st st'
| step_Review_save today st self st' self' :
    Review_save today st self = Persisted st' self' -> step st st'
| step_Review_save_raised today st self st' :
    Review_save today st self = InvalidOperation st' -> step st st'
| step_Review_delete st self st' :
    Review_delete st self = Deleted_and_updated st' -> step st st'
| step_Review_delete_raised st self st' :
    Review_delete st self = Deleted_then_InvalidOperation st' -> step st st'
| step_delete_bookings st keep :
    step st (with_bookings st (filter keep (bookings st)))
| step_delete_reviews st keep :
    step st (with_reviews st (filter keep (reviews st)))
| step_listings st ls :
    step st (with_listings st ls).

Inductive reachable : Store -> Prop :=
| reachable_empty : reachable empty_store
| reachable_step st st' : reachable st -> step st st' -> reachable st'.

(** Review eligibility. *)
Definition completed_stay (today : Z) (st : Store) (l u : Z) : Prop :=
  exists b, In b (bookings st) /\ listing b = l /\ guest b = u
            /\ status b = COMPLETED /\ check_out b <= today.

Definition reviewed (st : Store) (l u : Z) : Prop :=
  exists r, In r (reviews st) /\ review_listing r = l /\ review_user r = u.

(** The ratings that count for listing [key]: those of its reviews that
    are public, row by row. *)
Fixpoint ratings_of_public_reviews (rs : list Review) (key : Z) : list Z :=
  match rs with
  | [] => []
  | r :: rs' =>
      if is_public r
      then if review_listing r =? key
           then rating r :: ratings_of_public_reviews rs' key
           else ratings_of_public_reviews rs' key
      else ratings_of_public_reviews rs' key
  end.

(** The mean of [xs] to two decimal places, as a column of three digits
    and two places holds the float of sum / count; 0.00 for no ratings.
    [None] when the mean does not fit the column. *)
Definition mean_to_two_places (xs : list Z) : option Decimal :=
  match xs with
  | [] => Some (mkDecimal 0 (-2))
  | _ :: _ =>
      DecimalField_of_float 3 2 (binary64 (Zsum xs) (Z.of_nat (List.length xs)))
  end.

(** [c] hundredths is the mean of [xs] to two places: it differs from the
    sum over the count by at most half a hundredth and the error of the
    float, 2^-50. *)
Definition nearest_hundredths (c : Z) (xs : list Z) : Prop :=
  2 ^ 50 * Z.abs (c * Z.of_nat (List.length xs) - 100 * Zsum xs)
  <= Z.of_nat (List.length xs) * (2 ^ 49 + 100).

(** The row of listing [key] carries the aggregate of its public reviews:
    their mean to two places and their number. *)
Definition aggregate_stored (st : Store) (key : Z) : Prop :=
  exists l,
    get_listing st key = Some l
    /\ Some (average_rating l)
       = mean_to_two_places (ratings_of_public_reviews (reviews st) key)
    /\ review_count l
       = Z.of_nat (List.length (ratings_of_public_reviews (reviews st) key)).

(** A stored booking has a key, a stay of at least one night, at least one
    guest and a price that passes its two validators. *)
Definition well_formed_booking (b : Booking) : Prop :=
  pk b <> None
  /\ check_in b < check_out b
  /\ 1 <= guests b
  /\ exists p, total_price b = Some p
               /\ Qle_bool float_0_01 (Decimal_to_Q p) = true
               /\ DecimalValidator 10 2 p = None.

(** Keys identify reviews, and a user has one review of a listing. *)
Definition one_review_per_user (rs : list Review) : Prop :=
  NoDup (map review_pk rs)
  /\ forall r1 r2,
      In r1 rs -> In r2 rs ->
      review_listing r1 = review_listing r2 -> review_user r1 = review_user r2 ->
      review_pk r1 = review_pk r2.

(** Every stored rating is one of the five choices. *)
Definition ratings_in_range (rs : list Review) : Prop :=
  forall r, In r rs -> 1 <= rating r <= 5.

(** ** Sample data *)

Module Sample.

Definition jan (day : Z) : Z := Date.ymd2ord 2024 1 day.

Definition strptime (s : string) : option Z :=
  if String.eqb s "2024-01-08" then Some (jan 8)
  else if String.eqb s "2024-01-10" then Some (jan 10)
  else if String.eqb s "2024-01-12" then Some (jan 12)
  else None.

(** A listing at 100.00 a night for two guests. *)
Definition L : Listing :=
  mkListing 1 10 (mkDecimal 10000 (-2)) 2 true (mkDecimal 0 (-2)) 0.

Definition guest20 : User := mkUser 20 false.
Definition other21 : User := mkUser 21 false.

(** A booking of [L] by user 20 from January 5 to January 10. *)
Definition B (s : Status) : Booking :=
  mkBooking (Some 1) 1 20 (jan 5) (jan 10) 2 (Some (mkDecimal 50000 (-2)))
            s None None.

Definition S (s : Status) : Store := mkStore [L] [B s] [].

Definition data_Jan5_Jan10 : BookingData :=
  mkBookingData (Some (jan 5)) (Some (jan 10)) (Some L) (Some 2).

(** Three guests who have completed a stay at [L]. *)
Definition stay (key user from : Z) : Booking :=
  mkBooking (Some key) 1 user (jan from) (jan (from + 2)) 2
            (Some (mkDecimal 20000 (-2))) COMPLETED None None.

Definition stays : Store :=
  mkStore [L] [stay 1 20 2; stay 2 21 5; stay 3 22 8] [].

Definition R (key : option Z) (user stars : Z) : Review :=
  mkReview key 1 user stars "Stay" "Clean and quiet" None true.

(** [Review.objects.create] for each review in turn. *)
Fixpoint create_reviews (today : Z) (st : Store) (rs : list Review)
  : option Store :=
  match rs with
  | [] => Some st
  | r :: rs =>
      match Review_save today st r with
      | Returned (Persisted st' _) => create_reviews today st' rs
      | _ => None
      end
  end.

Definition aggregates (st : Store) : list (Decimal * Z) :=
  map (fun l => (average_rating l, review_count l)) (listings st).

(** Three nights from January 1 at 100.00 a night. *)
Definition B300 : Booking :=
  mkBooking (Some 1) 1 20 (jan 1) (jan 4) 2 (Some (mkDecimal 30000 (-2)))
            PENDING None None.

End Sample.

Module SampleDates.

(** A parser that knows the two days of [Sample.B]. *)
Definition strptime (s : string) : option Z :=
  if String.eqb s "2024-01-05" then Some (Sample.jan 5)
  else if String.eqb s "2024-01-10" then Some (Sample.jan 10)
  else None.

Definition data (from to guests : Z) : BookingData :=
  mkBookingData (Some (Sample.jan from)) (Some (Sample.jan to))
                (Some Sample.L) (Some guests).

End SampleDates.

Module SampleReviews.

(** A second listing, and guests who have completed stays: users 20 to
    23 at [Sample.L], users 20 and 21 also at [L2]. *)
Definition L2 : Listing :=
  mkListing 2 11 (mkDecimal 8000 (-2)) 4 true (mkDecimal 0 (-2)) 0.

Definition stay2 (key user : Z) : Booking :=
  mkBooking (Some key) 2 user (Sample.jan (key + 9)) (Sample.jan (key + 10)) 1
            (Some (mkDecimal 8000 (-2))) COMPLETED None None.

Definition stays : Store :=
  mkStore [Sample.L; L2]
          [Sample.stay 1 20 2; Sample.stay 2 21 5; Sample.stay 3 22 8;
           Sample.stay 4 23 11; stay2 5 20; stay2 6 21]
          [].

(** A private review of [Sample.L] and a public review of [L2]. *)
Definition private (key : option Z) (user stars : Z) : Review :=
  mkReview key 1 user stars "Stay" "Not for everyone to read" None false.

Definition of_L2 (key : option Z) (user stars : Z) : Review :=
  mkReview key 2 user stars "Stay" "Clean and quiet" None true.

(** The store after three public reviews of [Sample.L] rated 5, 4 and 3,
    a private one rated 1 and a review of [L2] rated 2. *)
Definition after5 : Store :=
  Eval vm_compute in
    match Sample.create_reviews (Sample.jan 20) stays
            [Sample.R None 20 5; Sample.R None 21 4; Sample.R None 22 3;
             private None 23 1; of_L2 None 20 2] with
    | Some st => st
    | None => stays
    end.

(** A request of a user for [Sample.L], two guests, at 100.00 a night, from
    one day of January to another. *)
Definition request (user from to : Z) : Booking :=
  mkBooking None 1 user (Sample.jan from) (Sample.jan to) 2
            (Some (mkDecimal (10000 * (to - from)) (-2))) PENDING None None.

(** [stays] after user 30 has booked [Sample.L] from January 25 to January
    28: the booking is the row of key 7, PENDING. *)
Definition booked : Store :=
  Eval vm_compute in
    match Booking_save (Sample.jan 20) stays (request 30 25 28) with
    | Persisted st _ => st
    | ValidationError _ => stays
    end.

(** [booked] when the request of user 31 for January 27 to January 30 ran
    its [full_clean] on [stays], before the booking of user 30 was written:
    the rows of keys 7 and 8 overlap and both are PENDING. *)
Definition double_booked : Store :=
  Eval vm_compute in
    match Booking_save_on (Sample.jan 20) stays booked (request 31 27 30) with
    | Persisted st _ => st
    | ValidationError _ => booked
    end.

Definition guest30 : User := mkUser 30 false.

(** The row of key 7. *)
Definition B7 : Booking := set_pk (request 30 25 28) (Some 7).

(** The dates of [B7], as a request for [Sample.L]. *)
Definition data7 : BookingData :=
  mkBookingData (Some (Sample.jan 25)) (Some (Sample.jan 28))
                (Some Sample.L) (Some 2).

(** [Booking.objects.create] with each booking in turn. *)
Fixpoint save_bookings (today : Z) (st : Store) (bs : list Booking)
  : option Store :=
  match bs with
  | [] => Some st
  | b :: bs =>
      match Booking_save today st b with
      | Persisted st' _ => save_bookings today st' bs
      | ValidationError _ => None
      end
  end.

(** [after5] and a review of [L2] by user 21. *)
Definition after6 : Store :=
  Eval vm_compute in
    match Sample.create_reviews (Sample.jan 20) after5 [of_L2 None 21 4] with
    | Some st => st
    | None => after5
    end.

End SampleReviews.

(** * Properties *)

Lemma Status_eqb_eq a b : Status_eqb a b = true <-> a = b.
Proof. destruct a, b; simpl; split; intro H; try reflexivity; discriminate H. Qed.

(** ** Queries *)

Lemma exists__true {A} (q : list A) : exists_ q = true <-> exists x, In x q.
Proof.
  destruct q as [|a q]; simpl; split.
  - discriminate.
  - intros [x []].
  - intros _. exists a. now left.
  - reflexivity.
Qed.

Lemma exists__false {A} (q : list A) : exists_ q = false <-> forall x, ~ In x q.
Proof.
  destruct q as [|a q]; simpl; split; try reflexivity; try discriminate.
  - intros _ x [].
  - intros H. exfalso. apply (H a). now left.
Qed.

Lemma active_iff e : status_in_PENDING_CONFIRMED (status e) = true <-> active e.
Proof.
  unfold status_in_PENDING_CONFIRMED, active.
  rewrite orb_true_iff, !Status_eqb_eq. reflexivity.
Qed.

Lemma opt_Z_eqb_eq a b : opt_Z_eqb a b = true <-> a = b.
Proof.
  destruct a as [x|], b as [y|]; simpl; split; intro H;
    try reflexivity; try discriminate.
  - apply Z.eqb_eq in H. now subst.
  - injection H as ->. apply Z.eqb_refl.
Qed.

Lemma filter_overlapping_In bs l ci co e :
  In e (filter_overlapping bs l ci co)
  <-> In e bs /\ listing e = l /\ active e /\ conflicts e ci co.
Proof.
  unfold filter_overlapping, conflicts. rewrite filter_In, !andb_true_iff.
  rewrite Z.eqb_eq, Z.gtb_gt, Z.ltb_lt, active_iff. tauto.
Qed.

Lemma exclude_pk_In p bs e :
  In e (exclude_pk p bs) <-> In e bs /\ ~ excluded_by p e.
Proof.
  unfold exclude_pk, excluded_by. destruct p as [x|].
  - rewrite filter_In, negb_true_iff. split.
    + intros [Hin Hne]. split; [exact Hin|]. intros [_ Heq].
      apply opt_Z_eqb_eq in Heq. congruence.
    + intros [Hin Hne]. split; [exact Hin|].
      destruct (opt_Z_eqb (pk e) (Some x)) eqn:E; [|reflexivity].
      apply opt_Z_eqb_eq in E. exfalso. apply Hne. split; [discriminate|exact E].
  - split.
    + intros Hin. split; [exact Hin|]. intros [H _]. now apply H.
    + tauto.
Qed.

Lemma get_listing_pk st key l : get_listing st key = Some l -> listing_pk l = key.
Proof.
  unfold get_listing. intros H. apply find_some in H. now apply Z.eqb_eq.
Qed.

Lemma truthy_param_Some s : s <> "" -> truthy_param (Some s) = true.
Proof.
  intros H. simpl. destruct (String.eqb s "") eqn:E; [|reflexivity].
  apply String.eqb_eq in E. contradiction.
Qed.

(** ** C1: availability *)

(** C1.  For a listing and checkIn < checkOut the availability query
    ([ListingViewSet.available]) answers true exactly when no PENDING or
    CONFIRMED booking of the listing has check_out > checkIn and
    check_in < checkOut; checkIn >= checkOut is answered with the
    invalid-date-range error.  [Booking.clean] runs the same test leaving out
    the booking's own row, and rejects check_out <= check_in.  A range that
    starts on a booking's check_out day does not meet it. *)
Theorem available_iff_no_active_overlap :
  forall (strptime : string -> option Z) (st : Store) (key : Z) (l : Listing)
         (s_in s_out : string) (ci co : Z),
    get_listing st key = Some l ->
    s_in <> "" -> s_out <> "" ->
    strptime s_in = Some ci -> strptime s_out = Some co ->
    (ci < co ->
     exists a,
       available strptime st key (Some s_in) (Some s_out)
       = Available_200 a key ci co
       /\ (a = true <->
           forall e, In e (bookings st) -> listing e = key -> active e ->
                     ~ conflicts e ci co))
    /\ (ci >= co ->
        available strptime st key (Some s_in) (Some s_out)
        = Available_400 Check_out_date_must_be_after_check_in_date)
    /\ (forall self : Booking,
           (check_out self <= check_in self ->
            Booking_clean st l self = Some Check_out_must_be_after_check_in)
           /\ (check_in self < check_out self ->
               (Booking_clean st l self = Some Property_already_booked <->
                exists e, In e (bookings st) /\ listing e = listing self
                          /\ active e
                          /\ ~ excluded_by (pk_or_None (pk self)) e
                          /\ conflicts e (check_in self) (check_out self))))
    /\ (forall (e : Booking) (co' : Z), ~ conflicts e (check_out e) co').
Proof.
  intros strptime st key l s_in s_out ci co Hl Hin Hout Pin Pout.
  pose proof (get_listing_pk _ _ _ Hl) as Hpk.
  assert (Hav : forall r,
             (if ci >=? co then Available_400 Check_out_date_must_be_after_check_in_date
              else Available_200
                     (negb (exists_ (filter_overlapping (bookings st) key ci co)))
                     key ci co) = r ->
             available strptime st key (Some s_in) (Some s_out) = r).
  { intros r <-. unfold available. rewrite Hl.
    rewrite (truthy_param_Some _ Hin), (truthy_param_Some _ Hout). simpl.
    rewrite Pin, Pout, Hpk. reflexivity. }
  split; [|split; [|split]].
  - intros Hlt. eexists. split.
    + apply Hav. destruct (Z.geb_spec ci co); [lia|reflexivity].
    + rewrite negb_true_iff, exists__false. split.
      * intros H e He Hle Ha Hc. apply (H e).
        apply filter_overlapping_In. tauto.
      * intros H e He. apply filter_overlapping_In in He.
        destruct He as (He & Hle & Ha & Hc). exact (H e He Hle Ha Hc).
  - intros Hge. apply Hav. destruct (Z.geb_spec ci co); [reflexivity|lia].
  - clear Hav. intros self. unfold Booking_clean. split.
    + intros Hle.
      destruct (Z.leb_spec (check_out self) (check_in self)); [reflexivity|lia].
    + intros Hlt.
      destruct (Z.leb_spec (check_out self) (check_in self)) as [|_]; [lia|].
      split.
      * destruct (exists_ _) eqn:E; intros Hc.
        -- apply exists__true in E. destruct E as [e He].
           apply exclude_pk_In in He. destruct He as [He Hx].
           apply filter_overlapping_In in He. exists e. tauto.
        -- destruct (guests self >? max_guests l); discriminate Hc.
      * intros (e & He & Hle & Ha & Hx & Hc).
        assert (E : exists_ (exclude_pk (pk_or_None (pk self))
                               (filter_overlapping (bookings st) (listing self)
                                  (check_in self) (check_out self))) = true).
        { apply exists__true. exists e. apply exclude_pk_In. split; [|exact Hx].
          apply filter_overlapping_In. tauto. }
        rewrite E. reflexivity.
  - intros e co'. unfold conflicts. lia.
Qed.

(** ** Saving a booking *)

Lemma app_nil_inv {A} (a b : list A) : a ++ b = [] -> a = [] /\ b = [].
Proof. destruct a; simpl; [tauto|discriminate]. Qed.

(** A price that passes [MinValueValidator(0.01)] is not zero. *)
Lemma min_price_truthy p :
  Qle_bool float_0_01 (Decimal_to_Q p) = true -> Decimal_truthy p = true.
Proof.
  unfold Decimal_truthy. destruct (Z.eqb_spec (coef p) 0) as [E|]; [|reflexivity].
  unfold Decimal_to_Q. rewrite E. destruct (0 <=? exp p); simpl; intros H.
  - discriminate H.
  - unfold Qle_bool in H. simpl in H. apply Z.leb_le in H. lia.
Qed.

Lemma Booking_clean_fields_nil today self :
  Booking_clean_fields today self = [] ->
  today <= check_in self /\ today <= check_out self /\ 1 <= guests self
  /\ truthy_price (total_price self) = true.
Proof.
  unfold Booking_clean_fields, validate_future_date. intros H.
  apply app_nil_inv in H. destruct H as [H1 H].
  apply app_nil_inv in H. destruct H as [H2 H].
  apply app_nil_inv in H. destruct H as [H3 H4].
  destruct (Z.ltb_spec (check_in self) today); [discriminate|].
  destruct (Z.ltb_spec (check_out self) today); [discriminate|].
  destruct (Z.ltb_spec (guests self) 1); [discriminate|].
  repeat split; try lia.
  destruct (total_price self) as [p|]; [|discriminate]. simpl.
  unfold validate_total_price in H4. apply app_nil_inv in H4.
  destruct H4 as [H4 _].
  destruct (Qle_bool float_0_01 (Decimal_to_Q p)) eqn:E; [|discriminate].
  now apply min_price_truthy.
Qed.

(** What a successful [Booking.save] has checked and written.  The price
    derivation of [save] is never taken: an unset or zero price has already
    failed [full_clean]. *)
Lemma Booking_save_Persisted today st self st' self' :
  Booking_save today st self = Persisted st' self' ->
  exists l,
    get_listing st (listing self) = Some l
    /\ Booking_clean_fields today self = []
    /\ Booking_clean st l self = None
    /\ Booking_write (bookings st) self = (bookings st', self')
    /\ st' = with_bookings st (bookings st').
Proof.
  unfold Booking_save, Booking_full_clean.
  destruct (get_listing st (listing self)) as [l|] eqn:El; [|discriminate].
  destruct (Booking_clean_fields today self) as [|x xs] eqn:Ef; [|discriminate].
  destruct (Booking_clean st l self) as [m|] eqn:Ec; [discriminate|]. simpl.
  destruct (Booking_clean_fields_nil _ _ Ef) as (_ & _ & _ & Ht).
  rewrite Ht. simpl.
  destruct (Booking_write (bookings st) self) as [bs s2] eqn:Ew.
  intros H. injection H as <- <-. exists l. simpl. auto.
Qed.

Lemma Booking_clean_None st l self :
  Booking_clean st l self = None ->
  check_in self < check_out self
  /\ (forall e, In e (bookings st) -> listing e = listing self -> active e ->
                ~ excluded_by (pk_or_None (pk self)) e ->
                ~ conflicts e (check_in self) (check_out self))
  /\ guests self <= max_guests l.
Proof.
  unfold Booking_clean.
  destruct (Z.leb_spec (check_out self) (check_in self)); [discriminate|].
  destruct (exists_ _) eqn:E; [discriminate|].
  destruct (Z.gtb_spec (guests self) (max_guests l)); [discriminate|].
  intros _. split; [lia|]. split; [|lia].
  intros e He Hl Ha Hx Hc. rewrite exists__false in E. apply (E e).
  apply exclude_pk_In. split; [|exact Hx]. apply filter_overlapping_In. tauto.
Qed.

(** The rows after a write: the written instance, and the old rows of
    another key. *)
Lemma Booking_write_In bs self bs' self' :
  Booking_write bs self = (bs', self') ->
  (self' = self \/ (pk self = None /\ exists p, self' = set_pk self (Some p)))
  /\ In self' bs'
  /\ forall e, In e bs' ->
               e = self' \/ (In e bs /\ (pk self <> None -> pk e <> pk self)).
Proof.
  unfold Booking_write. destruct (pk self) as [p|] eqn:Ep.
  - destruct (exists_ _) eqn:E; intros H; injection H as <- <-.
    + split; [now left|]. split.
      * apply exists__true in E. destruct E as [x Hx].
        apply filter_In in Hx. destruct Hx as [Hx Hp].
        apply in_map_iff. exists x. rewrite Hp. auto.
      * intros e He. apply in_map_iff in He. destruct He as (x & Hx & Hin).
        destruct (opt_Z_eqb (pk x) (Some p)) eqn:Ex; [now left|].
        right. subst e. split; [exact Hin|]. intros _ Heq.
        apply opt_Z_eqb_eq in Heq. congruence.
    + split; [now left|]. split; [apply in_or_app; right; now left|].
      intros e He. apply in_app_or in He. destruct He as [He|[He|[]]]; [|now left].
      right. split; [exact He|]. intros _ Heq.
      rewrite exists__false in E. apply (E e). apply filter_In.
      split; [exact He|]. now apply opt_Z_eqb_eq.
  - intros H; injection H as <- <-. split.
    + right. split; [reflexivity|]. eexists. reflexivity.
    + split; [apply in_or_app; right; now left|].
      intros e He. apply in_app_or in He. destruct He as [He|[He|[]]]; [|now left].
      right. split; [exact He|]. intros H. now elim H.
Qed.

(** ** No double booking, one operation after the other *)

Lemma Booking_save_no_double_booking today st self st' self' :
  no_double_booking (bookings st) ->
  Booking_save today st self = Persisted st' self' ->
  no_double_booking (bookings st').
Proof.
  intros Hinv Hs.
  apply Booking_save_Persisted in Hs. destruct Hs as (l & _ & _ & Hc & Hw & _).
  apply Booking_clean_None in Hc. destruct Hc as (_ & Hfree & _).
  apply Booking_write_In in Hw. destruct Hw as (Hself & _ & Hrows).
  assert (Hfields : listing self' = listing self /\ check_in self' = check_in self
                    /\ check_out self' = check_out self /\ status self' = status self).
  { destruct Hself as [->|(_ & p & ->)]; simpl; auto. }
  destruct Hfields as (Fl & Fi & Fo & Fs).
  assert (Hold : forall e, In e (bookings st) -> (pk self <> None -> pk e <> pk self) ->
                           listing e = listing self' -> active e ->
                           ~ conflicts e (check_in self') (check_out self')).
  { intros e He Hk Hl Ha. rewrite Fi, Fo. apply Hfree; try assumption.
    - congruence.
    - intros [Hn Heq]. destruct (pk self) as [p|] eqn:Ep; simpl in *.
      + destruct (p =? 0); [now apply Hn|]. apply Hk; [discriminate|exact Heq].
      + now apply Hn. }
  intros b1 b2 H1 H2 Hl A1 A2 Hov.
  destruct (Hrows _ H1) as [E1|[I1 K1]], (Hrows _ H2) as [E2|[I2 K2]].
  - congruence.
  - exfalso. subst b1. apply (Hold b2 I2 K2); [congruence|exact A2|].
    unfold conflicts. lia.
  - exfalso. subst b2. apply (Hold b1 I1 K1); [congruence|exact A1|].
    unfold conflicts. lia.
  - apply Hinv; assumption.
Qed.

Lemma cancel_store today st user key st' r :
  cancel today st user key = (st', r) ->
  st' = st
  \/ exists b self', Booking_save today st (set_status b CANCELLED) = Persisted st' self'.
Proof.
  unfold cancel. destruct (get_booking _ _) as [b|]; [|intros H; injection H; auto].
  destruct (_ && _); [intros H; injection H; auto|].
  destruct (Status_eqb (status b) CANCELLED); [intros H; injection H; auto|].
  destruct (Status_eqb (status b) COMPLETED); [intros H; injection H; auto|].
  destruct (Booking_save today st (set_status b CANCELLED)) as [s2 b2|errs] eqn:E;
    intros H; injection H as <- _; [right; eauto|now left].
Qed.

Lemma update_average_rating_tables st l st' :
  update_average_rating st l = Some st' ->
  bookings st' = bookings st /\ reviews st' = reviews st.
Proof.
  unfold update_average_rating.
  destruct (DecimalField_of_float 3 2 _); [|discriminate].
  intros H. injection H as <-. split; reflexivity.
Qed.

(** The stores a review operation can leave have the bookings it found. *)
Lemma Review_save_bookings today st self st' :
  (exists self', Review_save today st self = Persisted st' self')
  \/ Review_save today st self = InvalidOperation st' ->
  bookings st' = bookings st.
Proof.
  unfold Review_save. destruct (Review_full_clean _ _ _).
  2:{ intros [[s' H]|H]; discriminate H. }
  destruct (Review_write _ _) as [rs s]. simpl.
  destruct (get_listing _ _) as [l|].
  - destruct (update_average_rating _ l) as [st2|] eqn:E.
    + intros [[s' H]|H]; [|discriminate H]. injection H as <- _.
      now destruct (update_average_rating_tables _ _ _ E) as [-> _].
    + intros [[s' H]|H]; [discriminate H|]. injection H as <-. reflexivity.
  - intros [[s' H]|H]; [|discriminate H]. injection H as <- _. reflexivity.
Qed.

Lemma Review_delete_bookings st self st' :
  Review_delete st self = Deleted_and_updated st'
  \/ Review_delete st self = Deleted_then_InvalidOperation st' ->
  bookings st' = bookings st.
Proof.
  unfold Review_delete. destruct (get_listing _ _) as [l|].
  2:{ intros [H|H]; discriminate H. }
  destruct (review_pk self); [|intros [H|H]; discriminate H].
  destruct (update_average_rating _ l) as [st2|] eqn:E;
    intros [H|H]; try discriminate H; injection H as <-.
  - now destruct (update_average_rating_tables _ _ _ E) as [-> _].
  - reflexivity.
Qed.

Lemma step_no_double_booking st st' :
  step st st' -> no_double_booking (bookings st) -> no_double_booking (bookings st').
Proof.
  intros Hstep Hinv. destruct Hstep as
    [today st self st' self' H | today st user key st' r H
    | today st user data st' self' H | today st self st' self' H
    | today st self st' H | st self st' H | st self st' H | st keep | st keep
    | st ls].
  - eapply Booking_save_no_double_booking; eassumption.
  - apply cancel_store in H. destruct H as [->|(b & s & H)]; [exact Hinv|].
    eapply Booking_save_no_double_booking; eassumption.
  - unfold BookingSerializer_create in H.
    destruct (data_listing data), (data_check_in data), (data_check_out data),
      (data_guests data); try discriminate.
    injection H as H. eapply Booking_save_no_double_booking; eassumption.
  - rewrite (Review_save_bookings today st self st'); [exact Hinv|eauto].
  - rewrite (Review_save_bookings today st self st'); [exact Hinv|auto].
  - rewrite (Review_delete_bookings st self st'); [exact Hinv|auto].
  - rewrite (Review_delete_bookings st self st'); [exact Hinv|auto].
  - simpl. intros b1 b2 H1 H2. apply filter_In in H1, H2. apply Hinv; tauto.
  - exact Hinv.
  - exact Hinv.
Qed.

(** When every operation runs from its start to its end before the next
    one starts, two stored bookings of one listing that both hold status
    PENDING or CONFIRMED and whose stays overlap are the same booking;
    [Booking.save], and with it [cancel] and [BookingSerializer.create],
    which write through it, keep it so.  This says nothing of requests that
    run side by side. *)
Theorem reachable_no_double_booking :
  forall st, reachable st ->
    no_double_booking (bookings st)
    /\ (forall today self st' self',
           Booking_save today st self = Persisted st' self' ->
           no_double_booking (bookings st'))
    /\ (forall today user key st' r,
           cancel today st user key = (st', r) ->
           no_double_booking (bookings st'))
    /\ (forall today user data st' self',
           BookingSerializer_create today st user data = Some (Persisted st' self') ->
           no_double_booking (bookings st')).
Proof.
  intros st Hr.
  assert (Hinv : no_double_booking (bookings st)).
  { induction Hr as [|st st' _ IH Hs].
    - intros b1 b2 [].
    - exact (step_no_double_booking _ _ Hs IH). }
  split; [exact Hinv|]. split; [|split].
  - intros today self st' self' H.
    exact (step_no_double_booking _ _ (step_Booking_save _ _ _ _ _ H) Hinv).
  - intros today user key st' r H.
    exact (step_no_double_booking _ _ (step_cancel _ _ _ _ _ _ H) Hinv).
  - intros today user data st' self' H.
    exact (step_no_double_booking _ _ (step_BookingSerializer_create _ _ _ _ _ _ H) Hinv).
Qed.

(** ** Cancelling *)

Lemma NoDup_pk_eq bs :
  NoDup (map pk bs) ->
  forall e b, In e bs -> In b bs -> pk e = pk b -> e = b.
Proof.
  induction bs as [|x bs IH]; intros Hnd e b He Hb Hk; [destruct He|].
  inversion Hnd as [|? ? Hx Hnd']; subst.
  destruct He as [<-|He], Hb as [<-|Hb].
  - reflexivity.
  - exfalso. apply Hx. rewrite Hk. now apply in_map.
  - exfalso. apply Hx. rewrite <- Hk. now apply in_map.
  - now apply IH.
Qed.

Lemma get_booking_Some bs key e :
  get_booking bs key = Some e -> In e bs /\ pk e = Some key.
Proof.
  unfold get_booking. intros H. apply find_some in H.
  now rewrite opt_Z_eqb_eq in H.
Qed.

Lemma get_booking_In bs key b :
  NoDup (map pk bs) -> In b bs -> pk b = Some key -> get_booking bs key = Some b.
Proof.
  intros Hnd Hb Hk. destruct (get_booking bs key) as [e|] eqn:E.
  - apply get_booking_Some in E. destruct E as [He Hke].
    f_equal. apply (NoDup_pk_eq bs Hnd); congruence.
  - unfold get_booking in E. pose proof (find_none _ _ E b Hb) as H.
    simpl in H. rewrite Hk in H. simpl in H. rewrite Z.eqb_refl in H. discriminate.
Qed.

Lemma primary_key_filter (keep : Booking -> bool) (bs : list Booking) :
  primary_key bs -> primary_key (filter keep bs).
Proof.
  unfold primary_key. induction bs as [|b bs IH]; simpl; intros Hnd.
  - constructor.
  - apply NoDup_cons_iff in Hnd. destruct Hnd as [Hb Hnd].
    destruct (keep b); simpl; [|now apply IH].
    apply NoDup_cons_iff. split; [|now apply IH].
    rewrite in_map_iff. intros (e & He & Hin). apply Hb.
    rewrite <- He. apply in_map. apply filter_In in Hin. tauto.
Qed.

(** [get_object()] on the user's queryset: the booking for its guest and for
    staff, nothing for anyone else. *)
Lemma get_object_queryset st user key b :
  NoDup (map pk (bookings st)) -> In b (bookings st) -> pk b = Some key ->
  get_booking (get_queryset st user) key
  = if is_staff user || (guest b =? user_id user) then Some b else None.
Proof.
  intros Hnd Hb Hk. unfold get_queryset. destruct (is_staff user); simpl.
  - now apply get_booking_In.
  - destruct (guest b =? user_id user) eqn:Eg.
    + apply get_booking_In; [now apply primary_key_filter| |exact Hk].
      apply filter_In. auto.
    + destruct (get_booking _ key) as [e|] eqn:E; [|reflexivity].
      apply get_booking_Some in E. destruct E as [He Hke].
      apply filter_In in He. destruct He as [He Hg].
      assert (e = b) by (apply (NoDup_pk_eq _ Hnd); congruence).
      subst e. congruence.
Qed.

(** [cancel] on a stored booking, branch by branch. *)
Lemma cancel_eq today st user key b :
  NoDup (map pk (bookings st)) -> In b (bookings st) -> pk b = Some key ->
  cancel today st user key
  = if negb (is_staff user || (guest b =? user_id user)) then (st, Cancel_404)
    else if Status_eqb (status b) CANCELLED
    then (st, Cancel_400 This_booking_is_already_cancelled)
    else if Status_eqb (status b) COMPLETED
    then (st, Cancel_400 Cannot_cancel_a_completed_booking)
    else match Booking_save today st (set_status b CANCELLED) with
         | ValidationError errs => (st, Cancel_raised errs)
         | Persisted st' b' => (st', Cancel_200 (pk b') (status b'))
         end.
Proof.
  intros Hnd Hb Hk. unfold cancel.
  rewrite (get_object_queryset st user key b Hnd Hb Hk).
  destruct (is_staff user), (guest b =? user_id user) eqn:Eg; simpl;
    rewrite ?Eg; reflexivity.
Qed.

(** The 403 answer of [cancel] is never given: a booking that is not the
    user's own is not in a non-staff user's queryset. *)
Lemma cancel_never_403 today st user key :
  snd (cancel today st user key) <> Cancel_403.
Proof.
  unfold cancel. destruct (get_booking _ key) as [b|] eqn:E; [|discriminate].
  apply get_booking_Some in E. destruct E as [Hb _].
  assert (Hg : negb (guest b =? user_id user) && negb (is_staff user) = false).
  { unfold get_queryset in Hb. destruct (is_staff user); simpl.
    - apply andb_false_r.
    - apply filter_In in Hb. destruct Hb as [_ ->]. reflexivity. }
  rewrite Hg.
  destruct (Status_eqb _ CANCELLED); [discriminate|].
  destruct (Status_eqb _ COMPLETED); [discriminate|].
  destruct (Booking_save _ _ _); discriminate.
Qed.

Lemma max_pk_ge ps x : In (Some x) ps -> x <= max_pk ps.
Proof.
  induction ps as [|p ps IH]; simpl; [intros []|].
  intros [->|H].
  - lia.
  - specialize (IH H). destruct p; lia.
Qed.

Lemma NoDup_snoc {A} (l : list A) (a : A) :
  NoDup l -> ~ In a l -> NoDup (l ++ [a]).
Proof.
  intros Hnd Hin. pose proof (Add_app a l []) as H. rewrite app_nil_r in H.
  apply (NoDup_Add H). tauto.
Qed.

Lemma Booking_write_primary_key bs self bs' self' :
  primary_key bs -> Booking_write bs self = (bs', self') -> primary_key bs'.
Proof.
  unfold primary_key, Booking_write. intros Hnd.
  destruct (pk self) as [p|] eqn:Ep.
  - destruct (exists_ _) eqn:E; intros H; injection H as <- <-.
    + rewrite map_map.
      rewrite (map_ext _ pk); [exact Hnd|].
      intros e. destruct (opt_Z_eqb (pk e) (Some p)) eqn:Ee; [|reflexivity].
      apply opt_Z_eqb_eq in Ee. congruence.
    + rewrite map_app. simpl. rewrite Ep.
      apply NoDup_snoc; [exact Hnd|]. intros Hin. apply in_map_iff in Hin.
      destruct Hin as (e & He & Hin). rewrite exists__false in E.
      apply (E e). apply filter_In. split; [exact Hin|]. now apply opt_Z_eqb_eq.
  - intros H; injection H as <- <-. rewrite map_app. simpl.
    apply NoDup_snoc; [exact Hnd|]. intros Hin. apply max_pk_ge in Hin.
    unfold fresh_booking_pk in Hin. lia.
Qed.

(** A property of the booking table that [Booking.save] and deletions keep
    is kept by every operation. *)
Lemma step_bookings_invariant (P : list Booking -> Prop) :
  (forall today st self st' self',
      P (bookings st) -> Booking_save today st self = Persisted st' self' ->
      P (bookings st')) ->
  (forall bs keep, P bs -> P (filter keep bs)) ->
  forall st st', step st st' -> P (bookings st) -> P (bookings st').
Proof.
  intros Hsave Hfilter st st' Hstep Hinv. destruct Hstep as
    [today st self st' self' H | today st user key st' r H
    | today st user data st' self' H | today st self st' self' H
    | today st self st' H | st self st' H | st self st' H | st keep | st keep
    | st ls].
  - eapply Hsave; eassumption.
  - apply cancel_store in H. destruct H as [->|(b & s & H)]; [exact Hinv|].
    eapply Hsave; eassumption.
  - unfold BookingSerializer_create in H.
    destruct (data_listing data), (data_check_in data), (data_check_out data),
      (data_guests data); try discriminate.
    injection H as H. eapply Hsave; eassumption.
  - rewrite (Review_save_bookings today st self st'); [exact Hinv|eauto].
  - rewrite (Review_save_bookings today st self st'); [exact Hinv|auto].
  - rewrite (Review_delete_bookings st self st'); [exact Hinv|auto].
  - rewrite (Review_delete_bookings st self st'); [exact Hinv|auto].
  - simpl. now apply Hfilter.
  - exact Hinv.
  - exact Hinv.
Qed.

Lemma reachable_primary_key st : reachable st -> primary_key (bookings st).
Proof.
  induction 1 as [|st st' _ IH Hs]; [constructor|].
  revert Hs IH. apply step_bookings_invariant.
  - intros today s self s' self' Hp Hsave.
    apply Booking_save_Persisted in Hsave.
    destruct Hsave as (l & _ & _ & _ & Hw & _).
    eapply Booking_write_primary_key; eassumption.
  - intros bs keep. apply primary_key_filter.
Qed.

Lemma Booking_save_invalid today st self :
  Booking_full_clean today st self <> [] ->
  Booking_save today st self = ValidationError (Booking_full_clean today st self).
Proof.
  unfold Booking_save. destruct (Booking_full_clean today st self);
    [intros H; now elim H|reflexivity].
Qed.

(** The row of a cancelled booking: the old row with its status replaced,
    every other field as it was. *)
Lemma cancel_200_row today st user key b st' k s :
  primary_key (bookings st) -> In b (bookings st) -> pk b = Some key ->
  cancel today st user key = (st', Cancel_200 k s) ->
  k = Some key /\ s = CANCELLED
  /\ get_booking (bookings st') key = Some (set_status b CANCELLED).
Proof.
  intros Hnd Hb Hk. rewrite (cancel_eq today st user key b Hnd Hb Hk).
  destruct (negb _); [discriminate|].
  destruct (Status_eqb _ CANCELLED); [discriminate|].
  destruct (Status_eqb _ COMPLETED); [discriminate|].
  destruct (Booking_save _ _ _) as [s2 b2|errs] eqn:E; [|discriminate].
  intros H. injection H as <- <- <-.
  apply Booking_save_Persisted in E. destruct E as (l & _ & _ & _ & Hw & _).
  pose proof (Booking_write_primary_key _ _ _ _ Hnd Hw) as Hnd'.
  apply Booking_write_In in Hw. destruct Hw as (Hself & Hin & _).
  destruct Hself as [->|(Hnone & _)]; [|simpl in Hnone; congruence].
  repeat split; [exact Hk|]. now apply get_booking_In.
Qed.

(** ** C2: two requests side by side *)

(** With nothing written in between, [Booking_save_on] is [Booking.save]. *)
Lemma Booking_save_on_same today st self :
  Booking_save_on today st st self = Booking_save today st self.
Proof. reflexivity. Qed.

Lemma Booking_save_on_valid today seen st self :
  Booking_full_clean today seen self = [] ->
  Booking_save_on today seen st self
  = Persisted (with_bookings st (fst (Booking_write (bookings st) self)))
              (snd (Booking_write (bookings st) self)).
Proof.
  intros Hnil. unfold Booking_save_on. rewrite Hnil.
  assert (Ht : truthy_price (total_price self) = true).
  { unfold Booking_full_clean in Hnil.
    destruct (get_listing seen (listing self)); [|discriminate].
    apply app_nil_inv in Hnil. destruct Hnil as [Hf _].
    now apply Booking_clean_fields_nil in Hf. }
  rewrite Ht. simpl. destruct (Booking_write (bookings st) self). reflexivity.
Qed.

(** C2, which the code does not keep.  Two new bookings of one listing, both
    PENDING or CONFIRMED, with overlapping stays, each of which passes
    [full_clean] on the store as it is: when the second request runs its
    [full_clean] before the first has written, both are stored, as two
    rows, and the table holds a double booking.  Had the second request
    started after the first had ended, it would have been refused with
    "This property is already booked for the selected dates". *)
Theorem concurrent_saves_double_book :
  forall today st b1 b2,
    pk b1 = None -> pk b2 = None ->
    listing b1 = listing b2 ->
    active b1 -> active b2 ->
    check_out b1 > check_in b2 /\ check_in b1 < check_out b2 ->
    Booking_full_clean today st b1 = [] ->
    Booking_full_clean today st b2 = [] ->
    exists st1 b1' st2 b2',
      Booking_save_on today st st b1 = Persisted st1 b1'
      /\ Booking_save_on today st st1 b2 = Persisted st2 b2'
      /\ bookings st2 = bookings st ++ [b1'; b2']
      /\ b1' = set_pk b1 (pk b1') /\ b2' = set_pk b2 (pk b2')
      /\ pk b1' <> pk b2'
      /\ ~ no_double_booking (bookings st2)
      /\ Booking_save today st1 b2
         = ValidationError [(NON_FIELD_ERRORS, Property_already_booked)].
Proof.
  intros today st b1 b2 Hk1 Hk2 Hl Ha1 Ha2 Hov Hc1 Hc2.
  pose (b1' := set_pk b1 (Some (fresh_booking_pk (bookings st)))).
  pose (st1 := with_bookings st (bookings st ++ [b1'])).
  pose (b2' := set_pk b2 (Some (fresh_booking_pk (bookings st1)))).
  pose (st2 := with_bookings st1 (bookings st1 ++ [b2'])).
  assert (Hkeys : fresh_booking_pk (bookings st)
                  < fresh_booking_pk (bookings st ++ [b1'])).
  { assert (H : In (Some (fresh_booking_pk (bookings st)))
                   (map pk (bookings st ++ [b1']))).
    { rewrite map_app. apply in_or_app. right. now left. }
    apply max_pk_ge in H. unfold fresh_booking_pk at 2. lia. }
  exists st1, b1', st2, b2'.
  split.
  { rewrite (Booking_save_on_valid _ _ _ _ Hc1).
    unfold Booking_write. rewrite Hk1. reflexivity. }
  split.
  { rewrite (Booking_save_on_valid _ _ _ _ Hc2).
    unfold Booking_write. rewrite Hk2. reflexivity. }
  split; [simpl; rewrite <- app_assoc; reflexivity|].
  split; [reflexivity|]. split; [reflexivity|].
  split.
  { intros H.
    change (Some (fresh_booking_pk (bookings st))
            = Some (fresh_booking_pk (bookings st ++ [b1']))) in H.
    injection H as H. lia. }
  split.
  - intros Hndb.
    assert (E : b1' = b2').
    { apply Hndb.
      - simpl. apply in_or_app. left. apply in_or_app. right. now left.
      - simpl. apply in_or_app. right. now left.
      - exact Hl.
      - exact Ha1.
      - exact Ha2.
      - exact Hov. }
    apply (f_equal pk) in E.
    change (Some (fresh_booking_pk (bookings st))
            = Some (fresh_booking_pk (bookings st ++ [b1']))) in E.
    injection E as E. lia.
  - unfold Booking_save, Booking_full_clean.
    unfold Booking_full_clean in Hc2.
    change (get_listing st1 (listing b2)) with (get_listing st (listing b2)).
    destruct (get_listing st (listing b2)) as [l|]; [|discriminate].
    apply app_nil_inv in Hc2. destruct Hc2 as [Hf Hc]. rewrite Hf.
    destruct (Booking_clean st l b2) as [m|] eqn:Ec; [discriminate|].
    apply Booking_clean_None in Ec. destruct Ec as (Hd & _ & _).
    assert (E : Booking_clean st1 l b2 = Some Property_already_booked).
    { unfold Booking_clean.
      destruct (Z.leb_spec (check_out b2) (check_in b2)); [lia|].
      assert (Hex : exists_ (exclude_pk (pk_or_None (pk b2))
                      (filter_overlapping (bookings st1) (listing b2)
                         (check_in b2) (check_out b2))) = true).
      { apply exists__true. exists b1'. apply exclude_pk_In. split.
        - apply filter_overlapping_In.
          split; [simpl; apply in_or_app; right; now left|].
          split; [exact Hl|]. split; [exact Ha1|].
          unfold conflicts. simpl. lia.
        - rewrite Hk2. intros [Hnone _]. now apply Hnone. }
      rewrite Hex. reflexivity. }
    rewrite E. reflexivity.
Qed.

Lemma concurrent_saves_double_book_witness :
  exists st1 b1' st2 b2',
    Booking_save_on (Sample.jan 20) SampleReviews.stays SampleReviews.stays
                    (SampleReviews.request 30 25 28)
    = Persisted st1 b1'
    /\ Booking_save_on (Sample.jan 20) SampleReviews.stays st1
                       (SampleReviews.request 31 27 30)
       = Persisted st2 b2'
    /\ bookings st2 = bookings SampleReviews.stays ++ [b1'; b2']
    /\ b1' = set_pk (SampleReviews.request 30 25 28) (pk b1')
    /\ b2' = set_pk (SampleReviews.request 31 27 30) (pk b2')
    /\ pk b1' <> pk b2'
    /\ ~ no_double_booking (bookings st2)
    /\ Booking_save (Sample.jan 20) st1 (SampleReviews.request 31 27 30)
       = ValidationError [(NON_FIELD_ERRORS, Property_already_booked)].
Proof.
  apply (concurrent_saves_double_book (Sample.jan 20) SampleReviews.stays
           (SampleReviews.request 30 25 28) (SampleReviews.request 31 27 30)).
  - reflexivity.
  - reflexivity.
  - reflexivity.
  - left. reflexivity.
  - left. reflexivity.
  - vm_compute. split; reflexivity.
  - vm_compute. reflexivity.
  - vm_compute. reflexivity.
Defined.

(** ** C6: the failures of cancel *)

(** A user who is neither the guest nor staff gets 404, not 403, because
    the booking is not in that user's queryset. *)
Lemma cancel_by_stranger_is_404 :
  guest (Sample.B PENDING) <> user_id Sample.other21
  /\ is_staff Sample.other21 = false
  /\ cancel (Sample.jan 1) (Sample.S PENDING) Sample.other21 1
     = (Sample.S PENDING, Cancel_404)
  /\ snd (cancel (Sample.jan 1) (Sample.S PENDING) Sample.other21 1) <> Cancel_403.
Proof. repeat split; try discriminate. Qed.

(** C6, which cancel does not keep for the user without permission.  The
    view tests "booking.guest != request.user and not request.user.is_staff"
    to answer 403 (views.py 100-105), but [get_object] has looked the
    booking up in [get_queryset] (78-85), which holds only the user's own
    bookings unless the user is staff: on a stored booking, cancel by a user
    who is neither its guest nor staff answers 404, and no call of cancel
    answers 403.  The other failures are as the claim says: by its guest or
    by staff cancel answers "already cancelled" on a CANCELLED booking and
    "cannot cancel a completed booking" on a COMPLETED one.  In each case
    the store, and so the booking's status, is unchanged. *)
Theorem cancel_failures :
  forall today st user key b,
    primary_key (bookings st) -> In b (bookings st) -> pk b = Some key ->
    (guest b <> user_id user -> is_staff user = false ->
     cancel today st user key = (st, Cancel_404))
    /\ (guest b = user_id user \/ is_staff user = true ->
        status b = CANCELLED ->
        cancel today st user key = (st, Cancel_400 This_booking_is_already_cancelled))
    /\ (guest b = user_id user \/ is_staff user = true ->
        status b = COMPLETED ->
        cancel today st user key = (st, Cancel_400 Cannot_cancel_a_completed_booking))
    /\ snd (cancel today st user key) <> Cancel_403.
Proof.
  intros today st user key b Hnd Hb Hk.
  rewrite (cancel_eq today st user key b Hnd Hb Hk).
  split; [|split; [|split]].
  - intros Hg Hs. rewrite Hs. apply Z.eqb_neq in Hg. now rewrite Hg.
  - intros Hu Hs.
    assert (E : is_staff user || (guest b =? user_id user) = true).
    { destruct Hu as [->| ->]; [rewrite Z.eqb_refl; apply orb_true_r|reflexivity]. }
    rewrite E, Hs. reflexivity.
  - intros Hu Hs.
    assert (E : is_staff user || (guest b =? user_id user) = true).
    { destruct Hu as [->| ->]; [rewrite Z.eqb_refl; apply orb_true_r|reflexivity]. }
    rewrite E, Hs. reflexivity.
  - rewrite <- (cancel_eq today st user key b Hnd Hb Hk). apply cancel_never_403.
Qed.

Lemma primary_key_booked : primary_key (bookings SampleReviews.booked).
Proof.
  unfold primary_key. simpl.
  repeat (constructor; [simpl; intuition discriminate|]). constructor.
Qed.

Lemma cancel_failures_witness :
  cancel (Sample.jan 20) SampleReviews.booked Sample.other21 7
  = (SampleReviews.booked, Cancel_404)
  /\ snd (cancel (Sample.jan 20) SampleReviews.booked Sample.other21 7)
     <> Cancel_403.
Proof.
  destruct (cancel_failures (Sample.jan 20) SampleReviews.booked Sample.other21 7
              (set_pk (SampleReviews.request 30 25 28) (Some 7)))
    as (H404 & _ & _ & H403).
  - exact primary_key_booked.
  - simpl. do 6 right. now left.
  - reflexivity.
  - split; [|exact H403]. apply H404.
    + simpl. discriminate.
    + reflexivity.
Defined.

(** ** C7: terminal states *)

(** C7, as stated, fails: a NO_SHOW booking whose check-in is today is
    cancelled by its guest, and its status becomes CANCELLED. *)
Lemma cancel_changes_NO_SHOW :
  map status (bookings (Sample.S NO_SHOW)) = [NO_SHOW]
  /\ cancel (Sample.jan 5) (Sample.S NO_SHOW) Sample.guest20 1
     = (Sample.S CANCELLED, Cancel_200 (Some 1) CANCELLED)
  /\ map status (bookings (Sample.S CANCELLED)) = [CANCELLED].
Proof. repeat split. Qed.

(** C7, amended.  cancel never changes a booking that is CANCELLED or
    COMPLETED: whoever calls it, the store is returned as it was, with 404
    for a user who is neither guest nor staff and otherwise with "already
    cancelled" or "cannot cancel a completed booking". *)
Theorem cancel_keeps_CANCELLED_and_COMPLETED :
  forall today st user key b,
    primary_key (bookings st) -> In b (bookings st) -> pk b = Some key ->
    status b = CANCELLED \/ status b = COMPLETED ->
    cancel today st user key
    = (st,
       if negb (is_staff user || (guest b =? user_id user)) then Cancel_404
       else Cancel_400 (if Status_eqb (status b) CANCELLED
                        then This_booking_is_already_cancelled
                        else Cannot_cancel_a_completed_booking))
    /\ get_booking (bookings (fst (cancel today st user key))) key = Some b.
Proof.
  intros today st user key b Hnd Hb Hk Hs.
  rewrite (cancel_eq today st user key b Hnd Hb Hk).
  assert (E : (if negb (is_staff user || (guest b =? user_id user))
               then (st, Cancel_404)
               else if Status_eqb (status b) CANCELLED
                    then (st, Cancel_400 This_booking_is_already_cancelled)
                    else if Status_eqb (status b) COMPLETED
                         then (st, Cancel_400 Cannot_cancel_a_completed_booking)
                         else match Booking_save today st (set_status b CANCELLED) with
                              | ValidationError errs => (st, Cancel_raised errs)
                              | Persisted st' b' => (st', Cancel_200 (pk b') (status b'))
                              end)
              = (st, if negb (is_staff user || (guest b =? user_id user))
                     then Cancel_404
                     else Cancel_400 (if Status_eqb (status b) CANCELLED
                                      then This_booking_is_already_cancelled
                                      else Cannot_cancel_a_completed_booking))).
  { destruct (negb _); [reflexivity|]. destruct Hs as [-> | ->]; reflexivity. }
  rewrite E. split; [reflexivity|]. simpl. now apply get_booking_In.
Qed.

Lemma cancel_keeps_CANCELLED_and_COMPLETED_witness :
  get_booking
    (bookings (fst (cancel (Sample.jan 1) (Sample.S CANCELLED) Sample.guest20 1))) 1
  = Some (Sample.B CANCELLED).
Proof.
  apply (cancel_keeps_CANCELLED_and_COMPLETED
           (Sample.jan 1) (Sample.S CANCELLED) Sample.guest20 1 (Sample.B CANCELLED)).
  - repeat constructor. simpl. tauto.
  - simpl. now left.
  - reflexivity.
  - left. reflexivity.
Defined.

(** ** C8: what a successful cancel records *)

(** C8.  A successful cancel sets the status to CANCELLED and writes nothing
    else: [cancelled_at] and [cancellation_reason] keep the values they had,
    so no cancellation timestamp and no reason are recorded. *)
Theorem cancel_records_no_timestamp :
  forall today st user key b st' k s,
    primary_key (bookings st) -> In b (bookings st) -> pk b = Some key ->
    cancel today st user key = (st', Cancel_200 k s) ->
    exists b',
      get_booking (bookings st') key = Some b'
      /\ status b' = CANCELLED
      /\ cancelled_at b' = cancelled_at b
      /\ cancellation_reason b' = cancellation_reason b.
Proof.
  intros today st user key b st' k s Hnd Hb Hk H.
  destruct (cancel_200_row _ _ _ _ _ _ _ _ Hnd Hb Hk H) as (_ & _ & Hrow).
  exists (set_status b CANCELLED). auto.
Qed.

Lemma cancel_records_no_timestamp_witness :
  exists b',
    get_booking (bookings (Sample.S CANCELLED)) 1 = Some b'
    /\ status b' = CANCELLED
    /\ cancelled_at b' = None
    /\ cancellation_reason b' = None.
Proof.
  apply (cancel_records_no_timestamp
           (Sample.jan 1) (Sample.S PENDING) Sample.guest20 1 (Sample.B PENDING)
           (Sample.S CANCELLED) (Some 1) CANCELLED).
  - repeat constructor. simpl. tauto.
  - simpl. now left.
  - reflexivity.
  - reflexivity.
Defined.

(** ** C9: cancelling after check-in *)

(** C9.  When the guest or staff cancels a booking that is neither CANCELLED
    nor COMPLETED and whose check_in is before today, [booking.save()]
    re-runs [full_clean], [validate_future_date] rejects check_in, and
    cancel raises the validation error ("Date cannot be in the past")
    without changing the store. *)
Theorem cancel_past_check_in_raises :
  forall today st user key b l,
    primary_key (bookings st) -> In b (bookings st) -> pk b = Some key ->
    get_listing st (listing b) = Some l ->
    guest b = user_id user \/ is_staff user = true ->
    status b <> CANCELLED -> status b <> COMPLETED ->
    check_in b < today ->
    exists errs,
      cancel today st user key = (st, Cancel_raised errs)
      /\ In ("check_in", Date_cannot_be_in_the_past) errs.
Proof.
  intros today st user key b l Hnd Hb Hk Hl Hu Hc1 Hc2 Hpast.
  rewrite (cancel_eq today st user key b Hnd Hb Hk).
  assert (E : is_staff user || (guest b =? user_id user) = true).
  { destruct Hu as [->| ->]; [rewrite Z.eqb_refl; apply orb_true_r|reflexivity]. }
  rewrite E. simpl.
  destruct (Status_eqb (status b) CANCELLED) eqn:E1;
    [apply Status_eqb_eq in E1; contradiction|].
  destruct (Status_eqb (status b) COMPLETED) eqn:E2;
    [apply Status_eqb_eq in E2; contradiction|].
  assert (Hin : In ("check_in", Date_cannot_be_in_the_past)
                   (Booking_full_clean today st (set_status b CANCELLED))).
  { unfold Booking_full_clean. simpl. rewrite Hl.
    unfold Booking_clean_fields, validate_future_date. simpl.
    destruct (Z.ltb_spec (check_in b) today); [|lia]. now left. }
  rewrite Booking_save_invalid.
  - eexists. split; [reflexivity|exact Hin].
  - intros Hnil. rewrite Hnil in Hin. destruct Hin.
Qed.

Lemma cancel_past_check_in_raises_witness :
  exists errs,
    cancel (Sample.jan 6) (Sample.S CONFIRMED) Sample.guest20 1
    = (Sample.S CONFIRMED, Cancel_raised errs)
    /\ In ("check_in", Date_cannot_be_in_the_past) errs.
Proof.
  apply (cancel_past_check_in_raises
           (Sample.jan 6) (Sample.S CONFIRMED) Sample.guest20 1
           (Sample.B CONFIRMED) Sample.L).
  - repeat constructor. simpl. tauto.
  - simpl. now left.
  - reflexivity.
  - reflexivity.
  - left. reflexivity.
  - discriminate.
  - discriminate.
  - vm_compute. reflexivity.
Defined.

(** ** C10: the 30-night limit *)

(** C10, as stated, fails: a 40-night request whose check-in is in the past
    is rejected for the past check-in, not with the maximum-stay error. *)
Lemma validate_long_past_stay :
  Sample.jan 5 + 40 - Sample.jan 5 > 30
  /\ BookingSerializer_validate (Sample.jan 10) (mkStore [Sample.L] [] []) None
       (mkBookingData (Some (Sample.jan 5)) (Some (Sample.jan 5 + 40))
                      (Some Sample.L) (Some 2))
     = Some ("check_in", Check_in_date_cannot_be_in_the_past).
Proof. split; [vm_compute|]; reflexivity. Qed.

(** C10, amended.  [BookingSerializer.validate] rejects every request with
    both dates whose stay is longer than 30 nights: with the maximum-stay
    error on [check_out] when the check-in is not in the past, and with the
    past-check-in error, which is tested first, when it is. *)
Theorem validate_maximum_stay :
  forall today st instance data ci co,
    data_check_in data = Some ci -> data_check_out data = Some co ->
    co - ci > 30 ->
    BookingSerializer_validate today st instance data <> None
    /\ (today <= ci ->
        BookingSerializer_validate today st instance data
        = Some ("check_out", Maximum_stay_is_30_nights))
    /\ (ci < today ->
        BookingSerializer_validate today st instance data
        = Some ("check_in", Check_in_date_cannot_be_in_the_past)).
Proof.
  intros today st instance data ci co Hi Ho Hlong.
  unfold BookingSerializer_validate. rewrite Hi, Ho.
  destruct (Z.ltb_spec ci today) as [Hp|Hp].
  - split; [discriminate|]. split; [lia|reflexivity].
  - destruct (Z.leb_spec co ci); [lia|].
    destruct (Z.ltb_spec (co - ci) 1); [lia|].
    destruct (Z.gtb_spec (co - ci) 30); [|lia].
    split; [discriminate|]. split; [reflexivity|lia].
Qed.

Lemma validate_maximum_stay_witness :
  BookingSerializer_validate (Sample.jan 1) (mkStore [Sample.L] [] []) None
    (mkBookingData (Some (Sample.jan 5)) (Some (Sample.jan 5 + 31))
                   (Some Sample.L) (Some 2))
  = Some ("check_out", Maximum_stay_is_30_nights).
Proof.
  apply (validate_maximum_stay (Sample.jan 1) (mkStore [Sample.L] [] []) None
           (mkBookingData (Some (Sample.jan 5)) (Some (Sample.jan 5 + 31))
                          (Some Sample.L) (Some 2))
           (Sample.jan 5) (Sample.jan 5 + 31)).
  - reflexivity.
  - reflexivity.
  - lia.
  - vm_compute. discriminate.
Defined.

(** ** C4: the total price *)

Lemma Decimal_mul_int_value d n :
  (Decimal_to_Q (Decimal_mul_int d n) == Decimal_to_Q d * inject_Z n)%Q.
Proof.
  unfold Decimal_to_Q, Decimal_mul_int. simpl.
  destruct (0 <=? exp d).
  - rewrite <- inject_Z_mult. apply inject_Z_injective. ring.
  - unfold Qeq, Qmult, inject_Z. simpl. rewrite Pos.mul_1_r. reflexivity.
Qed.

Lemma quantize2_two_places d : exp d = -2 -> quantize2 d = d.
Proof.
  destruct d as [c e]. simpl. intros ->. unfold quantize2. simpl.
  f_equal. lia.
Qed.

(** [Booking.save] writes the price of the instance it was given. *)
Lemma Booking_save_total_price today st self st' self' :
  Booking_save today st self = Persisted st' self' ->
  total_price self' = total_price self /\ In self' (bookings st').
Proof.
  intros H. apply Booking_save_Persisted in H.
  destruct H as (l & _ & _ & _ & Hw & _).
  apply Booking_write_In in Hw. destruct Hw as (Hself & Hin & _).
  split; [|exact Hin]. destruct Hself as [->|(_ & p & ->)]; reflexivity.
Qed.

(** C4.  [BookingSerializer.create] takes nights = (check_out -
    check_in).days and total_price = price_per_night * nights.  When nights
    <= 0 the creation fails with "Check-out date must be after check-in
    date" (and [validate] rejects the request too); when it succeeds the
    stored price is the nightly rate times the nights, a decimal of two
    places equal to its own rounding to two places.  [Booking.save] keeps a
    price it is given.  At 100.00 a night, 2024-01-01 to 2024-01-04 costs
    300.00. *)
Theorem total_price_derivation :
  forall today st user data l ci co g,
    data_listing data = Some l -> data_check_in data = Some ci ->
    data_check_out data = Some co -> data_guests data = Some g ->
    get_listing st (listing_pk l) = Some l ->
    exp (price_per_night l) = -2 ->
    (co - ci <= 0 ->
     (exists errs,
         BookingSerializer_create today st user data = Some (ValidationError errs)
         /\ In (NON_FIELD_ERRORS, Check_out_must_be_after_check_in) errs)
     /\ BookingSerializer_validate today st None data <> None)
    /\ (forall st' b,
           BookingSerializer_create today st user data = Some (Persisted st' b) ->
           0 < co - ci
           /\ In b (bookings st')
           /\ total_price b = Some (Decimal_mul_int (price_per_night l) (co - ci))
           /\ quantize2 (Decimal_mul_int (price_per_night l) (co - ci))
              = Decimal_mul_int (price_per_night l) (co - ci)
           /\ (Decimal_to_Q (Decimal_mul_int (price_per_night l) (co - ci))
               == Decimal_to_Q (price_per_night l) * inject_Z (co - ci))%Q)
    /\ (forall self st' self',
           Booking_save today st self = Persisted st' self' ->
           total_price self' = total_price self)
    /\ (let b := mkBooking (Some 1) 1 20 (Date.ymd2ord 2024 1 1)
                          (Date.ymd2ord 2024 1 4) 2
                          (Some (mkDecimal 30000 (-2))) PENDING None None in
        price_per_night Sample.L = mkDecimal 10000 (-2)
        /\ BookingSerializer_create (Date.ymd2ord 2024 1 1)
             (mkStore [Sample.L] [] []) Sample.guest20
             (mkBookingData (Some (Date.ymd2ord 2024 1 1))
                            (Some (Date.ymd2ord 2024 1 4))
                            (Some Sample.L) (Some 2))
           = Some (Persisted (mkStore [Sample.L] [b] []) b)).
Proof.
  intros today st user data l ci co g Hl Hi Ho Hg Hrow Hexp.
  unfold BookingSerializer_create. rewrite Hl, Hi, Ho, Hg.
  split; [|split; [|split]].
  - intros Hn. split.
    + assert (Hin : In (NON_FIELD_ERRORS, Check_out_must_be_after_check_in)
                       (Booking_full_clean today st
                          (mkBooking None (listing_pk l) (user_id user) ci co g
                             (Some (Decimal_mul_int (price_per_night l) (co - ci)))
                             PENDING None None))).
      { unfold Booking_full_clean. simpl. rewrite Hrow.
        apply in_or_app. right. unfold Booking_clean. simpl.
        destruct (Z.leb_spec co ci); [|lia]. now left. }
      rewrite Booking_save_invalid.
      * eexists. split; [reflexivity|exact Hin].
      * intros Hnil. rewrite Hnil in Hin. destruct Hin.
    + unfold BookingSerializer_validate. rewrite Hi, Ho.
      destruct (ci <? today); [discriminate|].
      destruct (Z.leb_spec co ci); [discriminate|lia].
  - intros st' b Hs. injection Hs as Hs.
    pose proof (Booking_save_total_price _ _ _ _ _ Hs) as [Hp Hin].
    apply Booking_save_Persisted in Hs. destruct Hs as (l0 & _ & _ & Hc & _).
    apply Booking_clean_None in Hc. simpl in Hc. destruct Hc as (Hlt & _).
    split; [lia|]. split; [exact Hin|]. split; [exact Hp|].
    split; [now apply quantize2_two_places|apply Decimal_mul_int_value].
  - intros self st' self' Hs. now apply Booking_save_total_price in Hs.
  - split; reflexivity.
Qed.

Lemma total_price_derivation_witness :
  total_price Sample.B300
  = Some (Decimal_mul_int (price_per_night Sample.L) (Sample.jan 4 - Sample.jan 1)).
Proof.
  apply (proj1 (proj2 (total_price_derivation
           (Sample.jan 1) (mkStore [Sample.L] [] []) Sample.guest20
           (mkBookingData (Some (Sample.jan 1)) (Some (Sample.jan 4))
                          (Some Sample.L) (Some 2))
           Sample.L (Sample.jan 1) (Sample.jan 4) 2
           eq_refl eq_refl eq_refl eq_refl eq_refl eq_refl))
         (mkStore [Sample.L] [Sample.B300] []) Sample.B300 eq_refl).
Defined.

(** ** C1 and C2 on the sample data *)

(** A listing booked PENDING from January 5 to January 10 is not available
    from January 8 to 12 and is available from January 10 to 12. *)
Example available_Jan8_Jan12 :
  available Sample.strptime (Sample.S PENDING) 1
            (Some "2024-01-08") (Some "2024-01-12")
  = Available_200 false 1 (Sample.jan 8) (Sample.jan 12).
Proof. reflexivity. Qed.

Example available_Jan10_Jan12 :
  available Sample.strptime (Sample.S PENDING) 1
            (Some "2024-01-10") (Some "2024-01-12")
  = Available_200 true 1 (Sample.jan 10) (Sample.jan 12).
Proof. reflexivity. Qed.

Lemma available_iff_no_active_overlap_witness :
  exists a,
    available Sample.strptime (Sample.S PENDING) 1
              (Some "2024-01-10") (Some "2024-01-12")
    = Available_200 a 1 (Sample.jan 10) (Sample.jan 12)
    /\ (a = true <->
        forall e, In e (bookings (Sample.S PENDING)) -> listing e = 1 -> active e ->
                  ~ conflicts e (Sample.jan 10) (Sample.jan 12)).
Proof.
  apply (proj1 (available_iff_no_active_overlap
                  Sample.strptime (Sample.S PENDING) 1 Sample.L
                  "2024-01-10" "2024-01-12" (Sample.jan 10) (Sample.jan 12)
                  eq_refl ltac:(discriminate) ltac:(discriminate) eq_refl eq_refl)).
  vm_compute. reflexivity.
Defined.

Lemma reachable_sample : reachable (Sample.S PENDING).
Proof.
  apply reachable_step with (st := mkStore [Sample.L] [] []).
  - apply reachable_step with (st := empty_store).
    + constructor.
    + apply (step_listings empty_store [Sample.L]).
  - apply (step_BookingSerializer_create (Sample.jan 1) _ Sample.guest20
             Sample.data_Jan5_Jan10 _ (Sample.B PENDING)).
    reflexivity.
Defined.

Lemma reachable_no_double_booking_witness :
  no_double_booking (bookings (Sample.S PENDING)).
Proof.
  exact (proj1 (reachable_no_double_booking (Sample.S PENDING) reachable_sample)).
Defined.

(** A second booking of the same nights is refused, one that starts on the
    check-out day is accepted. *)
Example create_overlapping_refused :
  BookingSerializer_create (Sample.jan 1) (Sample.S PENDING) Sample.other21
    (mkBookingData (Some (Sample.jan 8)) (Some (Sample.jan 12))
                   (Some Sample.L) (Some 1))
  = Some (ValidationError [(NON_FIELD_ERRORS, Property_already_booked)]).
Proof. reflexivity. Qed.

Example create_touching_accepted :
  exists st' b,
    BookingSerializer_create (Sample.jan 1) (Sample.S PENDING) Sample.other21
      (mkBookingData (Some (Sample.jan 10)) (Some (Sample.jan 12))
                     (Some Sample.L) (Some 1))
    = Some (Persisted st' b)
    /\ pk b = Some 2 /\ List.length (bookings st') = 2%nat.
Proof. eexists. eexists. split; [reflexivity|]. split; reflexivity. Qed.

(** ** C5: who may review *)

Lemma has_completed_booking_iff today st l u :
  has_completed_booking today st l u = true <-> completed_stay today st l u.
Proof.
  unfold has_completed_booking, completed_stay. rewrite exists__true.
  split; intros [b H]; exists b.
  - rewrite filter_In, !andb_true_iff, !Z.eqb_eq, Status_eqb_eq, Z.leb_le in H. tauto.
  - rewrite filter_In, !andb_true_iff, !Z.eqb_eq, Status_eqb_eq, Z.leb_le. tauto.
Qed.

Lemma has_completed_booking_false today st l u :
  ~ completed_stay today st l u -> has_completed_booking today st l u = false.
Proof.
  intros H. destruct (has_completed_booking today st l u) eqn:E; [|reflexivity].
  apply has_completed_booking_iff in E. contradiction.
Qed.

Lemma Review_save_invalid today st self :
  Review_full_clean today st self <> [] ->
  Review_save today st self = ValidationError (Review_full_clean today st self).
Proof.
  unfold Review_save. destruct (Review_full_clean today st self);
    [intros H; now elim H|reflexivity].
Qed.

(** What a successful [Review.save] has checked and written. *)
Lemma Review_save_Persisted today st self st' self' :
  Review_save today st self = Persisted st' self' ->
  exists l,
    get_listing st (review_listing self) = Some l
    /\ Review_clean_fields self = []
    /\ Review_clean today st self = None
    /\ Review_validate_unique st self = []
    /\ review_listing (snd (Review_write (reviews st) self)) = review_listing self
    /\ self' = snd (Review_write (reviews st) self)
    /\ update_average_rating
         (with_reviews st (fst (Review_write (reviews st) self))) l = Some st'.
Proof.
  unfold Review_save, Review_full_clean.
  destruct (get_listing st (review_listing self)) as [l|] eqn:El; [|discriminate].
  destruct (Review_clean_fields self) eqn:Ef; [|discriminate].
  destruct (Review_clean today st self) eqn:Ec; [discriminate|].
  destruct (Review_validate_unique st self) eqn:Eu; [|discriminate]. simpl.
  assert (Hl : review_listing (snd (Review_write (reviews st) self))
               = review_listing self).
  { unfold Review_write. destruct (review_pk self); [|reflexivity].
    destruct (exists_ _); reflexivity. }
  destruct (Review_write (reviews st) self) as [rs s2] eqn:Ew. simpl in *.
  unfold get_listing in *. simpl. rewrite Hl, El.
  destruct (update_average_rating (with_reviews st rs) l) as [st2|] eqn:Eu2;
    [|discriminate].
  intros H. injection H as <- <-. exists l. auto 10.
Qed.

(** C5.  Creating a review succeeds only when the user has no review of the
    listing yet and has a COMPLETED booking of it with check_out <= today.
    Without such a booking [Review.save] fails with "You can only review
    properties you've actually stayed at" and returns no store, and
    [ReviewCreateSerializer.validate] rejects the request. *)
Theorem review_requires_completed_stay :
  forall today st self l,
    review_pk self = None ->
    get_listing st (review_listing self) = Some l ->
    (forall st' self',
        Review_save today st self = Persisted st' self' ->
        ~ reviewed st (review_listing self) (review_user self)
        /\ completed_stay today st (review_listing self) (review_user self))
    /\ (~ completed_stay today st (review_listing self) (review_user self) ->
        exists errs,
          Review_save today st self = ValidationError errs
          /\ In (NON_FIELD_ERRORS, Only_review_properties_stayed_at) errs)
    /\ (forall user,
           user_id user = review_user self ->
           (ReviewCreateSerializer_validate today st l user = None <->
            ~ reviewed st (review_listing self) (review_user self)
            /\ completed_stay today st (review_listing self) (review_user self))
           /\ (~ completed_stay today st (review_listing self) (review_user self) ->
               ReviewCreateSerializer_validate today st l user
               = Some (if exists_ (filter (fun r =>
                                     (review_listing r =? review_listing self)
                                     && (review_user r =? review_user self))
                                   (reviews st))
                       then You_have_already_reviewed_this_listing
                       else You_can_only_review_listings_you_have_stayed_at))).
Proof.
  intros today st self l Hnew Hl.
  pose proof (get_listing_pk _ _ _ Hl) as Hpk.
  assert (Hrev : forall q,
             q = exists_ (filter (fun r => (review_listing r =? review_listing self)
                                           && (review_user r =? review_user self))
                                 (reviews st)) ->
             (q = false <-> ~ reviewed st (review_listing self) (review_user self))).
  { intros q ->. rewrite exists__false. unfold reviewed. split.
    - intros H (r & Hr & H1 & H2). apply (H r). apply filter_In.
      split; [exact Hr|]. now rewrite andb_true_iff, !Z.eqb_eq.
    - intros H r Hr. apply filter_In in Hr. destruct Hr as [Hr Hb].
      rewrite andb_true_iff, !Z.eqb_eq in Hb. apply H. exists r. tauto. }
  split; [|split].
  - intros st' self' Hs. apply Review_save_Persisted in Hs.
    destruct Hs as (l0 & _ & _ & Hc & Hu & _). split.
    + unfold Review_validate_unique in Hu. rewrite Hnew in Hu.
      apply (Hrev _ eq_refl).
      destruct (exists_ _) eqn:E in Hu; [discriminate|].
      rewrite <- E. f_equal. apply filter_ext. intros r.
      now rewrite andb_true_r.
    + unfold Review_clean in Hc.
      destruct (has_completed_booking _ _ _ _) eqn:E; [|discriminate].
      now apply has_completed_booking_iff.
  - intros Hno.
    assert (Hin : In (NON_FIELD_ERRORS, Only_review_properties_stayed_at)
                     (Review_full_clean today st self)).
    { unfold Review_full_clean. rewrite Hl. apply in_or_app. right.
      apply in_or_app. left. unfold Review_clean.
      rewrite (has_completed_booking_false _ _ _ _ Hno). now left. }
    rewrite Review_save_invalid.
    + eexists. split; [reflexivity|exact Hin].
    + intros Hnil. rewrite Hnil in Hin. destruct Hin.
  - intros user Hu. unfold ReviewCreateSerializer_validate. rewrite Hpk, Hu.
    specialize (Hrev _ eq_refl). split.
    + destruct (exists_ _) eqn:E.
      * split; [discriminate|]. intros [Hr _]. apply Hrev in Hr. discriminate.
      * destruct (has_completed_booking _ _ _ _) eqn:Eb; simpl.
        -- split; [|reflexivity]. intros _. split; [now apply Hrev|].
           now apply has_completed_booking_iff.
        -- split; [discriminate|]. intros [_ Hc].
           apply has_completed_booking_iff in Hc. congruence.
    + intros Hno. rewrite (has_completed_booking_false _ _ _ _ Hno).
      destruct (exists_ _); reflexivity.
Qed.

Lemma review_requires_completed_stay_witness :
  exists errs,
    Review_save (Sample.jan 20) (Sample.S CONFIRMED) (Sample.R None 20 5)
    = ValidationError errs
    /\ In (NON_FIELD_ERRORS, Only_review_properties_stayed_at) errs.
Proof.
  apply (review_requires_completed_stay
           (Sample.jan 20) (Sample.S CONFIRMED) (Sample.R None 20 5) Sample.L
           eq_refl eq_refl).
  intros (b & Hb & _ & _ & Hs & _). simpl in Hb.
  destruct Hb as [<-|[]]. discriminate Hs.
Defined.

(** ** C3: the rating aggregate *)

Lemma public_ratings_spec st key :
  public_ratings st key = ratings_of_public_reviews (reviews st) key.
Proof.
  unfold public_ratings. induction (reviews st) as [|r rs IH]; [reflexivity|].
  simpl. destruct (is_public r), (review_listing r =? key); simpl;
    rewrite ?IH; reflexivity.
Qed.

Lemma find_listing_update key a n ls :
  find (fun l => listing_pk l =? key)
       (map (fun l => if listing_pk l =? key then set_aggregate l a n else l) ls)
  = option_map (fun l => set_aggregate l a n)
               (find (fun l => listing_pk l =? key) ls).
Proof.
  induction ls as [|x ls IH]; simpl; [reflexivity|].
  destruct (listing_pk x =? key) eqn:E; simpl; rewrite E; [reflexivity|exact IH].
Qed.

(** A zero float is stored like the integer 0 that [result or 0] puts in
    its place. *)
Lemma DecimalField_of_float_or_0 (a : Q) :
  DecimalField_of_float 3 2 (if Qeq_bool a 0 then 0%Q else a)
  = DecimalField_of_float 3 2 a.
Proof.
  destruct (Qeq_bool a 0) eqn:E; [|reflexivity].
  apply Qeq_bool_iff in E. unfold Qeq in E. simpl in E.
  unfold DecimalField_of_float, create_decimal_from_float.
  replace (Qnum a) with 0 by lia. reflexivity.
Qed.

Lemma stored_mean_spec xs :
  DecimalField_of_float 3 2
    match Avg xs with
    | Some a => if Qeq_bool a 0 then 0%Q else a
    | None => 0%Q
    end
  = mean_to_two_places xs.
Proof.
  destruct xs as [|x xs]; [reflexivity|].
  unfold Avg, mean_to_two_places. apply DecimalField_of_float_or_0.
Qed.

Lemma update_average_rating_stored st l st' :
  get_listing st (listing_pk l) = Some l ->
  update_average_rating st l = Some st' ->
  reviews st' = reviews st /\ aggregate_stored st' (listing_pk l).
Proof.
  intros Hl Hu. pose proof (update_average_rating_tables _ _ _ Hu) as [_ Hr].
  split; [exact Hr|].
  unfold update_average_rating in Hu. rewrite stored_mean_spec in Hu.
  destruct (mean_to_two_places (public_ratings st (listing_pk l))) as [d|] eqn:Ed;
    [|discriminate].
  injection Hu as <-. unfold aggregate_stored, get_listing.
  cbn [listings with_listings reviews]. rewrite find_listing_update.
  unfold get_listing in Hl. rewrite Hl. eexists. split; [reflexivity|].
  cbn [average_rating review_count set_aggregate].
  rewrite <- public_ratings_spec. split; [now rewrite Ed|reflexivity].
Qed.

Lemma Review_save_aggregate today st self st' self' :
  Review_save today st self = Persisted st' self' ->
  aggregate_stored st' (review_listing self).
Proof.
  intros Hs. apply Review_save_Persisted in Hs.
  destruct (Hs) as (l & Hl & _ & _ & _ & _ & _ & Hu).
  pose proof (get_listing_pk _ _ _ Hl) as Hpk. rewrite <- Hpk in Hl |- *.
  exact (proj2 (update_average_rating_stored (with_reviews st _) l st' Hl Hu)).
Qed.

Lemma Review_delete_aggregate st self st' :
  Review_delete st self = Deleted_and_updated st' ->
  aggregate_stored st' (review_listing self).
Proof.
  intros Hd. unfold Review_delete in Hd.
  destruct (get_listing st (review_listing self)) as [l|] eqn:Hl; [|discriminate].
  destruct (review_pk self) as [p|]; [|discriminate].
  destruct (update_average_rating _ l) as [st2|] eqn:Hu; [|discriminate].
  injection Hd as <-.
  pose proof (get_listing_pk _ _ _ Hl) as Hpk. rewrite <- Hpk in Hl |- *.
  exact (proj2 (update_average_rating_stored (with_reviews st _) l st2 Hl Hu)).
Qed.

(** *** The rounding of the mean *)

Lemma round_half_even_bounds a b lo hi :
  0 < b -> lo * b <= a -> a <= hi * b -> lo <= round_half_even a b <= hi.
Proof.
  intros Hb Hlo Hhi. unfold round_half_even.
  pose proof (Z.div_mod a b ltac:(lia)) as Hdm.
  pose proof (Z.mod_pos_bound a b Hb) as Hr.
  set (q := a / b) in *. set (r := a mod b) in *.
  assert (Hq1 : lo <= q) by nia.
  assert (Hq2 : q <= hi) by nia.
  destruct (Z.ltb_spec (2 * r) b); [lia|].
  assert (Hq3 : q + 1 <= hi) by nia.
  destruct (b <? 2 * r); [lia|]. destruct (Z.even q); lia.
Qed.

Lemma round_half_even_accuracy a b :
  0 < b -> 2 * Z.abs (round_half_even a b * b - a) <= b.
Proof.
  intros Hb. unfold round_half_even.
  pose proof (Z.div_mod a b ltac:(lia)) as Hdm.
  pose proof (Z.mod_pos_bound a b Hb) as Hr.
  set (q := a / b) in *. set (r := a mod b) in *.
  destruct (Z.ltb_spec (2 * r) b); [nia|].
  destruct (Z.ltb_spec b (2 * r)); [nia|].
  destruct (Z.even q); nia.
Qed.

Lemma binary64_scale_ge s n :
  0 < n -> n <= s -> s <= 5 * n -> 49 <= binary64_scale s n.
Proof.
  intros Hn Hlo Hhi. unfold binary64_scale.
  assert (H : Z.log2 s <= Z.log2 n + 3).
  { rewrite Z.add_comm, <- (Z.log2_mul_pow2 n 3) by lia.
    apply Z.log2_le_mono. change (2 ^ 3) with 8. lia. }
  destruct (_ <? _); lia.
Qed.

Lemma binary64_in_range s n :
  0 < n -> n <= s -> s <= 5 * n ->
  exists m K,
    binary64 s n = Qmake m (Z.to_pos K)
    /\ 2 ^ 49 <= K
    /\ K <= m <= 5 * K
    /\ 2 * Z.abs (m * n - s * K) <= n.
Proof.
  intros Hn Hlo Hhi.
  pose proof (binary64_scale_ge s n Hn Hlo Hhi) as Hk.
  unfold binary64. destruct (Z.leb_spec s 0); [lia|].
  set (k := binary64_scale s n) in *.
  rewrite (Z.max_r 0 k) by lia. rewrite (Z.max_l 0 (- k)) by lia.
  change (2 ^ 0) with 1. rewrite !Z.mul_1_r.
  assert (HK : 2 ^ 49 <= 2 ^ k) by (apply Z.pow_le_mono_r; lia).
  exists (round_half_even (s * 2 ^ k) n), (2 ^ k).
  split; [reflexivity|]. split; [exact HK|]. split.
  - apply round_half_even_bounds; nia.
  - apply round_half_even_accuracy. exact Hn.
Qed.

Lemma count_up_zero fuel p q : p < q * 10 -> count_up fuel p q = 0.
Proof.
  intros H. destruct fuel as [|f]; [reflexivity|]. cbn [count_up].
  destruct (Z.leb_spec (q * 10) p); [lia|reflexivity].
Qed.

Lemma DecimalField_in_range m K :
  0 < K -> K <= m <= 5 * K ->
  exists c,
    DecimalField_of_float 3 2 (Qmake m (Z.to_pos K)) = Some (mkDecimal c (-2))
    /\ 100 <= c <= 500
    /\ 2 * Z.abs (c * K - 100 * m) <= K.
Proof.
  intros HK Hm.
  exists (round_half_even (m * 100) K).
  assert (Hc : 100 <= round_half_even (m * 100) K <= 500)
    by (apply round_half_even_bounds; lia).
  split; [|split; [exact Hc|]].
  - unfold DecimalField_of_float, create_decimal_from_float.
    cbn [Qnum Qden]. rewrite Z2Pos.id by exact HK.
    destruct (Z.leb_spec m 0); [lia|].
    unfold adjusted. destruct (Z.leb_spec K m); [|lia].
    rewrite count_up_zero by lia.
    change (Z.max 0 (3 - 1 - 0)) with 2. change (Z.max 0 (0 - (3 - 1))) with 0.
    change (10 ^ 2) with 100. change (10 ^ 0) with 1. change (10 ^ 3) with 1000.
    rewrite Z.mul_1_r.
    destruct (Z.eqb_spec (round_half_even (m * 100) K) 1000); [lia|].
    unfold quantize. cbn [coef exp].
    change (0 - 3 + 1 + 2) with 0. change (0 <=? 0) with true. cbv iota.
    change (10 ^ 0) with 1. change (10 ^ 3) with 1000. rewrite Z.mul_1_r.
    destruct (Z.ltb_spec (round_half_even (m * 100) K) 1000); [reflexivity|lia].
  - pose proof (round_half_even_accuracy (m * 100) K HK). lia.
Qed.

Lemma mean_to_two_places_in_range xs :
  xs <> [] -> (forall x, In x xs -> 1 <= x <= 5) ->
  exists c,
    mean_to_two_places xs = Some (mkDecimal c (-2))
    /\ 100 <= c <= 500
    /\ 2 ^ 50 * Z.abs (c * Z.of_nat (List.length xs) - 100 * Zsum xs)
       <= Z.of_nat (List.length xs) * (2 ^ 49 + 100).
Proof.
  intros Hne Hr.
  assert (Hb : Z.of_nat (List.length xs) <= Zsum xs <= 5 * Z.of_nat (List.length xs)).
  { clear Hne. induction xs as [|x xs IH]; [simpl; lia|].
    assert (Hx : 1 <= x <= 5) by (apply Hr; now left).
    assert (Hxs : forall y, In y xs -> 1 <= y <= 5) by (intros y Hy; apply Hr; now right).
    specialize (IH Hxs). cbn [List.length Zsum]. rewrite Nat2Z.inj_succ. lia. }
  destruct xs as [|x xs]; [now elim Hne|].
  unfold mean_to_two_places.
  set (s := Zsum (x :: xs)) in *. set (n := Z.of_nat (List.length (x :: xs))) in *.
  assert (Hn : 0 < n) by (unfold n; cbn [List.length]; lia).
  destruct (binary64_in_range s n Hn ltac:(lia) ltac:(lia)) as (m & K & -> & HK & Hm & Ha).
  destruct (DecimalField_in_range m K ltac:(lia) Hm) as (c & -> & Hc & Hac).
  exists c. split; [reflexivity|]. split; [exact Hc|].
  assert (E : (c * n - 100 * s) * K = n * (c * K - 100 * m) + 100 * (m * n - s * K)) by ring.
  assert (H1 : 2 * K * Z.abs (c * n - 100 * s) <= n * K + 100 * n).
  { rewrite <- Z.mul_assoc, (Z.mul_comm K), <- (Z.abs_eq K) at 1 by lia.
    rewrite <- Z.abs_mul, E. 
    pose proof (Z.abs_triangle (n * (c * K - 100 * m)) (100 * (m * n - s * K))).
    rewrite !Z.abs_mul in H. rewrite (Z.abs_eq n) in H by lia.
    rewrite (Z.abs_eq 100) in H by lia. nia. }
  nia.
Qed.

Lemma ratings_of_public_reviews_in_range rs key :
  ratings_in_range rs ->
  forall x, In x (ratings_of_public_reviews rs key) -> 1 <= x <= 5.
Proof.
  intros Hr. induction rs as [|r rs IH]; [intros x []|].
  assert (Hrs : ratings_in_range rs) by (intros y Hy; apply Hr; now right).
  intros x. simpl. destruct (is_public r); [|now apply IH].
  destruct (review_listing r =? key); [|now apply IH].
  intros [<-|Hx]; [apply Hr; now left|now apply IH].
Qed.

(** The stored aggregate of ratings between 1 and 5 is within half a
    hundredth of their mean, up to the error of the float. *)
Lemma aggregate_stored_accuracy st key :
  ratings_in_range (reviews st) -> aggregate_stored st key ->
  exists l c,
    get_listing st key = Some l
    /\ average_rating l = mkDecimal c (-2)
    /\ review_count l
       = Z.of_nat (List.length (ratings_of_public_reviews (reviews st) key))
    /\ nearest_hundredths c (ratings_of_public_reviews (reviews st) key).
Proof.
  intros Hr (l & Hl & Havg & Hcount).
  pose proof (ratings_of_public_reviews_in_range _ key Hr) as Hx.
  unfold nearest_hundredths.
  destruct (ratings_of_public_reviews (reviews st) key) as [|x xs] eqn:E.
  - simpl in Havg. injection Havg as Havg. exists l, 0.
    split; [exact Hl|]. split; [exact Havg|]. split; [exact Hcount|].
    simpl. lia.
  - destruct (mean_to_two_places_in_range (x :: xs)) as (c & Hc & _ & Hacc);
      [discriminate|exact Hx|].
    rewrite Hc in Havg. injection Havg as Havg. exists l, c.
    split; [exact Hl|]. split; [exact Havg|]. split; [exact Hcount|exact Hacc].
Qed.

(** C3, as stated, fails: three public reviews rated 5, 4 and 4 have the
    mean 13/3, and the listing's average_rating, a column of two decimal
    places, is 4.33. *)
Lemma average_rating_is_rounded :
  exists st3 l,
    Sample.create_reviews (Sample.jan 20) Sample.stays
      [Sample.R None 20 5; Sample.R None 21 4; Sample.R None 22 4]
    = Some st3
    /\ public_ratings st3 1 = [5; 4; 4]
    /\ get_listing st3 1 = Some l
    /\ average_rating l = mkDecimal 433 (-2)
    /\ review_count l = 3
    /\ ~ (Decimal_to_Q (average_rating l) == Qmake (5 + 4 + 4) 3)%Q.
Proof.
  eexists. eexists. split; [vm_compute; reflexivity|].
  split; [reflexivity|]. split; [reflexivity|].
  split; [reflexivity|]. split; [reflexivity|].
  intros H. vm_compute in H. discriminate H.
Qed.

(** C3, amended.  After [Review.save] and after [Review.delete] the
    listing's row has review_count equal to the number of its public reviews
    and average_rating equal to their mean rounded to two decimal places, as
    the column stores it (0.00 when there are none): with ratings between 1
    and 5 it is a decimal of two places within half a hundredth (and the
    error of the float, 2^-50) of the mean.  Three public reviews
    rated 5, 4 and 3 on a listing without reviews give 4.00 and 3, whatever
    private reviews it has and whatever reviews another listing has;
    deleting the one rated 3 gives 4.50 and 2. *)
Theorem review_write_recomputes_aggregate :
  (forall today st self st' self',
      Review_save today st self = Persisted st' self' ->
      aggregate_stored st' (review_listing self))
  /\ (forall st self st',
         Review_delete st self = Deleted_and_updated st' ->
         aggregate_stored st' (review_listing self))
  /\ (forall st key,
         ratings_in_range (reviews st) -> aggregate_stored st key ->
         exists l c,
           get_listing st key = Some l
           /\ average_rating l = mkDecimal c (-2)
           /\ review_count l
              = Z.of_nat (List.length (ratings_of_public_reviews (reviews st) key))
           /\ nearest_hundredths c (ratings_of_public_reviews (reviews st) key))
  /\ (exists st3 st5 st4,
         Sample.aggregates SampleReviews.stays
         = [(mkDecimal 0 (-2), 0); (mkDecimal 0 (-2), 0)]
         /\ Sample.create_reviews (Sample.jan 20) SampleReviews.stays
              [Sample.R None 20 5; Sample.R None 21 4; Sample.R None 22 3]
            = Some st3
         /\ Sample.aggregates st3
            = [(mkDecimal 400 (-2), 3); (mkDecimal 0 (-2), 0)]
         /\ Sample.create_reviews (Sample.jan 20) st3
              [SampleReviews.private None 23 1; SampleReviews.of_L2 None 20 2]
            = Some st5
         /\ reviews st5
            = [Sample.R (Some 1) 20 5; Sample.R (Some 2) 21 4;
               Sample.R (Some 3) 22 3; SampleReviews.private (Some 4) 23 1;
               SampleReviews.of_L2 (Some 5) 20 2]
         /\ Sample.aggregates st5
            = [(mkDecimal 400 (-2), 3); (mkDecimal 200 (-2), 1)]
         /\ Review_delete st5 (Sample.R (Some 3) 22 3) = Deleted_and_updated st4
         /\ Sample.aggregates st4
            = [(mkDecimal 450 (-2), 2); (mkDecimal 200 (-2), 1)]).
Proof.
  split; [|split; [|split]].
  - intros today st self st' self'. apply Review_save_aggregate.
  - intros st self st'. apply Review_delete_aggregate.
  - intros st key. apply aggregate_stored_accuracy.
  - eexists. eexists. eexists.
    split; [reflexivity|]. split; [vm_compute; reflexivity|].
    split; [reflexivity|]. split; [vm_compute; reflexivity|].
    split; [reflexivity|]. split; [reflexivity|].
    split; [vm_compute; reflexivity|]. reflexivity.
Qed.

Lemma review_write_recomputes_aggregate_witness :
  exists st4 l c,
    Review_delete SampleReviews.after5 (Sample.R (Some 3) 22 3)
    = Deleted_and_updated st4
    /\ aggregate_stored st4 1
    /\ get_listing st4 1 = Some l
    /\ average_rating l = mkDecimal c (-2)
    /\ review_count l = 2
    /\ nearest_hundredths c [5; 4].
Proof.
  eexists.
  assert (Hd : Review_delete SampleReviews.after5 (Sample.R (Some 3) 22 3)
               = Deleted_and_updated _) by (vm_compute; reflexivity).
  pose proof (proj1 (proj2 review_write_recomputes_aggregate) _ _ _ Hd) as Hagg.
  pose proof (fun Hrange =>
                proj1 (proj2 (proj2 review_write_recomputes_aggregate))
                      _ 1 Hrange Hagg) as Hacc.
  destruct Hacc as (l & c & Hl & Havg & Hcount & Hnear).
  - intros r Hr. simpl in Hr.
    repeat (destruct Hr as [<-|Hr]; [simpl; lia|]). destruct Hr.
  - exists l, c. split; [exact Hd|]. split; [exact Hagg|].
    split; [exact Hl|]. split; [exact Havg|]. split; [exact Hcount|exact Hnear].
Defined.

(** * Further properties of the code *)

(** ** Booking.save *)

Lemma Booking_save_valid today st self :
  Booking_full_clean today st self = [] ->
  Booking_save today st self
  = Persisted (with_bookings st (fst (Booking_write (bookings st) self)))
              (snd (Booking_write (bookings st) self)).
Proof.
  intros Hnil. unfold Booking_save. rewrite Hnil.
  assert (Ht : truthy_price (total_price self) = true).
  { unfold Booking_full_clean in Hnil.
    destruct (get_listing st (listing self)); [|discriminate].
    apply app_nil_inv in Hnil. destruct Hnil as [Hf _].
    now apply Booking_clean_fields_nil in Hf. }
  rewrite Ht. simpl. destruct (Booking_write (bookings st) self). reflexivity.
Qed.

Lemma Booking_write_pk bs self bs' self' :
  Booking_write bs self = (bs', self') -> pk self' <> None.
Proof.
  unfold Booking_write. destruct (pk self) as [p|] eqn:Ep.
  - destruct (exists_ _); intros H; injection H as <- <-; congruence.
  - intros H; injection H as <- <-. discriminate.
Qed.

Lemma price_of_clean_fields today self :
  Booking_clean_fields today self = [] ->
  exists p, total_price self = Some p
            /\ Qle_bool float_0_01 (Decimal_to_Q p) = true
            /\ DecimalValidator 10 2 p = None.
Proof.
  unfold Booking_clean_fields. intros H.
  apply app_nil_inv in H. destruct H as [_ H].
  apply app_nil_inv in H. destruct H as [_ H].
  apply app_nil_inv in H. destruct H as [_ H].
  destruct (total_price self) as [p|]; [|discriminate].
  exists p. split; [reflexivity|].
  unfold validate_total_price in H. apply app_nil_inv in H. destruct H as [H1 H2].
  split.
  - destruct (Qle_bool float_0_01 (Decimal_to_Q p)); [reflexivity|discriminate].
  - destruct (DecimalValidator 10 2 p); [discriminate|reflexivity].
Qed.

(** X1.  [Booking.save] never derives a price: with [total_price] unset or
    zero, [full_clean] has failed before the derivation is reached, and the
    error dictionary has an entry for [total_price] whenever the listing
    exists. *)
Theorem Booking_save_never_derives_price :
  forall today st self,
    truthy_price (total_price self) = false ->
    exists errs,
      Booking_save today st self = ValidationError errs
      /\ (get_listing st (listing self) <> None ->
          In ("total_price",
              match total_price self with
              | None => Field_cannot_be_null
              | Some _ => Min_value_violated
              end) errs).
Proof.
  intros today st self Hp.
  assert (Hin : get_listing st (listing self) <> None ->
                In ("total_price",
                    match total_price self with
                    | None => Field_cannot_be_null
                    | Some _ => Min_value_violated
                    end) (Booking_full_clean today st self)).
  { intros Hl. unfold Booking_full_clean.
    destruct (get_listing st (listing self)) as [l|]; [|now elim Hl].
    apply in_or_app. left. unfold Booking_clean_fields.
    apply in_or_app. right. apply in_or_app. right. apply in_or_app. right.
    destruct (total_price self) as [p|]; [|now left].
    unfold validate_total_price. apply in_or_app. left.
    destruct (Qle_bool float_0_01 (Decimal_to_Q p)) eqn:E; [|now left].
    apply min_price_truthy in E. simpl in Hp. congruence. }
  exists (Booking_full_clean today st self). split; [|exact Hin].
  apply Booking_save_invalid. intros Hnil.
  unfold Booking_full_clean in Hnil, Hin.
  destruct (get_listing st (listing self)) as [l|]; [|discriminate].
  assert (H : In ("total_price",
                  match total_price self with
                  | None => Field_cannot_be_null
                  | Some _ => Min_value_violated
                  end)
                 (Booking_clean_fields today self
                  ++ match Booking_clean st l self with
                     | Some m => [(NON_FIELD_ERRORS, m)]
                     | None => []
                     end)) by (apply Hin; discriminate).
  rewrite Hnil in H. destruct H.
Qed.

Lemma Booking_save_never_derives_price_witness :
  exists errs,
    Booking_save (Sample.jan 1) (Sample.S PENDING)
                 (set_total_price (Sample.B300) None)
    = ValidationError errs
    /\ (get_listing (Sample.S PENDING) 1 <> None ->
        In ("total_price", Field_cannot_be_null) errs).
Proof.
  apply (Booking_save_never_derives_price
           (Sample.jan 1) (Sample.S PENDING) (set_total_price (Sample.B300) None)).
  reflexivity.
Defined.

Lemma Booking_save_well_formed today st self st' self' :
  Booking_save today st self = Persisted st' self' ->
  well_formed_booking self'
  /\ today <= check_in self'
  /\ exists l, get_listing st (listing self') = Some l
               /\ guests self' <= max_guests l.
Proof.
  intros Hs. apply Booking_save_Persisted in Hs.
  destruct Hs as (l & Hl & Hf & Hc & Hw & _).
  pose proof (Booking_write_pk _ _ _ _ Hw) as Hk.
  pose proof (price_of_clean_fields _ _ Hf) as Hp.
  apply Booking_clean_fields_nil in Hf. destruct Hf as (Hci & _ & Hg & _).
  apply Booking_clean_None in Hc. destruct Hc as (Hlt & _ & Hmax).
  apply Booking_write_In in Hw. destruct Hw as (Hself & _ & _).
  assert (E : set_pk self' (pk self) = self).
  { destruct Hself as [->|(_ & p & ->)]; destruct self; reflexivity. }
  rewrite <- E in Hl, Hci, Hg, Hlt, Hmax, Hp. simpl in *.
  split; [|split; [exact Hci|exists l; auto]].
  unfold well_formed_booking. auto.
Qed.

Lemma reachable_rows_well_formed st :
  reachable st -> forall b, In b (bookings st) -> well_formed_booking b.
Proof.
  induction 1 as [|st st' _ IH Hs]; [intros b []|].
  revert Hs IH.
  apply (step_bookings_invariant
           (fun bs => forall b, In b bs -> well_formed_booking b)).
  - intros today s self s' self' Hinv Hs b Hb.
    pose proof (Booking_save_well_formed _ _ _ _ _ Hs) as (Hwf & _).
    apply Booking_save_Persisted in Hs. destruct Hs as (l & _ & _ & _ & Hw & _).
    apply Booking_write_In in Hw. destruct Hw as (_ & _ & Hrows).
    destruct (Hrows b Hb) as [->|[Hold _]]; [exact Hwf|now apply Hinv].
  - intros bs keep Hinv b Hb. apply filter_In in Hb. now apply Hinv.
Qed.

Lemma reachable_rows_disjoint st :
  reachable st -> no_double_booking (bookings st).
Proof.
  induction 1 as [|st st' _ IH Hs]; [intros b1 b2 []|].
  exact (step_no_double_booking _ _ Hs IH).
Qed.

(** X2.  Every booking of a reachable store has a key, check_out after
    check_in, at least one guest and a price of at least the validator's
    minimum: the two [CheckConstraint]s of [Booking.Meta] hold of every
    row.  And at the moment [Booking.save] writes a booking its check-in is
    not in the past and its guests fit the listing. *)
Theorem reachable_bookings_well_formed :
  forall st, reachable st ->
    (forall b, In b (bookings st) -> well_formed_booking b)
    /\ (forall today self st' self',
           Booking_save today st self = Persisted st' self' ->
           well_formed_booking self'
           /\ today <= check_in self'
           /\ exists l, get_listing st (listing self') = Some l
                        /\ guests self' <= max_guests l).
Proof.
  intros st Hr. split.
  - now apply reachable_rows_well_formed.
  - intros today self st' self'. apply Booking_save_well_formed.
Qed.

Lemma reachable_bookings_well_formed_witness :
  well_formed_booking (Sample.B PENDING).
Proof.
  apply (proj1 (reachable_bookings_well_formed (Sample.S PENDING) reachable_sample)).
  simpl. now left.
Defined.

(** ** BookingSerializer.validate and create *)

(** X3.  The "Minimum stay is 1 night" error of [validate] is never
    returned: a stay that has passed the check-out-after-check-in test has
    at least one night. *)
Theorem validate_never_minimum_stay :
  forall today st instance data field,
    BookingSerializer_validate today st instance data
    <> Some (field, Minimum_stay_is_1_night).
Proof.
  intros today st instance data field. unfold BookingSerializer_validate.
  assert (Hg : forall l g, validate_guests l g <> Some (field, Minimum_stay_is_1_night)).
  { intros l g. unfold validate_guests. destruct l as [l|]; [|discriminate].
    destruct (g >? max_guests l); discriminate. }
  destruct (data_check_in data) as [ci|]; [|apply Hg].
  destruct (data_check_out data) as [co|]; [|apply Hg].
  destruct (ci <? today); [discriminate|].
  destruct (Z.leb_spec co ci); [discriminate|].
  destruct (Z.ltb_spec (co - ci) 1); [lia|].
  destruct (co - ci >? 30); [discriminate|].
  destruct (match data_listing data with
            | Some l => negb (is_available l)
            | None => false
            end); [discriminate|].
  destruct (exists_ _); [discriminate|apply Hg].
Qed.

(** X4.  A request for more guests than the listing allows is never
    accepted: [validate] rejects it whatever else the request holds, and
    [create] persists nothing for it. *)
Theorem over_capacity_never_accepted :
  forall today st instance user data l g,
    data_listing data = Some l -> data_guests data = Some g ->
    get_listing st (listing_pk l) = Some l ->
    max_guests l < g ->
    BookingSerializer_validate today st instance data <> None
    /\ forall st' b,
        BookingSerializer_create today st user data <> Some (Persisted st' b).
Proof.
  intros today st instance user data l g Hl Hg Hrow Hover. split.
  - unfold BookingSerializer_validate. rewrite Hl, Hg.
    assert (Hv : validate_guests (Some l) g <> None).
    { simpl. destruct (Z.gtb_spec g (max_guests l)); [discriminate|lia]. }
    destruct (data_check_in data) as [ci|]; [|exact Hv].
    destruct (data_check_out data) as [co|]; [|exact Hv].
    destruct (ci <? today); [discriminate|].
    destruct (co <=? ci); [discriminate|].
    destruct (co - ci <? 1); [discriminate|].
    destruct (co - ci >? 30); [discriminate|].
    destruct (negb (is_available l)); [discriminate|].
    destruct (exists_ _); [discriminate|exact Hv].
  - intros st' b. unfold BookingSerializer_create. rewrite Hl, Hg.
    destruct (data_check_in data) as [ci|]; [|discriminate].
    destruct (data_check_out data) as [co|]; [|discriminate].
    intros H. injection H as H.
    apply Booking_save_Persisted in H. destruct H as (l0 & Hl0 & _ & Hc & _).
    simpl in Hl0. rewrite Hrow in Hl0. injection Hl0 as <-.
    apply Booking_clean_None in Hc. simpl in Hc. lia.
Qed.

Lemma over_capacity_never_accepted_witness :
  BookingSerializer_validate (Sample.jan 1) (mkStore [Sample.L] [] []) None
    (SampleDates.data 5 10 3) <> None.
Proof.
  apply (over_capacity_never_accepted
           (Sample.jan 1) (mkStore [Sample.L] [] []) None Sample.guest20
           (SampleDates.data 5 10 3) Sample.L 3 eq_refl eq_refl eq_refl).
  simpl. lia.
Defined.





(** X6.  What [create] persists, [validate] accepts, up to the two rules
    that only [validate] has: for a request that [create] has persisted,
    [validate] returns no error, or the maximum-stay error, or the
    listing-not-available error.  [Booking.save] itself enforces neither the
    30-night limit nor the listing's availability flag. *)
Theorem created_request_validates_up_to_policy :
  forall today st user data l st' b,
    data_listing data = Some l ->
    get_listing st (listing_pk l) = Some l ->
    BookingSerializer_create today st user data = Some (Persisted st' b) ->
    BookingSerializer_validate today st None data = None
    \/ BookingSerializer_validate today st None data
       = Some ("check_out", Maximum_stay_is_30_nights)
    \/ BookingSerializer_validate today st None data
       = Some ("listing", Listing_is_not_available_for_booking).
Proof.
  intros today st user data l st' b Hl Hrow Hc.
  unfold BookingSerializer_create in Hc. rewrite Hl in Hc.
  destruct (data_check_in data) as [ci|] eqn:Hi; [|discriminate].
  destruct (data_check_out data) as [co|] eqn:Ho; [|discriminate].
  destruct (data_guests data) as [g|] eqn:Hg; [|discriminate].
  injection Hc as Hs.
  apply Booking_save_Persisted in Hs.
  destruct Hs as (l0 & Hl0 & Hf & Hclean & _).
  simpl in Hl0. rewrite Hrow in Hl0. injection Hl0 as <-.
  apply Booking_clean_fields_nil in Hf. simpl in Hf. destruct Hf as (Hci & _).
  apply Booking_clean_None in Hclean. simpl in Hclean.
  destruct Hclean as (Hlt & Hfree & Hmax).
  unfold BookingSerializer_validate. rewrite Hl, Hi, Ho, Hg.
  destruct (Z.ltb_spec ci today); [lia|].
  destruct (Z.leb_spec co ci); [lia|].
  destruct (Z.ltb_spec (co - ci) 1); [lia|].
  destruct (co - ci >? 30); [right; left; reflexivity|].
  destruct (negb (is_available l)); [right; right; reflexivity|].
  left.
  assert (Eo : exists_ (filter_overlapping (bookings st) (listing_pk l) ci co) = false).
  { apply exists__false. intros e He. apply filter_overlapping_In in He.
    destruct He as (He & Hle & Ha & Hcf).
    apply (Hfree e He Hle Ha); [|exact Hcf]. intros [Hn _]. now apply Hn. }
  rewrite Eo. simpl. destruct (Z.gtb_spec g (max_guests l)); [lia|reflexivity].
Qed.

Lemma created_request_validates_up_to_policy_witness :
  BookingSerializer_validate (Sample.jan 1) (mkStore [Sample.L] [] []) None
    (SampleDates.data 1 4 2) = None
  \/ BookingSerializer_validate (Sample.jan 1) (mkStore [Sample.L] [] []) None
       (SampleDates.data 1 4 2)
     = Some ("check_out", Maximum_stay_is_30_nights)
  \/ BookingSerializer_validate (Sample.jan 1) (mkStore [Sample.L] [] []) None
       (SampleDates.data 1 4 2)
     = Some ("listing", Listing_is_not_available_for_booking).
Proof.
  apply (created_request_validates_up_to_policy
           (Sample.jan 1) (mkStore [Sample.L] [] []) Sample.guest20
           (SampleDates.data 1 4 2) Sample.L
           (mkStore [Sample.L] [Sample.B300] []) Sample.B300
           eq_refl eq_refl eq_refl).
Defined.

(** ** ListingViewSet.available *)

(** X7.  The errors of the availability view, in the order it tests them:
    an unknown listing is 404 whatever the parameters; for a known listing
    a missing or empty parameter is the both-parameters-required error; and
    when both are given, one the parser refuses is the invalid-format
    error. *)
Theorem available_errors :
  forall (strptime : string -> option Z) st key check_in check_out,
    (get_listing st key = None ->
     available strptime st key check_in check_out = Available_404)
    /\ (get_listing st key <> None ->
        truthy_param check_in && truthy_param check_out = false ->
        available strptime st key check_in check_out
        = Available_400 Both_parameters_required)
    /\ (forall s_in s_out,
           get_listing st key <> None ->
           check_in = Some s_in -> check_out = Some s_out ->
           s_in <> "" -> s_out <> "" ->
           strptime s_in = None \/ strptime s_out = None ->
           available strptime st key check_in check_out
           = Available_400 Invalid_date_format).
Proof.
  intros strptime st key check_in check_out. unfold available.
  split; [|split].
  - intros ->. reflexivity.
  - intros Hl Hp. destruct (get_listing st key); [|now elim Hl].
    rewrite Hp. reflexivity.
  - intros s_in s_out Hl -> -> Hin Hout Hparse.
    destruct (get_listing st key); [|now elim Hl].
    rewrite (truthy_param_Some _ Hin), (truthy_param_Some _ Hout). simpl.
    destruct Hparse as [-> | ->]; [reflexivity|].
    destruct (strptime s_in); reflexivity.
Qed.

(** The answer of the view on two dates in order. *)
Lemma available_200 (strptime : string -> option Z) st key l s_in s_out ci co :
  get_listing st key = Some l ->
  s_in <> "" -> s_out <> "" ->
  strptime s_in = Some ci -> strptime s_out = Some co ->
  ci < co ->
  available strptime st key (Some s_in) (Some s_out)
  = Available_200 (negb (exists_ (filter_overlapping (bookings st) key ci co)))
                  key ci co.
Proof.
  intros Hl Hin Hout Pin Pout Hlt. unfold available. rewrite Hl.
  rewrite (truthy_param_Some _ Hin), (truthy_param_Some _ Hout). simpl.
  rewrite Pin, Pout, (get_listing_pk _ _ _ Hl).
  destruct (Z.geb_spec ci co); [lia|reflexivity].
Qed.

(** X8.  The availability view and [Booking.clean] agree on a new booking:
    when the view answers for a range, its answer is false exactly when
    [clean] refuses a new booking of that listing and range as already
    booked. *)
Theorem available_agrees_with_clean :
  forall (strptime : string -> option Z) st key l s_in s_out a k ci co self,
    get_listing st key = Some l ->
    available strptime st key (Some s_in) (Some s_out) = Available_200 a k ci co ->
    pk self = None -> listing self = key ->
    check_in self = ci -> check_out self = co ->
    (a = false <-> Booking_clean st l self = Some Property_already_booked).
Proof.
  intros strptime st key l s_in s_out a k ci co self Hl Hav Hpk Hls Hci Hco.
  pose proof (get_listing_pk _ _ _ Hl) as Hkey.
  unfold available in Hav. rewrite Hl in Hav.
  destruct (negb _); [discriminate|].
  destruct (strptime s_in) as [ci'|]; [|discriminate].
  destruct (strptime s_out) as [co'|]; [|destruct (strptime s_in); discriminate].
  destruct (Z.geb_spec ci' co') as [|Hlt]; [discriminate|].
  injection Hav as <- <- <- <-.
  unfold Booking_clean. rewrite Hpk, Hls, Hci, Hco, Hkey. simpl.
  destruct (Z.leb_spec co' ci'); [lia|].
  destruct (exists_ (filter_overlapping (bookings st) key ci' co')); simpl.
  - split; reflexivity.
  - split; [discriminate|].
    destruct (guests self >? max_guests l); discriminate.
Qed.

Lemma available_agrees_with_clean_witness :
  true = false <->
  Booking_clean (Sample.S PENDING) Sample.L
    (mkBooking None 1 21 (Sample.jan 10) (Sample.jan 12) 1 None PENDING None None)
  = Some Property_already_booked.
Proof.
  apply (available_agrees_with_clean
           Sample.strptime (Sample.S PENDING) 1 Sample.L
           "2024-01-10" "2024-01-12" true 1 (Sample.jan 10) (Sample.jan 12)
           (mkBooking None 1 21 (Sample.jan 10) (Sample.jan 12) 1 None
                      PENDING None None)
           eq_refl eq_refl eq_refl eq_refl eq_refl eq_refl).
Defined.

(** ** BookingViewSet.cancel *)

(** Where a cancel that changes the store has written. *)
Lemma cancel_written today st user key st' r :
  cancel today st user key = (st', r) ->
  (st' = st /\ forall k s, r <> Cancel_200 k s)
  \/ exists b self',
      In b (bookings st) /\ pk b = Some key
      /\ (is_staff user = true \/ guest b = user_id user)
      /\ Booking_save today st (set_status b CANCELLED) = Persisted st' self'
      /\ r = Cancel_200 (pk self') (status self').
Proof.
  unfold cancel.
  destruct (get_booking (get_queryset st user) key) as [b|] eqn:E.
  2:{ intros H. injection H as <- <-. left. split; [reflexivity|discriminate]. }
  apply get_booking_Some in E. destruct E as [Hq Hk].
  assert (Hb : In b (bookings st) /\ (is_staff user = true \/ guest b = user_id user)).
  { unfold get_queryset in Hq. destruct (is_staff user); [auto|].
    apply filter_In in Hq. destruct Hq as [Hq Hg]. apply Z.eqb_eq in Hg. auto. }
  destruct (_ && _).
  { intros H. injection H as <- <-. left. split; [reflexivity|discriminate]. }
  destruct (Status_eqb (status b) CANCELLED).
  { intros H. injection H as <- <-. left. split; [reflexivity|discriminate]. }
  destruct (Status_eqb (status b) COMPLETED).
  { intros H. injection H as <- <-. left. split; [reflexivity|discriminate]. }
  destruct (Booking_save today st (set_status b CANCELLED)) as [s2 b2|errs] eqn:Es;
    intros H; injection H as <- <-.
  - right. exists b, b2. tauto.
  - left. split; [reflexivity|discriminate].
Qed.

(** The table after a write to an existing key. *)
Lemma Booking_write_existing bs self p b :
  pk self = Some p -> In b bs -> pk b = Some p ->
  Booking_write bs self
  = (map (fun e => if opt_Z_eqb (pk e) (Some p) then self else e) bs, self).
Proof.
  intros Hp Hb Hk. unfold Booking_write. rewrite Hp.
  assert (E : exists_ (filter (fun e => opt_Z_eqb (pk e) (Some p)) bs) = true).
  { apply exists__true. exists b. apply filter_In. split; [exact Hb|].
    now apply opt_Z_eqb_eq. }
  rewrite E. reflexivity.
Qed.

Lemma cancel_rows today st user key st' r :
  cancel today st user key = (st', r) ->
  st' = st
  \/ exists b,
      In b (bookings st) /\ pk b = Some key
      /\ (is_staff user = true \/ guest b = user_id user)
      /\ st' = with_bookings st
                 (map (fun e => if opt_Z_eqb (pk e) (Some key)
                                then set_status b CANCELLED else e)
                      (bookings st)).
Proof.
  intros Hc. apply cancel_written in Hc.
  destruct Hc as [[-> _]|(b & self' & Hb & Hk & Hu & Hs & _)]; [now left|].
  right. exists b.
  apply Booking_save_Persisted in Hs. destruct Hs as (l & _ & _ & _ & Hw & ->).
  rewrite (Booking_write_existing _ _ key b) in Hw; [|exact Hk|exact Hb|exact Hk].
  injection Hw as Hrows _. rewrite <- Hrows. auto.
Qed.

Lemma cancel_keys today st user key st' r :
  cancel today st user key = (st', r) ->
  map pk (bookings st') = map pk (bookings st).
Proof.
  intros Hc. apply cancel_rows in Hc.
  destruct Hc as [->|(b & _ & Hk & _ & ->)]; [reflexivity|]. simpl.
  rewrite map_map. apply map_ext. intros e.
  destruct (opt_Z_eqb (pk e) (Some key)) eqn:E; [|reflexivity].
  apply opt_Z_eqb_eq in E. simpl. congruence.
Qed.

(** X9.  cancel writes one row at most: whatever it answers, the listings
    and reviews are untouched, the booking table keeps its keys in their
    order, and every booking stored under another key is still there.  For
    a user who is not staff, under unique keys, no booking of another guest
    is changed. *)
Theorem cancel_touches_only_its_row :
  forall today st user key st' r,
    cancel today st user key = (st', r) ->
    listings st' = listings st /\ reviews st' = reviews st
    /\ map pk (bookings st') = map pk (bookings st)
    /\ (forall e, In e (bookings st) -> pk e <> Some key -> In e (bookings st'))
    /\ (primary_key (bookings st) -> is_staff user = false ->
        forall e, In e (bookings st) -> guest e <> user_id user ->
                  In e (bookings st')).
Proof.
  intros today st user key st' r Hc.
  pose proof (cancel_keys _ _ _ _ _ _ Hc) as Hkeys.
  apply cancel_rows in Hc.
  destruct Hc as [->|(b & Hb & Hk & Hu & Hst)]; [tauto|].
  assert (Hkeep : forall e, In e (bookings st) -> pk e <> Some key ->
                            In e (bookings st')).
  { intros e He Hne. rewrite Hst. simpl. apply in_map_iff. exists e.
    split; [|exact He].
    destruct (opt_Z_eqb (pk e) (Some key)) eqn:E; [|reflexivity].
    apply opt_Z_eqb_eq in E. contradiction. }
  split; [now rewrite Hst|]. split; [now rewrite Hst|].
  split; [exact Hkeys|]. split; [exact Hkeep|].
  intros Hnd Hstaff e He Hg. apply Hkeep; [exact He|]. intros Hke.
  assert (e = b) by (apply (NoDup_pk_eq _ Hnd); congruence). subst e.
  destruct Hu as [Hu|Hu]; congruence.
Qed.

Lemma cancel_touches_only_its_row_witness :
  map pk (bookings (Sample.S CANCELLED)) = map pk (bookings (Sample.S PENDING)).
Proof.
  apply (cancel_touches_only_its_row
           (Sample.jan 1) (Sample.S PENDING) Sample.guest20 1
           (Sample.S CANCELLED) (Cancel_200 (Some 1) CANCELLED) eq_refl).
Defined.

(** X10.  Cancelling frees the dates: after a successful cancel no
    PENDING or CONFIRMED booking of the listing meets the cancelled stay,
    and the availability view answers true for it. *)
Theorem cancel_frees_the_dates :
  forall (strptime : string -> option Z) today st user key b st' k s s_in s_out,
    primary_key (bookings st) -> In b (bookings st) -> pk b = Some key ->
    cancel today st user key = (st', Cancel_200 k s) ->
    s_in <> "" -> s_out <> "" ->
    strptime s_in = Some (check_in b) -> strptime s_out = Some (check_out b) ->
    (forall e, In e (bookings st') -> listing e = listing b -> active e ->
               ~ conflicts e (check_in b) (check_out b))
    /\ available strptime st' (listing b) (Some s_in) (Some s_out)
       = Available_200 true (listing b) (check_in b) (check_out b).
Proof.
  intros strptime today st user key b st' k s s_in s_out
         Hnd Hb Hk Hc Hin Hout Pin Pout.
  pose proof Hc as Hc0.
  apply cancel_written in Hc.
  destruct Hc as [[_ Hno]|(b0 & self' & Hb0 & Hk0 & _ & Hs & _)];
    [now elim (Hno k s)|].
  assert (b0 = b) by (apply (NoDup_pk_eq _ Hnd); congruence). subst b0.
  apply Booking_save_Persisted in Hs.
  destruct Hs as (l & Hl & _ & Hclean & Hw & Hst).
  apply Booking_clean_None in Hclean. simpl in Hclean.
  destruct Hclean as (Hlt & Hfree & _).
  rewrite (Booking_write_existing _ _ key b) in Hw; [|exact Hk|exact Hb|exact Hk].
  injection Hw as Hrows _.
  assert (Hnone : forall e, In e (bookings st') -> listing e = listing b ->
                            active e -> ~ conflicts e (check_in b) (check_out b)).
  { intros e He Hle Ha. rewrite <- Hrows in He. apply in_map_iff in He.
    destruct He as (x & Hx & Hxin).
    destruct (opt_Z_eqb (pk x) (Some key)) eqn:E.
    - subst e. destruct Ha as [Ha|Ha]; discriminate Ha.
    - subst x. apply (Hfree e Hxin Hle Ha). intros [Hn Hex].
      rewrite Hk in Hn, Hex. simpl in Hn, Hex.
      destruct (key =? 0); [now apply Hn|].
      rewrite Hex in E. simpl in E. rewrite Z.eqb_refl in E. discriminate. }
  split; [exact Hnone|].
  assert (Hl' : get_listing st' (listing b) = Some l) by (rewrite Hst; exact Hl).
  rewrite (available_200 strptime st' (listing b) l s_in s_out
             (check_in b) (check_out b) Hl' Hin Hout Pin Pout Hlt).
  f_equal. apply negb_true_iff, exists__false.
  intros e He. apply filter_overlapping_In in He.
  destruct He as (He & Hle & Ha & Hcf). exact (Hnone e He Hle Ha Hcf).
Qed.

Lemma cancel_frees_the_dates_witness :
  available SampleDates.strptime (Sample.S CANCELLED) 1
            (Some "2024-01-05") (Some "2024-01-10")
  = Available_200 true 1 (Sample.jan 5) (Sample.jan 10).
Proof.
  apply (cancel_frees_the_dates
           SampleDates.strptime (Sample.jan 1) (Sample.S PENDING) Sample.guest20 1
           (Sample.B PENDING) (Sample.S CANCELLED) (Some 1) CANCELLED
           "2024-01-05" "2024-01-10").
  - repeat constructor. simpl. tauto.
  - simpl. now left.
  - reflexivity.
  - reflexivity.
  - discriminate.
  - discriminate.
  - reflexivity.
  - reflexivity.
Defined.

Lemma available_errors_witness :
  available Sample.strptime (Sample.S PENDING) 1 (Some "2024-01-08") (Some "tomorrow")
  = Available_400 Invalid_date_format.
Proof.
  apply (proj2 (proj2 (available_errors Sample.strptime (Sample.S PENDING) 1
                         (Some "2024-01-08") (Some "tomorrow")))
               "2024-01-08" "tomorrow").
  - discriminate.
  - reflexivity.
  - reflexivity.
  - discriminate.
  - discriminate.
  - right. reflexivity.
Defined.

(** [full_clean] of a stored, well-formed booking that is being
    cancelled: the only error left is the overlap with another row. *)
Lemma full_clean_of_cancelled today st key b l :
  pk b = Some key -> key <> 0 ->
  today <= check_in b ->
  well_formed_booking b ->
  get_listing st (listing b) = Some l -> guests b <= max_guests l ->
  Booking_full_clean today st (set_status b CANCELLED)
  = if exists_ (exclude_pk (Some key)
                  (filter_overlapping (bookings st) (listing b)
                     (check_in b) (check_out b)))
    then [(NON_FIELD_ERRORS, Property_already_booked)]
    else [].
Proof.
  intros Hk Hk0 Hci (_ & Hlt & Hg & p & Hp & Hmin & Hdec) Hl Hmax.
  unfold Booking_full_clean. simpl. rewrite Hl.
  unfold Booking_clean_fields, validate_future_date, Booking_clean. simpl.
  unfold validate_total_price. rewrite Hp, Hmin, Hdec, Hk. simpl.
  destruct (Z.eqb_spec key 0); [contradiction|].
  destruct (Z.ltb_spec (check_in b) today); [lia|].
  destruct (Z.ltb_spec (check_out b) today); [lia|].
  destruct (Z.ltb_spec (guests b) 1); [lia|].
  destruct (Z.leb_spec (check_out b) (check_in b)); [lia|].
  destruct (exists_ _); [reflexivity|].
  destruct (Z.gtb_spec (guests b) (max_guests l)); [lia|reflexivity].
Qed.

(** X11.  When can a booking be cancelled?  For a stored, well-formed
    booking that is neither CANCELLED nor COMPLETED, whose check-in is not
    before today, whose key is not 0 and whose listing exists and takes its
    guests, cancel by the guest or staff answers 200 with status CANCELLED
    exactly when no other PENDING or CONFIRMED booking of the listing
    overlaps its stay; when one does, cancel raises "already booked" and
    changes nothing.  (Key 0 is falsy in [clean], which then finds the
    booking's own row.) *)
Theorem cancel_succeeds :
  forall today st user key b l,
    primary_key (bookings st) ->
    In b (bookings st) -> pk b = Some key -> key <> 0 ->
    guest b = user_id user \/ is_staff user = true ->
    status b <> CANCELLED -> status b <> COMPLETED ->
    today <= check_in b ->
    well_formed_booking b ->
    get_listing st (listing b) = Some l -> guests b <= max_guests l ->
    ((exists st',
         cancel today st user key = (st', Cancel_200 (Some key) CANCELLED)
         /\ get_booking (bookings st') key = Some (set_status b CANCELLED))
     <-> (forall e, In e (bookings st) -> listing e = listing b -> active e ->
                    pk e <> Some key ->
                    ~ conflicts e (check_in b) (check_out b)))
    /\ ((exists e, In e (bookings st) /\ listing e = listing b /\ active e
                   /\ pk e <> Some key
                   /\ conflicts e (check_in b) (check_out b)) ->
        cancel today st user key
        = (st, Cancel_raised [(NON_FIELD_ERRORS, Property_already_booked)])).
Proof.
  intros today st user key b l Hnd Hb Hk Hk0 Hu Hs1 Hs2 Hci Hwf Hl Hmax.
  pose proof (full_clean_of_cancelled today st key b l Hk Hk0 Hci Hwf Hl Hmax)
    as Hclean.
  assert (Hex : exists_ (exclude_pk (Some key)
                           (filter_overlapping (bookings st) (listing b)
                              (check_in b) (check_out b))) = true
                <-> exists e, In e (bookings st) /\ listing e = listing b
                              /\ active e /\ pk e <> Some key
                              /\ conflicts e (check_in b) (check_out b)).
  { rewrite exists__true. split.
    - intros [e He]. apply exclude_pk_In in He. destruct He as [He Hx].
      apply filter_overlapping_In in He. destruct He as (He & Hle & Ha & Hc).
      exists e. repeat split; try assumption; try apply Hc.
      intros Hke. apply Hx. split; [discriminate|exact Hke].
    - intros (e & He & Hle & Ha & Hke & Hc). exists e.
      apply exclude_pk_In. split.
      + apply filter_overlapping_In. tauto.
      + intros [_ Hx]. contradiction. }
  assert (Hcancel : cancel today st user key
                    = match Booking_save today st (set_status b CANCELLED) with
                      | ValidationError errs => (st, Cancel_raised errs)
                      | Persisted st' b' => (st', Cancel_200 (pk b') (status b'))
                      end).
  { rewrite (cancel_eq today st user key b Hnd Hb Hk).
    assert (E : is_staff user || (guest b =? user_id user) = true).
    { destruct Hu as [->| ->]; [rewrite Z.eqb_refl; apply orb_true_r|reflexivity]. }
    rewrite E. simpl.
    destruct (Status_eqb (status b) CANCELLED) eqn:E1;
      [apply Status_eqb_eq in E1; contradiction|].
    destruct (Status_eqb (status b) COMPLETED) eqn:E2;
      [apply Status_eqb_eq in E2; contradiction|].
    reflexivity. }
  destruct (exists_ _) eqn:Eo.
  - assert (Hraised : cancel today st user key
                      = (st, Cancel_raised [(NON_FIELD_ERRORS, Property_already_booked)])).
    { rewrite Hcancel, Booking_save_invalid; rewrite Hclean; [reflexivity|discriminate]. }
    split; [|intros _; exact Hraised]. split.
    + intros (st' & Hc & _). rewrite Hraised in Hc. discriminate Hc.
    + intros Hfree. destruct (proj1 Hex eq_refl) as (e & He & Hle & Ha & Hke & Hc).
      elim (Hfree e He Hle Ha Hke Hc).
  - split.
    + split.
      * intros _ e He Hle Ha Hke Hc.
        assert (Ht : false = true) by (apply Hex; exists e; tauto). discriminate Ht.
      * intros _.
        assert (H200 : exists st' k s, cancel today st user key = (st', Cancel_200 k s)).
        { rewrite Hcancel, (Booking_save_valid _ _ _ Hclean). eauto. }
        destruct H200 as (st' & k & s & Hc). exists st'.
        destruct (cancel_200_row _ _ _ _ _ _ _ _ Hnd Hb Hk Hc) as (-> & -> & Hrow).
        split; assumption.
    + intros Hsome. apply Hex in Hsome. discriminate Hsome.
Qed.

Lemma primary_key_double_booked :
  primary_key (bookings SampleReviews.double_booked).
Proof.
  unfold primary_key. simpl.
  repeat (constructor; [simpl; intuition discriminate|]). constructor.
Qed.

Lemma well_formed_B7 : well_formed_booking SampleReviews.B7.
Proof.
  unfold well_formed_booking. simpl.
  split; [discriminate|]. split; [vm_compute; reflexivity|].
  split; [lia|]. eexists. split; [reflexivity|]. split; reflexivity.
Qed.

Lemma cancel_succeeds_witness :
  (exists st',
      cancel (Sample.jan 20) SampleReviews.booked SampleReviews.guest30 7
      = (st', Cancel_200 (Some 7) CANCELLED)
      /\ get_booking (bookings st') 7
         = Some (set_status SampleReviews.B7 CANCELLED))
  /\ cancel (Sample.jan 20) SampleReviews.double_booked SampleReviews.guest30 7
     = (SampleReviews.double_booked,
        Cancel_raised [(NON_FIELD_ERRORS, Property_already_booked)]).
Proof.
  split.
  - apply (cancel_succeeds (Sample.jan 20) SampleReviews.booked
             SampleReviews.guest30 7 SampleReviews.B7 Sample.L).
    + exact primary_key_booked.
    + simpl. do 6 right. now left.
    + reflexivity.
    + discriminate.
    + left. reflexivity.
    + discriminate.
    + discriminate.
    + vm_compute. discriminate.
    + exact well_formed_B7.
    + reflexivity.
    + simpl. lia.
    + intros e He _ Ha Hke _. simpl in He.
      repeat (destruct He as [<-|He];
              [try (now elim Hke); destruct Ha as [Ha|Ha]; discriminate Ha|]).
      destruct He.
  - apply (cancel_succeeds (Sample.jan 20) SampleReviews.double_booked
             SampleReviews.guest30 7 SampleReviews.B7 Sample.L).
    + exact primary_key_double_booked.
    + simpl. do 6 right. now left.
    + reflexivity.
    + discriminate.
    + left. reflexivity.
    + discriminate.
    + discriminate.
    + vm_compute. discriminate.
    + exact well_formed_B7.
    + reflexivity.
    + simpl. lia.
    + exists (set_pk (SampleReviews.request 31 27 30) (Some 8)).
      split; [simpl; do 7 right; now left|].
      split; [reflexivity|]. split; [left; reflexivity|].
      split; [discriminate|]. vm_compute. split; reflexivity.
Defined.

(** X12.  A second cancel of a cancelled booking, by the same user and on
    any later day, answers "already cancelled" and leaves the store as the
    first cancel left it. *)
Theorem cancel_twice :
  forall today today' st user key b st' k s,
    primary_key (bookings st) -> In b (bookings st) -> pk b = Some key ->
    cancel today st user key = (st', Cancel_200 k s) ->
    cancel today' st' user key
    = (st', Cancel_400 This_booking_is_already_cancelled).
Proof.
  intros today today' st user key b st' k s Hnd Hb Hk Hc.
  destruct (cancel_200_row _ _ _ _ _ _ _ _ Hnd Hb Hk Hc) as (_ & _ & Hrow).
  apply get_booking_Some in Hrow. destruct Hrow as [Hb' Hk'].
  assert (Hnd' : primary_key (bookings st')).
  { unfold primary_key. rewrite (cancel_keys _ _ _ _ _ _ Hc). exact Hnd. }
  assert (Hu : is_staff user || (guest b =? user_id user) = true).
  { rewrite (cancel_eq today st user key b Hnd Hb Hk) in Hc.
    destruct (is_staff user || (guest b =? user_id user)); [reflexivity|].
    discriminate Hc. }
  rewrite (cancel_eq today' st' user key _ Hnd' Hb' Hk'). simpl.
  rewrite Hu. reflexivity.
Qed.

Lemma cancel_twice_witness :
  cancel (Sample.jan 3) (Sample.S CANCELLED) Sample.guest20 1
  = (Sample.S CANCELLED, Cancel_400 This_booking_is_already_cancelled).
Proof.
  apply (cancel_twice (Sample.jan 1) (Sample.jan 3) (Sample.S PENDING)
                      Sample.guest20 1 (Sample.B PENDING) (Sample.S CANCELLED)
                      (Some 1) CANCELLED).
  - repeat constructor. simpl. tauto.
  - simpl. now left.
  - reflexivity.
  - reflexivity.
Defined.

(** ** Reviews *)

Lemma NoDup_key_eq {A K} (key : A -> K) (l : list A) :
  NoDup (map key l) ->
  forall x y, In x l -> In y l -> key x = key y -> x = y.
Proof.
  induction l as [|a l IH]; intros Hnd x y Hx Hy Hk; [destruct Hx|].
  apply NoDup_cons_iff in Hnd. destruct Hnd as [Ha Hnd].
  destruct Hx as [<-|Hx], Hy as [<-|Hy]; try reflexivity.
  - elim Ha. rewrite Hk. now apply in_map.
  - elim Ha. rewrite <- Hk. now apply in_map.
  - now apply IH.
Qed.

Lemma filter_all {A} (f : A -> bool) (l : list A) :
  (forall x, In x l -> f x = true) -> filter f l = l.
Proof.
  induction l as [|a l IH]; simpl; intros H; [reflexivity|].
  rewrite (H a (or_introl eq_refl)). f_equal. apply IH. auto.
Qed.

Lemma fresh_review_pk_new rs r :
  In r rs -> review_pk r <> Some (fresh_review_pk rs).
Proof.
  intros Hr Heq. assert (H : In (Some (fresh_review_pk rs)) (map review_pk rs)).
  { rewrite <- Heq. now apply in_map. }
  apply max_pk_ge in H. unfold fresh_review_pk in H. lia.
Qed.

(** The rows after a review is written. *)
Lemma Review_write_rows rs self rs' self' :
  Review_write rs self = (rs', self') ->
  set_review_pk self' (review_pk self) = self
  /\ review_pk self' <> None
  /\ (review_pk self <> None -> self' = self)
  /\ In self' rs'
  /\ (forall e, In e rs' ->
                e = self' \/ (In e rs /\ review_pk e <> review_pk self'))
  /\ (NoDup (map review_pk rs) -> NoDup (map review_pk rs')).
Proof.
  unfold Review_write. destruct (review_pk self) as [p|] eqn:Ep.
  - destruct (exists_ _) eqn:E; intros H; injection H as <- <-.
    + split; [rewrite <- Ep; destruct self; reflexivity|].
      split; [congruence|]. split; [reflexivity|]. split; [|split].
      * apply exists__true in E. destruct E as [x Hx].
        apply filter_In in Hx. destruct Hx as [Hx Hp].
        apply in_map_iff. exists x. rewrite Hp. auto.
      * intros e He. apply in_map_iff in He. destruct He as (x & Hx & Hin).
        destruct (opt_Z_eqb (review_pk x) (Some p)) eqn:Ex; [now left|].
        right. subst e. split; [exact Hin|]. rewrite Ep. intros Heq.
        apply opt_Z_eqb_eq in Heq. congruence.
      * intros Hnd. rewrite map_map. rewrite (map_ext _ review_pk); [exact Hnd|].
        intros e. destruct (opt_Z_eqb (review_pk e) (Some p)) eqn:Ee; [|reflexivity].
        apply opt_Z_eqb_eq in Ee. congruence.
    + assert (Hnew : forall e, In e rs -> review_pk e <> Some p).
      { intros e He Heq. rewrite exists__false in E. apply (E e).
        apply filter_In. split; [exact He|]. now apply opt_Z_eqb_eq. }
      split; [rewrite <- Ep; destruct self; reflexivity|].
      split; [congruence|]. split; [reflexivity|].
      split; [apply in_or_app; right; now left|]. split.
      * intros e He. apply in_app_or in He.
        destruct He as [He|[He|[]]]; [|now left].
        right. split; [exact He|]. rewrite Ep. now apply Hnew.
      * intros Hnd. rewrite map_app. simpl. rewrite Ep.
        apply NoDup_snoc; [exact Hnd|]. intros Hin. apply in_map_iff in Hin.
        destruct Hin as (e & He & Hin). exact (Hnew e Hin He).
  - intros H; injection H as <- <-.
    split; [rewrite <- Ep; destruct self; reflexivity|].
    split; [discriminate|]. split; [intros H; now elim H|].
    split; [apply in_or_app; right; now left|]. split.
    + intros e He. apply in_app_or in He.
      destruct He as [He|[He|[]]]; [|now left].
      right. split; [exact He|]. simpl. now apply fresh_review_pk_new.
    + intros Hnd. rewrite map_app. simpl.
      apply NoDup_snoc; [exact Hnd|]. intros Hin. apply in_map_iff in Hin.
      destruct Hin as (e & He & Hin). exact (fresh_review_pk_new _ _ Hin He).
Qed.

(** What [Review.save] has checked and written when it does not stop at
    [full_clean], whether the aggregate step then raises or not. *)
Lemma Review_save_written today st self st' :
  (exists self', Review_save today st self = Persisted st' self')
  \/ Review_save today st self = InvalidOperation st' ->
  Review_clean_fields self = []
  /\ Review_validate_unique st self = []
  /\ reviews st' = fst (Review_write (reviews st) self).
Proof.
  unfold Review_save, Review_full_clean.
  destruct (get_listing st (review_listing self)) as [l|].
  2:{ intros [[s' H]|H]; discriminate H. }
  destruct (Review_clean_fields self).
  2:{ intros [[s' H]|H]; discriminate H. }
  destruct (Review_clean today st self).
  { intros [[s' H]|H]; discriminate H. }
  destruct (Review_validate_unique st self).
  2:{ intros [[s' H]|H]; discriminate H. }
  simpl. destruct (Review_write (reviews st) self) as [rs s2]. simpl.
  destruct (get_listing _ _) as [l2|].
  - destruct (update_average_rating _ l2) as [st2|] eqn:E.
    + intros [[s' H]|H]; [|discriminate H]. injection H as <- _.
      destruct (update_average_rating_tables _ _ _ E) as [_ ->]. auto.
    + intros [[s' H]|H]; [discriminate H|]. injection H as <-. auto.
  - intros [[s' H]|H]; [|discriminate H]. injection H as <- _. auto.
Qed.

Lemma Review_delete_reviews st self st' :
  Review_delete st self = Deleted_and_updated st'
  \/ Review_delete st self = Deleted_then_InvalidOperation st' ->
  exists p, review_pk self = Some p
            /\ reviews st'
               = filter (fun r => negb (opt_Z_eqb (review_pk r) (Some p)))
                        (reviews st).
Proof.
  unfold Review_delete. destruct (get_listing _ _) as [l|].
  2:{ intros [H|H]; discriminate H. }
  destruct (review_pk self) as [p|]; [|intros [H|H]; discriminate H].
  intros H. exists p. split; [reflexivity|].
  destruct (update_average_rating _ l) as [st2|] eqn:E;
    destruct H as [H|H]; try discriminate H; injection H as <-.
  - now destruct (update_average_rating_tables _ _ _ E) as [_ ->].
  - reflexivity.
Qed.

(** A property of the review table that the write of a validated review
    and deletions keep is kept by every operation. *)
Lemma step_reviews_invariant (P : list Review -> Prop) :
  (forall st self,
      P (reviews st) -> Review_clean_fields self = [] ->
      Review_validate_unique st self = [] ->
      P (fst (Review_write (reviews st) self))) ->
  (forall rs keep, P rs -> P (filter keep rs)) ->
  forall st st', step st st' -> P (reviews st) -> P (reviews st').
Proof.
  intros Hsave Hfilter st st' Hstep Hinv.
  assert (Hb : forall today s self s' self',
             Booking_save today s self = Persisted s' self' ->
             reviews s' = reviews s).
  { intros today s self s' self' H. apply Booking_save_Persisted in H.
    destruct H as (l & _ & _ & _ & _ & ->). reflexivity. }
  destruct Hstep as
    [today st self st' self' H | today st user key st' r H
    | today st user data st' self' H | today st self st' self' H
    | today st self st' H | st self st' H | st self st' H | st keep | st keep
    | st ls].
  - now rewrite (Hb _ _ _ _ _ H).
  - apply cancel_rows in H. destruct H as [->|(b & _ & _ & _ & ->)]; exact Hinv.
  - unfold BookingSerializer_create in H.
    destruct (data_listing data), (data_check_in data), (data_check_out data),
      (data_guests data); try discriminate.
    injection H as H. now rewrite (Hb _ _ _ _ _ H).
  - destruct (Review_save_written today st self st') as (Hf & Hu & ->); eauto.
  - destruct (Review_save_written today st self st') as (Hf & Hu & ->); auto.
  - destruct (Review_delete_reviews st self st') as (p & _ & ->); auto.
  - destruct (Review_delete_reviews st self st') as (p & _ & ->); auto.
  - exact Hinv.
  - simpl. now apply Hfilter.
  - exact Hinv.
Qed.

Lemma Review_validate_unique_nil st self :
  Review_validate_unique st self = [] ->
  forall r, In r (reviews st) ->
            review_listing r = review_listing self ->
            review_user r = review_user self ->
            review_pk self <> None /\ review_pk r = review_pk self.
Proof.
  unfold Review_validate_unique. destruct (exists_ _) eqn:E; [discriminate|].
  intros _ r Hr Hl Hu. rewrite exists__false in E.
  destruct (review_pk self) as [p|] eqn:Ep.
  - split; [discriminate|].
    destruct (opt_Z_eqb (review_pk r) (Some p)) eqn:Er;
      [now apply opt_Z_eqb_eq in Er|].
    elim (E r). apply filter_In. split; [exact Hr|].
    rewrite Hl, Hu, !Z.eqb_refl, Er. reflexivity.
  - elim (E r). apply filter_In. split; [exact Hr|].
    rewrite Hl, Hu, !Z.eqb_refl. reflexivity.
Qed.

Lemma reachable_one_review_per_user st :
  reachable st -> one_review_per_user (reviews st).
Proof.
  induction 1 as [|st st' _ IH Hs].
  { split; [constructor|intros r1 r2 []]. }
  revert Hs IH. apply step_reviews_invariant.
  - intros s self [Hnd Hone] _ Hu.
    pose proof (Review_validate_unique_nil _ _ Hu) as Huniq.
    destruct (Review_write (reviews s) self) as [rs' self'] eqn:Hw. simpl.
    apply Review_write_rows in Hw.
    destruct Hw as (Hset & _ & Hsame & _ & Hrows & Hnd').
    split; [now apply Hnd'|].
    assert (Hself : review_listing self' = review_listing self
                    /\ review_user self' = review_user self).
    { rewrite <- Hset. split; reflexivity. }
    assert (Hclash : forall e, In e (reviews s) ->
                               review_pk e <> review_pk self' ->
                               review_listing e = review_listing self' ->
                               review_user e = review_user self' -> False).
    { intros e He Hne Hl Hu'. destruct Hself as [Sl Su].
      destruct (Huniq e He) as [Hp Hk]; [congruence|congruence|].
      rewrite (Hsame Hp) in Hne. contradiction. }
    intros r1 r2 H1 H2 Hl Hu'.
    destruct (Hrows _ H1) as [->|[I1 K1]], (Hrows _ H2) as [->|[I2 K2]].
    + reflexivity.
    + exfalso. apply (Hclash r2 I2 K2); congruence.
    + exfalso. apply (Hclash r1 I1 K1); congruence.
    + now apply Hone.
  - intros rs keep [Hnd Hone]. split.
    + clear Hone. induction rs as [|r rs IH]; simpl; [constructor|].
      apply NoDup_cons_iff in Hnd. destruct Hnd as [Hr Hnd].
      destruct (keep r); simpl; [|now apply IH].
      apply NoDup_cons_iff. split; [|now apply IH].
      rewrite in_map_iff. intros (e & He & Hin). apply Hr.
      rewrite <- He. apply in_map. apply filter_In in Hin. tauto.
    + intros r1 r2 H1 H2. apply filter_In in H1, H2. apply Hone; tauto.
Qed.

(** The sample stores are reachable. *)
Lemma reachable_save_bookings today bs :
  forall st st', reachable st ->
                 SampleReviews.save_bookings today st bs = Some st' ->
                 reachable st'.
Proof.
  induction bs as [|b bs IH]; simpl; intros st st' Hr H.
  - injection H as <-. exact Hr.
  - destruct (Booking_save today st b) as [s1 b1|errs] eqn:E; [|discriminate].
    apply (IH s1 st'); [|exact H].
    exact (reachable_step _ _ Hr (step_Booking_save _ _ _ _ _ E)).
Qed.

Lemma reachable_create_reviews today rs :
  forall st st', reachable st ->
                 Sample.create_reviews today st rs = Some st' ->
                 reachable st'.
Proof.
  induction rs as [|r rs IH]; simpl; intros st st' Hr H.
  - injection H as <-. exact Hr.
  - destruct (Review_save today st r) as [[s1 r1|errs]|s1] eqn:E; try discriminate.
    apply (IH s1 st'); [|exact H].
    exact (reachable_step _ _ Hr (step_Review_save _ _ _ _ _ E)).
Qed.

Lemma reachable_after6 : reachable SampleReviews.after6.
Proof.
  apply (reachable_create_reviews (Sample.jan 20)
           [Sample.R None 20 5; Sample.R None 21 4; Sample.R None 22 3;
            SampleReviews.private None 23 1; SampleReviews.of_L2 None 20 2;
            SampleReviews.of_L2 None 21 4]
           SampleReviews.stays).
  - apply (reachable_save_bookings (Sample.jan 1) (bookings SampleReviews.stays)
             (mkStore [Sample.L; SampleReviews.L2] [] [])).
    + apply reachable_step with (st := empty_store); [constructor|].
      apply (step_listings empty_store [Sample.L; SampleReviews.L2]).
    + vm_compute. reflexivity.
  - vm_compute. reflexivity.
Defined.

(** X13.  In every reachable store a user has at most one review of a
    listing: two stored reviews with the same listing and user are the same
    row.  [Review.save] keeps this through the [unique_together] check of
    [full_clean]: a new review of a listing by a user who has one there
    fails with the unique error and writes nothing. *)
Theorem reachable_reviews_unique :
  forall st, reachable st ->
    (forall r1 r2,
        In r1 (reviews st) -> In r2 (reviews st) ->
        review_listing r1 = review_listing r2 -> review_user r1 = review_user r2 ->
        r1 = r2)
    /\ (forall today self r,
           review_pk self = None ->
           In r (reviews st) ->
           review_listing r = review_listing self ->
           review_user r = review_user self ->
           get_listing st (review_listing self) <> None ->
           exists errs,
             Review_save today st self = ValidationError errs
             /\ In (NON_FIELD_ERRORS, Already_exists_with_this_listing_and_user)
                   errs).
Proof.
  intros st Hr. split.
  - intros r1 r2 H1 H2 Hl Hu.
    destruct (reachable_one_review_per_user st Hr) as [Hnd Hone].
    apply (NoDup_key_eq review_pk (reviews st) Hnd); try assumption.
    now apply Hone.
  - intros today self r Hnew Hin Hl Hu Hlisting.
    assert (Herr : In (NON_FIELD_ERRORS, Already_exists_with_this_listing_and_user)
                      (Review_full_clean today st self)).
    { unfold Review_full_clean.
      destruct (get_listing st (review_listing self)); [|now elim Hlisting].
      apply in_or_app. right. apply in_or_app. right.
      unfold Review_validate_unique. rewrite Hnew.
      assert (E : exists_ (filter (fun r0 =>
                             (review_listing r0 =? review_listing self)
                             && (review_user r0 =? review_user self)
                             && negb false) (reviews st)) = true).
      { apply exists__true. exists r. apply filter_In. split; [exact Hin|].
        rewrite Hl, Hu, !Z.eqb_refl. reflexivity. }
      rewrite E. now left. }
    exists (Review_full_clean today st self). split; [|exact Herr].
    unfold Review_save. destruct (Review_full_clean today st self);
      [destruct Herr|reflexivity].
Qed.

Lemma reachable_reviews_unique_witness :
  exists errs,
    Review_save (Sample.jan 25) SampleReviews.after6 (Sample.R None 20 3)
    = ValidationError errs
    /\ In (NON_FIELD_ERRORS, Already_exists_with_this_listing_and_user) errs.
Proof.
  apply (proj2 (reachable_reviews_unique SampleReviews.after6 reachable_after6)
               (Sample.jan 25) (Sample.R None 20 3) (Sample.R (Some 1) 20 5)).
  - reflexivity.
  - simpl. now left.
  - reflexivity.
  - reflexivity.
  - discriminate.
Defined.

(** ** The aggregate *)

Lemma reachable_ratings_in_range st :
  reachable st -> ratings_in_range (reviews st).
Proof.
  induction 1 as [|st st' _ IH Hs]; [intros r []|].
  revert Hs IH. apply step_reviews_invariant.
  - intros s self Hinv Hf _ r Hr.
    destruct (Review_write (reviews s) self) as [rs' self'] eqn:Hw. simpl in Hr.
    apply Review_write_rows in Hw. destruct Hw as (Hset & _ & _ & _ & Hrows & _).
    destruct (Hrows r Hr) as [->|[Hold _]]; [|now apply Hinv].
    assert (E : rating self' = rating self) by (rewrite <- Hset; reflexivity).
    rewrite E. unfold Review_clean_fields in Hf.
    apply app_nil_inv in Hf. destruct Hf as [Hf _].
    destruct (Z.leb_spec 1 (rating self)); [|discriminate].
    destruct (Z.leb_spec (rating self) 5); [lia|discriminate].
  - intros rs keep Hinv r Hr. apply filter_In in Hr. now apply Hinv.
Qed.

(** With ratings between 1 and 5 the aggregate fits its column. *)
Lemma update_average_rating_fits st l :
  ratings_in_range (reviews st) -> update_average_rating st l <> None.
Proof.
  intros Hr. unfold update_average_rating. rewrite stored_mean_spec.
  rewrite public_ratings_spec.
  pose proof (ratings_of_public_reviews_in_range _ (listing_pk l) Hr) as Hx.
  destruct (ratings_of_public_reviews (reviews st) (listing_pk l)) as [|x xs] eqn:E.
  - discriminate.
  - destruct (mean_to_two_places_in_range (x :: xs)) as (c & -> & _);
      [discriminate|exact Hx|discriminate].
Qed.

Lemma aggregate_stored_bounds st key :
  ratings_in_range (reviews st) -> aggregate_stored st key ->
  exists l c,
    get_listing st key = Some l
    /\ average_rating l = mkDecimal c (-2)
    /\ 0 <= review_count l
    /\ (review_count l = 0 -> c = 0)
    /\ (0 < review_count l -> 100 <= c <= 500).
Proof.
  intros Hr (l & Hl & Havg & Hcount).
  pose proof (ratings_of_public_reviews_in_range _ key Hr) as Hx.
  destruct (ratings_of_public_reviews (reviews st) key) as [|x xs] eqn:E.
  - simpl in Havg, Hcount. injection Havg as Havg. exists l, 0.
    split; [exact Hl|]. rewrite Havg, Hcount.
    repeat split; lia.
  - destruct (mean_to_two_places_in_range (x :: xs)) as (c & Hc & Hb & _);
      [discriminate|exact Hx|].
    rewrite Hc in Havg. injection Havg as Havg. exists l, c.
    split; [exact Hl|]. rewrite Havg, Hcount.
    cbn [List.length]. rewrite Nat2Z.inj_succ.
    repeat split; try lia; reflexivity.
Qed.

(** X14.  In a reachable store every stored rating is between 1 and 5.  So
    the aggregate steps of [Review.save] and [Review.delete] never raise
    [decimal.InvalidOperation], and after them the listing's average_rating
    is a decimal of two places that is 0.00 when review_count is 0 and
    between 1.00 and 5.00 otherwise; review_count is never negative. *)
Theorem aggregate_within_bounds :
  forall st, reachable st ->
    ratings_in_range (reviews st)
    /\ (forall today self st', Review_save today st self <> InvalidOperation st')
    /\ (forall self st', Review_delete st self <> Deleted_then_InvalidOperation st')
    /\ (forall today self st' self',
           Review_save today st self = Persisted st' self' ->
           exists l c,
             get_listing st' (review_listing self) = Some l
             /\ average_rating l = mkDecimal c (-2)
             /\ 0 <= review_count l
             /\ (review_count l = 0 -> c = 0)
             /\ (0 < review_count l -> 100 <= c <= 500))
    /\ (forall self st',
           Review_delete st self = Deleted_and_updated st' ->
           exists l c,
             get_listing st' (review_listing self) = Some l
             /\ average_rating l = mkDecimal c (-2)
             /\ 0 <= review_count l
             /\ (review_count l = 0 -> c = 0)
             /\ (0 < review_count l -> 100 <= c <= 500)).
Proof.
  intros st Hr. split; [now apply reachable_ratings_in_range|].
  split; [|split; [|split]].
  - intros today self st' H.
    pose proof (reachable_ratings_in_range _
                  (reachable_step _ _ Hr (step_Review_save_raised _ _ _ _ H))) as Hin.
    unfold Review_save in H. destruct (Review_full_clean _ _ _); [|discriminate].
    destruct (Review_write _ _) as [rs s2]. simpl in H.
    destruct (get_listing _ _) as [l|]; [|discriminate].
    destruct (update_average_rating _ l) eqn:E; [discriminate|].
    injection H as <-. exact (update_average_rating_fits _ l Hin E).
  - intros self st' H.
    pose proof (reachable_ratings_in_range _
                  (reachable_step _ _ Hr (step_Review_delete_raised _ _ _ H))) as Hin.
    unfold Review_delete in H. destruct (get_listing _ _) as [l|]; [|discriminate].
    destruct (review_pk self); [|discriminate].
    destruct (update_average_rating _ l) eqn:E; [discriminate|].
    injection H as <-. exact (update_average_rating_fits _ l Hin E).
  - intros today self st' self' Hs. apply aggregate_stored_bounds.
    + apply reachable_ratings_in_range.
      exact (reachable_step _ _ Hr (step_Review_save _ _ _ _ _ Hs)).
    + exact (Review_save_aggregate _ _ _ _ _ Hs).
  - intros self st' Hd. apply aggregate_stored_bounds.
    + apply reachable_ratings_in_range.
      exact (reachable_step _ _ Hr (step_Review_delete _ _ _ Hd)).
    + exact (Review_delete_aggregate _ _ _ Hd).
Qed.

Lemma aggregate_within_bounds_witness :
  exists st' l c,
    Review_delete SampleReviews.after6 (Sample.R (Some 2) 21 4)
    = Deleted_and_updated st'
    /\ get_listing st' 1 = Some l
    /\ average_rating l = mkDecimal c (-2)
    /\ 0 <= review_count l
    /\ (review_count l = 0 -> c = 0)
    /\ (0 < review_count l -> 100 <= c <= 500).
Proof.
  eexists.
  assert (Hd : Review_delete SampleReviews.after6 (Sample.R (Some 2) 21 4)
               = Deleted_and_updated _) by (vm_compute; reflexivity).
  destruct (proj2 (proj2 (proj2 (proj2
              (aggregate_within_bounds SampleReviews.after6 reachable_after6))))
              (Sample.R (Some 2) 21 4) _ Hd) as (l & c & H).
  exists l, c. split; [exact Hd|exact H].
Defined.

(** X15.  Creating a review and deleting it again is a round trip: when
    the stored ratings are between 1 and 5 and [Review.save] persists a new
    review, [Review.delete] of that review succeeds, the review table is as
    it was before the creation, the bookings are untouched and the listing
    carries the aggregate of the reviews that remain; if the listing
    carried the aggregate of its reviews before the creation, its
    average_rating and review_count are back to what they were. *)
Theorem review_create_delete_round_trip :
  forall today st self st' self',
    review_pk self = None ->
    ratings_in_range (reviews st) ->
    Review_save today st self = Persisted st' self' ->
    exists st'',
      Review_delete st' self' = Deleted_and_updated st''
      /\ reviews st'' = reviews st
      /\ bookings st'' = bookings st
      /\ aggregate_stored st'' (review_listing self)
      /\ (aggregate_stored st (review_listing self) ->
          exists l l'',
            get_listing st (review_listing self) = Some l
            /\ get_listing st'' (review_listing self) = Some l''
            /\ average_rating l'' = average_rating l
            /\ review_count l'' = review_count l).
Proof.
  intros today st self st' self' Hnew Hrange Hs.
  pose proof (Review_save_aggregate _ _ _ _ _ Hs) as (l' & Hl' & _).
  assert (Hbk : bookings st' = bookings st)
    by (apply (Review_save_bookings today st self st'); eauto).
  destruct (Review_save_written today st self st') as (_ & _ & Hrows); [eauto|].
  apply Review_save_Persisted in Hs.
  destruct Hs as (_ & _ & _ & _ & _ & _ & Hself & _).
  unfold Review_write in Hrows, Hself. rewrite Hnew in Hrows, Hself.
  simpl in Hrows, Hself.
  assert (Hlist : review_listing self' = review_listing self)
    by (rewrite Hself; reflexivity).
  assert (Hpk : review_pk self' = Some (fresh_review_pk (reviews st)))
    by (rewrite Hself; reflexivity).
  assert (Hf : filter (fun r => negb (opt_Z_eqb (review_pk r)
                                        (Some (fresh_review_pk (reviews st)))))
                      (reviews st') = reviews st).
  { rewrite Hrows, filter_app. simpl. rewrite Z.eqb_refl. simpl.
    rewrite app_nil_r. apply filter_all. intros r Hr.
    apply negb_true_iff.
    destruct (opt_Z_eqb (review_pk r) (Some (fresh_review_pk (reviews st)))) eqn:E;
      [|reflexivity].
    apply opt_Z_eqb_eq in E. elim (fresh_review_pk_new _ _ Hr E). }
  destruct (Review_delete st' self') as [st''| |st''] eqn:Hd.
  - exists st''.
    destruct (Review_delete_reviews st' self' st'') as (p & Hp & Hrs); [auto|].
    rewrite Hpk in Hp. injection Hp as <-. rewrite Hf in Hrs.
    pose proof (Review_delete_aggregate _ _ _ Hd) as Hagg. rewrite Hlist in Hagg.
    split; [reflexivity|]. split; [exact Hrs|].
    split; [rewrite (Review_delete_bookings st' self' st''); auto|].
    split; [exact Hagg|].
    intros (l & Hl & Havg & Hcount). destruct Hagg as (l'' & Hl'' & Havg'' & Hcount'').
    exists l, l''. rewrite Hrs in Havg'', Hcount''.
    split; [exact Hl|]. split; [exact Hl''|]. split; congruence.
  - exfalso. unfold Review_delete in Hd. rewrite Hlist, Hl', Hpk in Hd.
    destruct (update_average_rating _ l'); discriminate.
  - exfalso. unfold Review_delete in Hd. rewrite Hlist, Hl', Hpk in Hd.
    destruct (update_average_rating _ l') eqn:E; [discriminate|].
    revert E. apply update_average_rating_fits. simpl. rewrite Hf. exact Hrange.
Qed.

Lemma review_create_delete_round_trip_witness :
  exists st'',
    Review_delete SampleReviews.after6 (SampleReviews.of_L2 (Some 6) 21 4)
    = Deleted_and_updated st''
    /\ reviews st'' = reviews SampleReviews.after5
    /\ bookings st'' = bookings SampleReviews.after5
    /\ aggregate_stored st'' 2
    /\ (aggregate_stored SampleReviews.after5 2 ->
        exists l l'',
          get_listing SampleReviews.after5 2 = Some l
          /\ get_listing st'' 2 = Some l''
          /\ average_rating l'' = average_rating l
          /\ review_count l'' = review_count l).
Proof.
  apply (review_create_delete_round_trip
           (Sample.jan 20) SampleReviews.after5
           (SampleReviews.of_L2 None 21 4) SampleReviews.after6
           (SampleReviews.of_L2 (Some 6) 21 4)).
  - reflexivity.
  - intros r Hr. simpl in Hr.
    repeat (destruct Hr as [<-|Hr]; [simpl; lia|]). destruct Hr.
  - vm_compute. reflexivity.
Defined.


(** ** Serializer and model validation side by side *)

(** X16.  The field validators of [ReviewSerializer] accept what the model
    accepts: a rating passes [validate_rating] exactly when [full_clean]
    has no rating error for it, and, for an author with a completed stay, a
    stay date passes [validate_stay_date] exactly when [Review.clean]
    passes. *)
Theorem review_field_validators_agree :
  forall today st self,
    (ReviewSerializer_validate_rating (rating self) = None
     <-> 1 <= rating self <= 5)
    /\ (ReviewSerializer_validate_rating (rating self) = None
        <-> ~ In ("rating", Not_a_valid_choice) (Review_clean_fields self))
    /\ (has_completed_booking today st (review_listing self) (review_user self)
        = true ->
        (ReviewSerializer_validate_stay_date today (stay_date self) = None
         <-> Review_clean today st self = None)).
Proof.
  intros today st self.
  assert (Hother : ~ In ("rating", Not_a_valid_choice)
                        ((if String.eqb (title self) ""
                          then [("title", Field_cannot_be_blank)] else [])
                         ++ (if String.eqb (comment self) ""
                             then [("comment", Field_cannot_be_blank)] else []))).
  { intros H. apply in_app_or in H.
    destruct H as [H|H];
      [destruct (String.eqb (title self) "")|destruct (String.eqb (comment self) "")];
      simpl in H; try tauto; destruct H as [H|[]]; discriminate H. }
  assert (H1 : ReviewSerializer_validate_rating (rating self) = None
               <-> 1 <= rating self <= 5).
  { unfold ReviewSerializer_validate_rating.
    destruct (Z.leb_spec 1 (rating self)), (Z.leb_spec (rating self) 5); simpl;
      split; intros Hv; try reflexivity; try discriminate Hv; lia. }
  split; [exact H1|]. split.
  - rewrite H1. unfold Review_clean_fields.
    destruct (Z.leb_spec 1 (rating self)), (Z.leb_spec (rating self) 5); simpl.
    + split; [intros _; exact Hother|intros _; lia].
    + split; [intros; lia|intros Hv; elim Hv; now left].
    + split; [intros; lia|intros Hv; elim Hv; now left].
    + split; [intros; lia|intros Hv; elim Hv; now left].
  - intros Hc. unfold Review_clean, ReviewSerializer_validate_stay_date.
    rewrite Hc. simpl. destruct (stay_date self) as [d|]; [|tauto].
    destruct (d >? today); split; intros Hv; try reflexivity; discriminate Hv.
Qed.

Lemma review_field_validators_agree_witness :
  ReviewSerializer_validate_stay_date (Sample.jan 20) (Some (Sample.jan 25)) = None
  <-> Review_clean (Sample.jan 20) Sample.stays
        (mkReview None 1 20 5 "Stay" "Clean and quiet" (Some (Sample.jan 25)) true)
      = None.
Proof.
  apply (review_field_validators_agree
           (Sample.jan 20) Sample.stays
           (mkReview None 1 20 5 "Stay" "Clean and quiet" (Some (Sample.jan 25)) true)).
  reflexivity.
Defined.

(** X17.  With a stored booking as the serializer's instance, [validate]
    leaves the rows of the booking's key out of the overlap query: on the
    booking's own dates it answers that the listing is not available for
    the selected dates exactly when the dates pass the checks before the
    query, the listing is available and a PENDING or CONFIRMED booking of
    the listing with another key overlaps the stay.  The booking's own row
    never causes the answer; without the instance it does, for a PENDING or
    CONFIRMED booking whose dates pass those checks. *)
Theorem validate_excludes_own_booking :
  forall today st b l guests_,
    In b (bookings st) -> pk b <> None ->
    listing_pk l = listing b ->
    let data := mkBookingData (Some (check_in b)) (Some (check_out b))
                              (Some l) guests_ in
    let checked := today <= check_in b /\ check_in b < check_out b
                   /\ check_out b - check_in b <= 30
                   /\ is_available l = true in
    (BookingSerializer_validate today st (Some b) data
     = Some ("check_in", Listing_is_not_available_for_the_selected_dates)
     <-> checked
         /\ exists e, In e (bookings st) /\ listing e = listing b /\ active e
                      /\ pk e <> pk b
                      /\ conflicts e (check_in b) (check_out b))
    /\ (checked -> active b ->
        BookingSerializer_validate today st None data
        = Some ("check_in", Listing_is_not_available_for_the_selected_dates)).
Proof.
  intros today st b l g Hb Hk Hl data checked. subst data checked.
  unfold BookingSerializer_validate. simpl.
  assert (Hg : forall x, validate_guests (Some l) x
                         <> Some ("check_in", Listing_is_not_available_for_the_selected_dates)).
  { intros x. simpl. destruct (x >? max_guests l); discriminate. }
  destruct (Z.ltb_spec (check_in b) today) as [H1|H1].
  { split; [split; [discriminate|intros [(H & _) _]; lia]|intros (H & _); lia]. }
  destruct (Z.leb_spec (check_out b) (check_in b)) as [H2|H2].
  { split; [split; [discriminate|intros [(_ & H & _) _]; lia]|intros (_ & H & _); lia]. }
  destruct (Z.ltb_spec (check_out b - check_in b) 1) as [H3|H3]; [lia|].
  destruct (Z.gtb_spec (check_out b - check_in b) 30) as [H4|H4].
  { split; [split; [discriminate|intros [(_ & _ & H & _) _]; lia]
           |intros (_ & _ & H & _); lia]. }
  destruct (is_available l) eqn:Hav; simpl.
  2:{ split; [split; [discriminate|intros [(_ & _ & _ & H) _]; discriminate H]
             |intros (_ & _ & _ & H); discriminate H]. }
  split.
  - destruct (exists_ (exclude_pk (pk b) _)) eqn:Eo.
    + split; [intros _|reflexivity]. split; [repeat split; lia|].
      apply exists__true in Eo. destruct Eo as [e He].
      apply exclude_pk_In in He. destruct He as [He Hx].
      apply filter_overlapping_In in He. destruct He as (He & Hle & Ha & Hc).
      exists e. split; [exact He|]. split; [congruence|]. split; [exact Ha|].
      split; [|exact Hc]. intros Hke. apply Hx. split; assumption.
    + split; [intros H; elim (Hg _ H)|].
      intros (_ & e & He & Hle & Ha & Hke & Hc). exfalso.
      rewrite exists__false in Eo. apply (Eo e).
      apply exclude_pk_In. split.
      * apply filter_overlapping_In. split; [exact He|].
        split; [congruence|]. split; assumption.
      * intros [_ Hx]. contradiction.
  - intros _ Ha.
    assert (Eo : exists_ (filter_overlapping (bookings st) (listing_pk l)
                            (check_in b) (check_out b)) = true).
    { apply exists__true. exists b. apply filter_overlapping_In.
      split; [exact Hb|]. split; [congruence|]. split; [exact Ha|].
      unfold conflicts. lia. }
    rewrite Eo. reflexivity.
Qed.

Lemma validate_excludes_own_booking_witness :
  BookingSerializer_validate (Sample.jan 20) SampleReviews.booked
    (Some SampleReviews.B7) SampleReviews.data7
  <> Some ("check_in", Listing_is_not_available_for_the_selected_dates)
  /\ BookingSerializer_validate (Sample.jan 20) SampleReviews.booked
       None SampleReviews.data7
     = Some ("check_in", Listing_is_not_available_for_the_selected_dates)
  /\ BookingSerializer_validate (Sample.jan 20) SampleReviews.double_booked
       (Some SampleReviews.B7) SampleReviews.data7
     = Some ("check_in", Listing_is_not_available_for_the_selected_dates).
Proof.
  assert (Hchecked : Sample.jan 20 <= check_in SampleReviews.B7
                     /\ check_in SampleReviews.B7 < check_out SampleReviews.B7
                     /\ check_out SampleReviews.B7 - check_in SampleReviews.B7 <= 30
                     /\ is_available Sample.L = true).
  { vm_compute. repeat split; discriminate. }
  assert (Hin : In SampleReviews.B7 (bookings SampleReviews.booked))
    by (simpl; do 6 right; now left).
  assert (Hin2 : In SampleReviews.B7 (bookings SampleReviews.double_booked))
    by (simpl; do 6 right; now left).
  assert (Hk : pk SampleReviews.B7 <> None) by discriminate.
  destruct (validate_excludes_own_booking (Sample.jan 20) SampleReviews.booked
              SampleReviews.B7 Sample.L (Some 2) Hin Hk eq_refl)
    as [Hown Hnone].
  destruct (validate_excludes_own_booking (Sample.jan 20)
              SampleReviews.double_booked
              SampleReviews.B7 Sample.L (Some 2) Hin2 Hk eq_refl)
    as [Hother _].
  split; [|split].
  - intros H. apply Hown in H. destruct H as (_ & e & He & _ & Ha & Hke & _).
    simpl in He.
    repeat (destruct He as [<-|He];
            [try (now elim Hke); destruct Ha as [Ha|Ha]; discriminate Ha|]).
    destruct He.
  - apply Hnone; [exact Hchecked|left; reflexivity].
  - apply Hother. split; [exact Hchecked|].
    exists (set_pk (SampleReviews.request 31 27 30) (Some 8)).
    split; [simpl; do 7 right; now left|].
    split; [reflexivity|]. split; [left; reflexivity|].
    split; [discriminate|]. vm_compute. split; reflexivity.
Defined.

(** X18.  The two versions of [BookingSerializer.validate] side by side.
    On a request without one of its dates the earlier one raises
    [KeyError], while the later one skips the checks of the dates and
    answers as its check of the guests does.  On a request that carries
    listing, check_in and check_out, the earlier one accepts exactly when
    check_in < check_out and no PENDING or CONFIRMED booking of the
    listing, the rows of the instance's key apart, meets the range; and on
    such a request what the later one accepts, the earlier one accepts. *)
Theorem validate_earlier_and_later :
  forall today st instance data,
    (data_check_in data = None \/ data_check_out data = None ->
     AlxTravelApp.BookingSerializer_validate st instance data
     = AlxTravelApp.KeyError
     /\ BookingSerializer_validate today st instance data
        = validate_guests (data_listing data)
            (match data_guests data with Some g => g | None => 1 end))
    /\ (forall l ci co,
           data_listing data = Some l -> data_check_in data = Some ci ->
           data_check_out data = Some co ->
           (AlxTravelApp.BookingSerializer_validate st instance data
            = AlxTravelApp.Valid
            <-> ci < co
                /\ forall e, In e (bookings st) -> listing e = listing_pk l ->
                             active e ->
                             ~ excluded_by (match instance with
                                            | Some i => pk i
                                            | None => None
                                            end) e ->
                             ~ conflicts e ci co)
           /\ (BookingSerializer_validate today st instance data = None ->
               AlxTravelApp.BookingSerializer_validate st instance data
               = AlxTravelApp.Valid)).
Proof.
  intros today st instance data. split.
  - unfold AlxTravelApp.BookingSerializer_validate, BookingSerializer_validate.
    intros [-> | ->]; [split; reflexivity|].
    destruct (data_check_in data); split; reflexivity.
  - intros l ci co Hl Hi Ho.
    assert (Hq : match instance with
                 | Some i => exclude_pk (pk i)
                               (filter_overlapping (bookings st) (listing_pk l) ci co)
                 | None => filter_overlapping (bookings st) (listing_pk l) ci co
                 end
                 = exclude_pk (match instance with
                               | Some i => pk i
                               | None => None
                               end)
                     (filter_overlapping (bookings st) (listing_pk l) ci co)).
    { destruct instance; reflexivity. }
    unfold AlxTravelApp.BookingSerializer_validate, BookingSerializer_validate.
    rewrite Hl, Hi, Ho, Hq.
    destruct (Z.geb_spec ci co) as [Hge|Hlt].
    + split; [split; [discriminate|intros [H _]; lia]|].
      destruct (ci <? today); [discriminate|].
      destruct (Z.leb_spec co ci); [discriminate|lia].
    + destruct (exists_ _) eqn:E.
      * split.
        -- split; [discriminate|]. intros [_ H].
           apply exists__true in E. destruct E as [e He].
           apply exclude_pk_In in He. destruct He as [He Hx].
           apply filter_overlapping_In in He.
           destruct He as (He & Hle & Ha & Hc). elim (H e He Hle Ha Hx Hc).
        -- destruct (ci <? today); [discriminate|].
           destruct (co <=? ci); [discriminate|].
           destruct (co - ci <? 1); [discriminate|].
           destruct (co - ci >? 30); [discriminate|].
           destruct (negb (is_available l)); discriminate.
      * split; [|reflexivity]. split; [|reflexivity]. intros _.
        split; [lia|]. intros e He Hle Ha Hx Hc.
        rewrite exists__false in E. apply (E e).
        apply exclude_pk_In. split; [|exact Hx].
        apply filter_overlapping_In. tauto.
Qed.

Lemma validate_earlier_and_later_witness :
  AlxTravelApp.BookingSerializer_validate SampleReviews.booked None
    (mkBookingData (Some (Sample.jan 28)) (Some (Sample.jan 30))
                   (Some Sample.L) (Some 2))
  = AlxTravelApp.Valid
  /\ (AlxTravelApp.BookingSerializer_validate SampleReviews.booked None
        (mkBookingData None (Some (Sample.jan 30)) (Some Sample.L) (Some 2))
      = AlxTravelApp.KeyError
      /\ BookingSerializer_validate (Sample.jan 20) SampleReviews.booked None
           (mkBookingData None (Some (Sample.jan 30)) (Some Sample.L) (Some 2))
         = None).
Proof.
  split.
  - apply (proj2 (validate_earlier_and_later (Sample.jan 20) SampleReviews.booked
                    None
                    (mkBookingData (Some (Sample.jan 28)) (Some (Sample.jan 30))
                                   (Some Sample.L) (Some 2)))
                 Sample.L (Sample.jan 28) (Sample.jan 30)
                 eq_refl eq_refl eq_refl).
    vm_compute. reflexivity.
  - apply (proj1 (validate_earlier_and_later (Sample.jan 20) SampleReviews.booked
                    None
                    (mkBookingData None (Some (Sample.jan 30)) (Some Sample.L)
                                   (Some 2)))).
    left. reflexivity.
Defined.
